(** * MCI Simulation Dashboard: the normalizer and the query engine of
      [dashboard.py], embedded and verified.

    The development follows the script top to bottom:
    - [Py]        the [str] methods the script calls ([strip], [lower], [in]);
    - [Int64]     the arithmetic of pandas' [int64] columns;
    - [Float64]   the rounding of pandas' [float64] columns;
    - [Pandas]    cells, labelled rows, frames and the element-wise column
                  operations ([to_numeric], [fillna], [astype], [dropna],
                  [sort_values]);
    - [Normalizer] [auto_clean_raw_to_csv] (section 3 of the script);
    - [Dashboard]  [classify_severity], the severity check boxes with
                  [enforce_one], the filter logic and the displayed
                  aggregates (sections 5 to 7 of the script).

    Numbers of [float64] columns are the rationals that the doubles
    denote (type [Q], finite values only: the infinities are not
    modelled); where the script computes with them the result is rounded
    to the nearest double ([Float64]).  [int64] columns are integers with
    the wrap-around of the machine type written out.  Strings are ASCII
    text.  A column is looked up by the first label that matches:
    [read_csv] returns distinct labels, and the renaming of the normalizer
    can only make two of them equal on a feed that already uses a canonical
    name; on such a feed pandas hands out a frame where the script expects
    a column, and the model is not meant for it.  The CSV reader and
    writer, the parsing and printing of numbers and the assembly of
    timestamps belong to pandas and are parameters ([Pandas.Lib]);
    [PlainCsv] instantiates them to run the model. *)

From Stdlib Require Import ZArith QArith Qabs Qround Qpower List String Ascii Bool Lia Lqa.
From Stdlib Require Import Permutation Sorted DecimalString.
Import ListNotations.

Local Open Scope string_scope.
Local Open Scope Z_scope.

(* ================================================================== *)
(** ** Python [str] methods *)
(* ================================================================== *)
Module Py.

Definition is_upper (c : ascii) : bool :=
  let n := N_of_ascii c in (65 <=? n)%N && (n <=? 90)%N.

Definition lower_ascii (c : ascii) : ascii :=
  if is_upper c then ascii_of_N (N_of_ascii c + 32) else c.

(** [s.lower()], on the ASCII letters. *)
Fixpoint lower (s : string) : string :=
  match s with
  | EmptyString => EmptyString
  | String c t => String (lower_ascii c) (lower t)
  end.

(** The ASCII white space removed by [s.strip()]: tab to carriage return,
    the four separators U+001C to U+001F, and the space. *)
Definition is_space (c : ascii) : bool :=
  let n := N_of_ascii c in
  ((9 <=? n) && (n <=? 13) || (28 <=? n) && (n <=? 32))%N.

Fixpoint lstrip (s : string) : string :=
  match s with
  | EmptyString => EmptyString
  | String c t => if is_space c then lstrip t else s
  end.

Fixpoint rstrip (s : string) : string :=
  match s with
  | EmptyString => EmptyString
  | String c t =>
      match rstrip t with
      | EmptyString => if is_space c then EmptyString else String c EmptyString
      | t' => String c t'
      end
  end.

Definition strip (s : string) : string := rstrip (lstrip s).

(** [needle in hay] on strings. *)
Fixpoint contains (needle hay : string) : bool :=
  String.prefix needle hay ||
  match hay with
  | EmptyString => false
  | String _ t => contains needle t
  end.

(** [x in l] on lists of strings. *)
Definition mem (x : string) (l : list string) : bool :=
  existsb (String.eqb x) l.

End Py.

(* ================================================================== *)
(** ** [int64] arithmetic (numpy wraps silently on arrays) *)
(* ================================================================== *)
Module Int64.

Definition min_int : Z := - 2 ^ 63.
Definition max_int : Z := 2 ^ 63 - 1.

Definition in_range (z : Z) : Prop := min_int <= z <= max_int.

Definition wrap (z : Z) : Z := (z + 2 ^ 63) mod 2 ^ 64 - 2 ^ 63.

Definition add (x y : Z) : Z := wrap (x + y).

(** [series.sum()] of an [int64] column. *)
Definition sum (l : list Z) : Z := fold_left add l 0.

End Int64.

(* ================================================================== *)
(** ** [float64] rounding (IEEE 754 binary64, round to nearest even) *)
(* ================================================================== *)
Module Float64.

Definition prec : Z := 53.

(** The exponent of the smallest subnormal double. *)
Definition emin : Z := -1074.

(** The integer part of the binary logarithm of a positive rational. *)
Definition ilog2 (q : Q) : Z :=
  let k := Z.log2 (Qnum q) - Z.log2 (Zpos (Qden q)) in
  if Qle_bool (2 ^ k) q then k else k - 1.

(** The nearest integer, a tie going to the even one. *)
Definition rne (q : Q) : Z :=
  let f := Qfloor q in
  match (q - inject_Z f ?= 1 # 2)%Q with
  | Lt => f
  | Gt => f + 1
  | Eq => if Z.even f then f else f + 1
  end.

(** The exponent of the unit in the last place of the doubles around
    [q]. *)
Definition ulp_exp (q : Q) : Z := Z.max emin (ilog2 (Qabs q) - (prec - 1)).

(** The double nearest to [q].  Beyond the largest double, about 1.8e308,
    the machine gives an infinity; such values are outside the model. *)
Definition round (q : Q) : Q :=
  if Qeq_bool q 0 then 0%Q
  else let e := ulp_exp q in Qred (inject_Z (rne (q / 2 ^ e)) * 2 ^ e).

(** [x + y] and [x - y] on doubles. *)
Definition add (x y : Q) : Q := round (x + y).
Definition sub (x y : Q) : Q := round (x - y).

End Float64.

(* ================================================================== *)
(** ** The pandas objects the script manipulates *)
(* ================================================================== *)
Module Pandas.

(** One value of a column. *)
Inductive cell : Type :=
| NA                    (* NaN, NaT, an empty field *)
| Num (x : Q)           (* float64: a number as read or coerced *)
| Int (z : Z)           (* int64 or uint64: as read, or after [astype(int)] *)
| Txt (s : string)      (* object: a [str] *)
| Date (t : Z).         (* datetime64: the instant, as an ordinal *)

(** A row is a record from column name to value, first match wins. *)
Definition row := list (string * cell).

Fixpoint get (r : row) (c : string) : cell :=
  match r with
  | [] => NA
  | (k, v) :: t => if String.eqb k c then v else get t c
  end.

Fixpoint set (r : row) (c : string) (v : cell) : row :=
  match r with
  | [] => [(c, v)]
  | (k, x) :: t => if String.eqb k c then (k, v) :: t else (k, x) :: set t c v
  end.

(** A frame: its column labels and its rows, each under its index label
    (the labels survive [dropna] and [sort_values]). *)
Record frame : Type := { columns : list string; rows : list (nat * row) }.

(** The library functions whose code is not the script's: the CSV reader
    and writer, the conversion of a [str] to a number and back, and the
    assembly of a timestamp from year, month and day ([None] when there is
    no such instant). *)
Class Lib : Type := {
  read_csv : string -> list string * list (list cell);
  to_csv : list string -> list (list cell) -> string;
  str_to_num : string -> option Q;
  num_to_str : Q -> string;
  ymd_to_datetime : Q -> Z -> Z -> option Z
}.

(** [pd.read_csv(path)]: header and records under a RangeIndex. *)
Definition DataFrame (t : list string * list (list cell)) : frame :=
  {| columns := fst t;
     rows := combine (seq 0 (List.length (snd t))) (map (combine (fst t)) (snd t)) |}.

Definition isna (c : cell) : bool :=
  match c with NA => true | _ => false end.

Definition notna (c : cell) : bool := negb (isna c).

(** [s.fillna(v)], element-wise. *)
Definition fillna (v : cell) (c : cell) : cell :=
  match c with NA => v | _ => c end.

(** Rounding toward zero, as the C cast of a double does. *)
Definition trunc (x : Q) : Z :=
  if Qle_bool 0 x then Qfloor x else Qceiling x.

(** float64 to int64: out of range the cast yields the minimal integer
    (the x86-64 conversion that numpy compiles to). *)
Definition f2i (x : Q) : Z :=
  let z := trunc x in
  if (Int64.min_int <=? z) && (z <=? Int64.max_int) then z else Int64.min_int.

(** [s.astype(int)], element-wise; the script only applies it to columns
    that [to_numeric] and [fillna] have made numeric and total.  An integer
    column is [int64] already, or [uint64] when it holds a value from 2^63
    on, and the cast of that one wraps. *)
Definition astype_int (c : cell) : cell :=
  match c with
  | Num x => Int (f2i x)
  | Int z => Int (Int64.wrap z)
  | _ => NA
  end.

Definition as_Q (c : cell) : option Q :=
  match c with
  | Num x => Some x
  | Int z => Some (inject_Z z)
  | _ => None
  end.

Section WithLib.
Context {L : Lib}.

(** [pd.to_numeric(s, errors="coerce")], element-wise.  The result of a
    float column is a column of doubles: the value is rounded to one, which
    leaves a value that pandas read as it is. *)
Definition to_numeric (c : cell) : cell :=
  match c with
  | Txt s =>
      match str_to_num s with
      | Some x => Num (Float64.round x)
      | None => NA
      end
  | Num x => Num (Float64.round x)
  | Int z => Int z
  | NA => NA
  | Date _ => NA
  end.

(** [s.astype(str)], element-wise, as up to pandas 2: a missing value
    becomes the text "nan" (pandas 3 keeps it missing). *)
Definition astype_str (c : cell) : string :=
  match c with
  | Txt s => s
  | NA => "nan"
  | Num x => num_to_str x
  | Int z => num_to_str (inject_Z z)
  | Date t => num_to_str (inject_Z t)
  end.

(** [pd.to_datetime(dict(year=.., month=.., day=..), errors="coerce")]. *)
Definition to_datetime (y m d : cell) : cell :=
  match as_Q y, m, d with
  | Some yq, Int mz, Int dz =>
      match ymd_to_datetime yq mz dz with
      | Some t => Date t
      | None => NA
      end
  | _, _, _ => NA
  end.

(** [df.to_csv(path, index=False)]. *)
Definition frame_to_csv (df : frame) : string :=
  to_csv (columns df) (map (fun lr => map snd (snd lr)) (rows df)).

End WithLib.

Definition on_row (g : row -> row) (lr : nat * row) : nat * row :=
  (fst lr, g (snd lr)).

(** [df[c] = e] where [e] is computed element-wise from the frame. *)
Definition assign (df : frame) (c : string) (e : row -> cell) : frame :=
  {| columns := if Py.mem c (columns df) then columns df else columns df ++ [c];
     rows := map (on_row (fun r => set r c (e r))) (rows df) |}.

(** [df.rename(columns=...)], the mapping given as a function on labels. *)
Definition rename (df : frame) (m : string -> string) : frame :=
  {| columns := map m (columns df);
     rows := map (on_row (map (fun kv => (m (fst kv), snd kv)))) (rows df) |}.

(** [df.dropna(subset=cols)]. *)
Definition dropna (df : frame) (subset : list string) : frame :=
  {| columns := columns df;
     rows := List.filter
               (fun lr => forallb (fun c => notna (get (snd lr) c)) subset)
               (rows df) |}.

(** [df[cols]], on a frame whose labels are distinct. *)
Definition select (df : frame) (cols : list string) : frame :=
  {| columns := cols;
     rows := map (on_row (fun r => map (fun c => (c, get r c)) cols)) (rows df) |}.

(** The order [sort_values] puts on the values of a column, missing
    values last. *)
Definition cell_leb (a b : cell) : bool :=
  match a, b with
  | _, NA => true
  | NA, _ => false
  | Date s, Date t => s <=? t
  | Int s, Int t => s <=? t
  | Num x, Num y => Qle_bool x y
  | Txt s, Txt t => match String.compare s t with Gt => false | _ => true end
  | _, _ => true
  end.

Fixpoint insert_by (c : string) (x : nat * row) (l : list (nat * row))
  : list (nat * row) :=
  match l with
  | [] => [x]
  | y :: t =>
      if cell_leb (get (snd x) c) (get (snd y) c) then x :: y :: t
      else y :: insert_by c x t
  end.

(** [df.sort_values(c)]: ascending, missing values last.  Rows with equal
    keys keep their order here, as numpy's default sort does on short
    arrays; on long ones it may not, and no fact proved below depends on
    the order among equal keys. *)
Definition sort_values (df : frame) (c : string) : frame :=
  {| columns := columns df;
     rows := fold_right (insert_by c) [] (rows df) |}.

End Pandas.

(* ================================================================== *)
(** ** Section 3 of the script: [auto_clean_raw_to_csv] *)
(* ================================================================== *)
Module Normalizer.
Import Pandas.

(** The exceptions the function can leave with. *)
Inductive exn : Type :=
| FileNotFoundError (path : string)
| ValueError (missing available : list string)
| AttributeError (msg : string).

Definition result (A : Type) : Type := (exn + A)%type.

Definition bind {A B : Type} (r : result A) (k : A -> result B) : result B :=
  match r with
  | inl e => inl e
  | inr a => k a
  end.

Notation "x <- r ;; k" := (bind r (fun x => k))
  (at level 61, r at next level, right associativity).

(** The files the function sees: contents by path. *)
Definition files : Type := string -> option string.

Definition write_file (fs : files) (path content : string) : files :=
  fun p => if String.eqb p path then Some content else fs p.

Definition rename_map : list (string * string) :=
  [ ("Id", "event_id"); ("Year", "year"); ("Month", "month");
    ("Date", "day"); ("Name", "location_name"); ("Latitude", "latitude");
    ("Longitude", "longitude"); ("Focal Depth (km)", "depth_km");
    ("Magnitude", "magnitude"); ("Deaths", "deaths");
    ("Injuries", "injuries") ].

Definition required : list string :=
  [ "year"; "month"; "day"; "latitude"; "longitude"; "depth_km";
    "magnitude"; "deaths"; "injuries" ].

Definition dropna_subset : list string :=
  [ "date"; "year"; "latitude"; "longitude"; "magnitude"; "depth_km" ].

(** The columns of that subset that hold numbers ([date] is derived). *)
Definition gate_numeric : list string :=
  [ "magnitude"; "latitude"; "longitude"; "depth_km"; "year" ].

Definition final_cols : list string :=
  [ "event_id"; "date"; "year"; "location_name"; "latitude"; "longitude";
    "magnitude"; "depth_km"; "deaths"; "injuries"; "total_casualties";
    "tsunami_flag" ].

(** The columns that lines 195 to 203 assign. *)
Definition derived : list string :=
  [ "month"; "day"; "date"; "location_name"; "deaths"; "injuries";
    "total_casualties" ].

(** The table given to [.replace] on the tsunami column. *)
Definition tsunami_tokens : list (string * Z) :=
  [ ("y", 1); ("yes", 1); ("true", 1); ("1", 1); ("t", 1);
    ("n", 0); ("no", 0); ("false", 0); ("0", 0); ("f", 0);
    ("nan", 0); ("none", 0); ("", 0) ].

Fixpoint lookup {V : Type} (k : string) (d : list (string * V)) : option V :=
  match d with
  | [] => None
  | (k', v) :: t => if String.eqb k' k then Some v else lookup k t
  end.

(** [s.replace(d)] on one value of a column of [str]. *)
Definition replace (d : list (string * Z)) (s : string) : cell :=
  match lookup s d with
  | Some z => Int z
  | None => Txt s
  end.

(** The mapping a dict gives to [df.rename(columns=d)]. *)
Definition renaming (d : list (string * string)) (c : string) : string :=
  match lookup c d with
  | Some c' => c'
  | None => c
  end.

(** What [df.get(c, default)] returns: the column, or the default as it
    is, a [str]. *)
Inductive gotten : Type :=
| Series (c : string)
| Default (s : string).

Definition df_get (df : frame) (c default : string) : gotten :=
  if Py.mem c (columns df) then Series c else Default default.

Section WithLib.
Context {L : Lib}.

(** The right-hand sides of the column assignments, on one row. *)

(** Line 193: [pd.to_numeric(df[c], errors="coerce")]. *)
Definition numeric_of (c : string) (r : row) : cell :=
  to_numeric (get r c).

(** Lines 195 and 196: [df[c].fillna(1).astype(int)]. *)
Definition month_of (r : row) : cell :=
  astype_int (fillna (Int 1) (get r "month")).

Definition day_of (r : row) : cell :=
  astype_int (fillna (Int 1) (get r "day")).

(** Line 197. *)
Definition date_of (r : row) : cell :=
  to_datetime (get r "year") (get r "month") (get r "day").

(** Line 199, on a column: [.astype(str).str.strip()]. *)
Definition stripped_of (c : string) (r : row) : cell :=
  Txt (Py.strip (astype_str (get r c))).

(** Lines 201 and 202: [df[c].fillna(0).astype(int)]. *)
Definition deaths_of (r : row) : cell :=
  astype_int (fillna (Int 0) (get r "deaths")).

Definition injuries_of (r : row) : cell :=
  astype_int (fillna (Int 0) (get r "injuries")).

(** Line 203: the sum of two [int64] columns. *)
Definition total_casualties_of (r : row) : cell :=
  match get r "deaths", get r "injuries" with
  | Int d, Int i => Int (Int64.add d i)
  | _, _ => NA
  end.

(** Lines 206 to 216. *)
Definition tsunami_token_of (r : row) : cell :=
  replace tsunami_tokens
    (Py.lower (Py.strip (astype_str (get r "tsunami_flag")))).

(** Line 217. *)
Definition tsunami_flag_of (r : row) : cell :=
  astype_int (fillna (Int 0) (to_numeric (get r "tsunami_flag"))).

(** [g.astype(str).str.strip()]: a [str] has no method [astype]. *)
Definition astype_str_strip (g : gotten) : result (row -> cell) :=
  match g with
  | Series c => inr (stripped_of c)
  | Default _ => inl (AttributeError "'str' object has no attribute 'astype'")
  end.

(** Lines 165 to 185: stripped labels, the first tsunami-like column
    renamed to [tsunami_flag], then the fixed rename table. *)
Definition canonical_names (df : frame) : frame :=
  let df := rename df Py.strip in
  let tsunami_candidates :=
    List.filter (fun c => Py.contains "tsunami" (Py.lower c)) (columns df) in
  let df :=
    match tsunami_candidates with
    | c0 :: _ => rename df (renaming [(c0, "tsunami_flag")])
    | [] => df
    end in
  rename df
    (renaming (List.filter (fun kv => Py.mem (fst kv) (columns df)) rename_map)).

(** Line 188. *)
Definition missing (df : frame) : list string :=
  List.filter (fun c => negb (Py.mem c (columns df))) required.

(** Lines 192 and 193. *)
Definition coerce_required (df : frame) : frame :=
  fold_left (fun df c => assign df c (numeric_of c)) required df.

(** Lines 205 to 217. *)
Definition normalize_tsunami (df : frame) : frame :=
  if Py.mem "tsunami_flag" (columns df) then
    let df := assign df "tsunami_flag" tsunami_token_of in
    assign df "tsunami_flag" tsunami_flag_of
  else df.

(** Lines 195 to 217, the derived and the retyped columns.  The casts
    raise on an infinite value, which the model does not have: what is
    proved of a cleaned frame holds whenever the script returns one. *)
Definition derive_columns (df : frame) : result frame :=
  let df := assign df "month" month_of in
  let df := assign df "day" day_of in
  let df := assign df "date" date_of in
  name <- astype_str_strip (df_get df "location_name" "Unknown") ;;
  let df := assign df "location_name" name in
  let df := assign df "deaths" deaths_of in
  let df := assign df "injuries" injuries_of in
  let df := assign df "total_casualties" total_casualties_of in
  inr (normalize_tsunami df).

(** Lines 219 to 226: the validity gate, the canonical columns, the
    order by date. *)
Definition select_and_sort (df : frame) : frame :=
  let df := dropna df dropna_subset in
  let df :=
    select df (List.filter (fun c => Py.mem c (columns df)) final_cols) in
  sort_values df "date".

(** Lines 164 to 226, on the frame that [read_csv] returned. *)
Definition clean_frame (df : frame) : result frame :=
  let df := canonical_names df in
  match missing df with
  | _ :: _ => inl (ValueError (missing df) (columns df))
  | [] =>
      df <- derive_columns (coerce_required df) ;;
      inr (select_and_sort df)
  end.

(** [auto_clean_raw_to_csv(raw_path, clean_path)]: [None] on return, the
    cleaned file written; the state of the files is passed along.  The
    directory of the target is taken to exist or to be made by line 228. *)
Definition auto_clean_raw_to_csv (fs : files) (raw_path clean_path : string)
  : result files :=
  match fs raw_path with
  | None => inl (FileNotFoundError raw_path)
  | Some content =>
      df <- clean_frame (DataFrame (read_csv content)) ;;
      inr (write_file fs clean_path (frame_to_csv df))
  end.

(** *** The same assignments, read on one row

    Every column assignment of the function is element-wise, so the
    frame it builds is the image of the rows under one function; the
    facts are proved on that function and carried to the frame by
    [clean_frame_inr]. *)

Definition upd (c : string) (e : row -> cell) (r : row) : row :=
  set r c (e r).

Definition coerce_row (r : row) : row :=
  fold_left (fun r c => upd c (numeric_of c) r) required r.

Definition tsunami_row (r : row) : row :=
  upd "tsunami_flag" tsunami_flag_of (upd "tsunami_flag" tsunami_token_of r).

Definition derive_row (tsunami : bool) (r : row) : row :=
  let r := upd "month" month_of r in
  let r := upd "day" day_of r in
  let r := upd "date" date_of r in
  let r := upd "location_name" (stripped_of "location_name") r in
  let r := upd "deaths" deaths_of r in
  let r := upd "injuries" injuries_of r in
  let r := upd "total_casualties" total_casualties_of r in
  if tsunami then tsunami_row r else r.

Definition clean_row (tsunami : bool) (r : row) : row :=
  derive_row tsunami (coerce_row r).

Definition valid (r : row) : bool :=
  forallb (fun c => notna (get r c)) dropna_subset.

Definition project (cols : list string) (r : row) : row :=
  map (fun c => (c, get r c)) cols.

End WithLib.

End Normalizer.

(* ================================================================== *)
(** ** Sections 5 to 7 of the script: controls, filter, aggregates *)
(* ================================================================== *)
Module Dashboard.
Import Pandas.

(** *** Severity *)

Definition classify_severity (total : Z) : string :=
  if total >=? 1000 then "Severe"
  else if total >=? 100 then "Moderate"
  else "Minor".

(** [df["total_casualties"].apply(classify_severity)], element-wise: an
    integer as it is, a float through its integer part (the thresholds are
    integers), NaN fails both comparisons. *)
Definition apply_classify_severity (c : cell) : cell :=
  match c with
  | Int t => Txt (classify_severity t)
  | Num x => Txt (classify_severity (Qfloor x))
  | _ => Txt "Minor"
  end.

(** Line 284. *)
Definition with_severity (df : frame) : frame :=
  assign df "severity" (fun r => apply_classify_severity (get r "total_casualties")).

(** *** The severity check boxes and their session state *)

Definition session_state : Type := list (string * bool).

Definition options : list string := [ "Minor"; "Moderate"; "Severe" ].

(** [st.session_state[k]]: [None] is the [KeyError]. *)
Fixpoint getitem (st : session_state) (k : string) : option bool :=
  match st with
  | [] => None
  | (k', v) :: t => if String.eqb k' k then Some v else getitem t k
  end.

(** [st.session_state[k] = v]. *)
Fixpoint setitem (st : session_state) (k : string) (v : bool) : session_state :=
  match st with
  | [] => [(k, v)]
  | (k', x) :: t =>
      if String.eqb k' k then (k', v) :: t else (k', x) :: setitem t k v
  end.

(** [st.session_state.setdefault(k, v)]. *)
Definition setdefault (st : session_state) (k : string) (v : bool) : session_state :=
  match getitem st k with
  | Some _ => st
  | None => setitem st k v
  end.

(** [sum(st.session_state[o] for o in opts)]. *)
Fixpoint sum_selected (st : session_state) (opts : list string) : option Z :=
  match opts with
  | [] => Some 0
  | o :: t =>
      match getitem st o, sum_selected st t with
      | Some b, Some n => Some (Z.b2z b + n)
      | _, _ => None
      end
  end.

(** Lines 313 to 316. *)
Definition enforce_one (st : session_state) (selected_opt : string)
  : option session_state :=
  match sum_selected st options with
  | Some n => if n =? 0 then Some (setitem st selected_opt true) else Some st
  | None => None
  end.

(** Lines 310 and 311, run at the top of every execution of the script. *)
Definition initialize (st : session_state) : session_state :=
  fold_left (fun s opt => setdefault s opt true) options st.

(** Line 321: [[o for o in options if st.session_state[o]]]. *)
Fixpoint selected (st : session_state) (opts : list string) : option (list string) :=
  match opts with
  | [] => Some []
  | o :: t =>
      match getitem st o, selected st t with
      | Some b, Some l => Some (if b then o :: l else l)
      | _, _ => None
      end
  end.

Definition severity_filter (st : session_state) : option (list string) :=
  selected st options.

(** What the user can do between two executions of the script: click one
    of the three check boxes, or touch any other widget. *)
Inductive checkbox : Type := MinorBox | ModerateBox | SevereBox.

Definition key (c : checkbox) : string :=
  match c with
  | MinorBox => "Minor"
  | ModerateBox => "Moderate"
  | SevereBox => "Severe"
  end.

Inductive interaction : Type :=
| Toggle (c : checkbox)
| Other.

(** One interaction: the widget's new value is stored under its key, its
    [on_change] callback runs with [args=(opt,)], then the script runs
    again from the top. *)
Definition interact (st : session_state) (i : interaction) : option session_state :=
  match i with
  | Toggle c =>
      match getitem st (key c) with
      | Some b =>
          match enforce_one (setitem st (key c) (negb b)) (key c) with
          | Some st' => Some (initialize st')
          | None => None
          end
      | None => None
      end
  | Other => Some (initialize st)
  end.

Fixpoint interact_all (st : session_state) (l : list interaction)
  : option session_state :=
  match l with
  | [] => Some st
  | i :: t =>
      match interact st i with
      | Some st' => interact_all st' t
      | None => None
      end
  end.

(** The session after the first execution and the interactions [l]. *)
Definition session_after (l : list interaction) : option session_state :=
  interact_all (initialize []) l.

(** The session once initialised: the three keys, in the order of
    [options]. *)
Definition session (a b c : bool) : session_state :=
  [ ("Minor", a); ("Moderate", b); ("Severe", c) ].

(** *** The control panel *)

Record controls : Type := {
  magnitude : Q;                    (* slider "Target Magnitude" *)
  year_range : Z * Z;               (* slider "Year Span" *)
  event_type : string;              (* select box "Event Category" *)
  severity_sel : list string;       (* [severity_filter] of the session *)
  only_with_casualties : bool;      (* toggle "Filter: Casualties > 0" *)
  metric : string                   (* select box "Primary Metric" *)
}.

Definition metrics : list string := [ "total_casualties"; "deaths"; "injuries" ].

Definition mag_window : Q := 0.25.

(** *** Element-wise comparisons of a column with a scalar (NaN: False) *)

Definition ge_int (c : cell) (z : Z) : bool :=
  match c with
  | Int y => y >=? z
  | Num x => Qle_bool (inject_Z z) x
  | _ => false
  end.

Definition le_int (c : cell) (z : Z) : bool :=
  match c with
  | Int y => y <=? z
  | Num x => Qle_bool x (inject_Z z)
  | _ => false
  end.

Definition gt_int (c : cell) (z : Z) : bool :=
  match c with
  | Int y => y >? z
  | Num x => negb (Qle_bool x (inject_Z z))
  | _ => false
  end.

Definition eq_int (c : cell) (z : Z) : bool :=
  match c with
  | Int y => y =? z
  | Num x => Qeq_bool x (inject_Z z)
  | _ => false
  end.

(** [s.between(left, right)], both ends included. *)
Definition between (c : cell) (left right : Q) : bool :=
  match as_Q c with
  | Some x => Qle_bool left x && Qle_bool x right
  | None => false
  end.

(** [s.isin(values)]. *)
Definition isin (c : cell) (values : list string) : bool :=
  match c with
  | Txt s => Py.mem s values
  | _ => false
  end.

(** [df[mask]]. *)
Definition where_ (df : frame) (mask : row -> bool) : frame :=
  {| columns := columns df;
     rows := List.filter (fun lr => mask (snd lr)) (rows df) |}.

(** *** Section 6: the filter logic *)

Definition year_mask (w : controls) (r : row) : bool :=
  ge_int (get r "year") (fst (year_range w)) &&
  le_int (get r "year") (snd (year_range w)).

(** Line 334: the two bounds are computed in [float64]. *)
Definition magnitude_mask (w : controls) (r : row) : bool :=
  between (get r "magnitude")
    (Float64.sub (magnitude w) mag_window)
    (Float64.add (magnitude w) mag_window).

Definition severity_mask (w : controls) (r : row) : bool :=
  isin (get r "severity") (severity_sel w).

Definition has_tsunami (df : frame) : bool :=
  Py.mem "tsunami_flag" (columns df).

(** Lines 332 to 345; [df] already carries its [severity] column. *)
Definition filter_logic (df : frame) (w : controls) : frame :=
  let f := where_ df (fun r =>
    year_mask w r && magnitude_mask w r && severity_mask w r) in
  let f :=
    if only_with_casualties w
    then where_ f (fun r => gt_int (get r "total_casualties") 0)
    else f in
  if has_tsunami df then
    if Py.contains "only" (Py.lower (event_type w))
    then where_ f (fun r => eq_int (get r "tsunami_flag") 0)
    else if Py.contains "tsunami" (Py.lower (event_type w))
    then where_ f (fun r => eq_int (get r "tsunami_flag") 1)
    else f
  else f.

(** The conjunction of the masks that [filter_logic] applies in turn. *)
Definition admits (df : frame) (w : controls) (r : row) : bool :=
  year_mask w r && magnitude_mask w r && severity_mask w r
  && (if only_with_casualties w then gt_int (get r "total_casualties") 0 else true)
  && (if has_tsunami df then
        if Py.contains "only" (Py.lower (event_type w))
        then eq_int (get r "tsunami_flag") 0
        else if Py.contains "tsunami" (Py.lower (event_type w))
        then eq_int (get r "tsunami_flag") 1
        else true
      else true).

(** The panel after the year slider is moved. *)
Definition with_year_range (w : controls) (yr : Z * Z) : controls :=
  {| magnitude := magnitude w;
     year_range := yr;
     event_type := event_type w;
     severity_sel := severity_sel w;
     only_with_casualties := only_with_casualties w;
     metric := metric w |}.

(** *** Section 7: the frame that is displayed *)

Definition empty (f : frame) : bool :=
  match rows f with [] => true | _ => false end.

(** Lines 353 to 366. *)
Definition placeholder (df : frame) (w : controls) : frame :=
  let f :=
    {| columns := [ "year"; "latitude"; "longitude"; "magnitude"; "depth_km";
                    "deaths"; "injuries"; "total_casualties"; "severity";
                    "location_name" ];
       rows := [ (0%nat,
                  [ ("year", Int (fst (year_range w)));
                    ("latitude", Int 0);
                    ("longitude", Int 0);
                    ("magnitude", Num (magnitude w));
                    ("depth_km", Int 0);
                    ("deaths", Int 0);
                    ("injuries", Int 0);
                    ("total_casualties", Int 0);
                    ("severity", Txt "Minor");
                    ("location_name", Txt "No data") ]) ] |} in
  if has_tsunami df then assign f "tsunami_flag" (fun _ => Int 0) else f.

(** Lines 351 to 366: [f] as the rest of the page sees it. *)
Definition displayed (df : frame) (w : controls) : frame :=
  let f := filter_logic df w in
  if empty f then placeholder df w else f.

(** *** Aggregates *)

Definition column (f : frame) (c : string) : list cell :=
  map (fun lr => get (snd lr) c) (rows f).

Definition is_int (c : cell) : bool :=
  match c with Int _ => true | _ => false end.

Definition int_value (c : cell) : Z :=
  match c with Int z => z | _ => 0 end.

Definition Qsum (l : list cell) : Q :=
  fold_left (fun acc c => match as_Q c with Some x => acc + x | None => acc end)%Q
    l 0%Q.

(** [int(s.sum())]: an [int64] column sums in [int64]; any other column
    is [float64], sums skipping NaN, and [int] truncates. *)
Definition int_sum (s : list cell) : Z :=
  if forallb is_int s then Int64.sum (map int_value s) else trunc (Qsum s).

(** [s.idxmax()]: the label of the first maximum, NaN skipped; [None]
    stands for the [ValueError] on an empty or all-NaN column. *)
Fixpoint idxmax_from (best : nat * Q) (s : list (nat * cell)) : nat :=
  match s with
  | [] => fst best
  | (i, c) :: t =>
      match as_Q c with
      | Some x =>
          if Qle_bool x (snd best) then idxmax_from best t
          else idxmax_from (i, x) t
      | None => idxmax_from best t
      end
  end.

Fixpoint idxmax (s : list (nat * cell)) : option nat :=
  match s with
  | [] => None
  | (i, c) :: t =>
      match as_Q c with
      | Some x => Some (idxmax_from (i, x) t)
      | None => idxmax t
      end
  end.

(** [f.loc[label]] on a frame whose labels are distinct. *)
Definition loc (f : frame) (label : nat) : option row :=
  match List.find (fun lr => Nat.eqb (fst lr) label) (rows f) with
  | Some lr => Some (snd lr)
  | None => None
  end.

(** Line 387. *)
Definition peak (f : frame) (m : string) : option row :=
  match idxmax (map (fun lr => (fst lr, get (snd lr) m)) (rows f)) with
  | Some label => loc f label
  | None => None
  end.

(** What the alert and the four KPI cards show (lines 387 to 425). *)
Record aggregates : Type := {
  totalCasualties : Z;
  totalDeaths : Z;
  totalInjuries : Z;
  eventCount : nat;
  peakEvent : option row
}.

Definition aggregate (f : frame) (m : string) : aggregates :=
  {| totalCasualties := int_sum (column f "total_casualties");
     totalDeaths := int_sum (column f "deaths");
     totalInjuries := int_sum (column f "injuries");
     eventCount := List.length (rows f);
     peakEvent := peak f m |}.

End Dashboard.

(* ================================================================== *)
(** ** An instance of the library, for running the model on CSV text *)
(* ================================================================== *)
(** Plain CSV: fields separated by commas, records by line feeds, no
    quoting; numbers in decimal notation; dates between 1678 and 2261 (the
    years a nanosecond timestamp covers in full), ordered by [yyyymmdd]. *)
Module PlainCsv.
Import Pandas.

Fixpoint split_on (sep : ascii) (s : string) : list string :=
  match s with
  | EmptyString => [EmptyString]
  | String c t =>
      if Ascii.eqb c sep then EmptyString :: split_on sep t
      else match split_on sep t with
           | h :: r => String c h :: r
           | [] => [String c EmptyString]
           end
  end.

Definition digit (c : ascii) : option Z :=
  let n := N_of_ascii c in
  if ((48 <=? n) && (n <=? 57))%N then Some (Z.of_N n - 48) else None.

Fixpoint digits (acc : Z) (s : string) : option Z :=
  match s with
  | EmptyString => Some acc
  | String c t =>
      match digit c with
      | Some d => digits (10 * acc + d) t
      | None => None
      end
  end.

Definition natural (s : string) : option Z :=
  match s with
  | EmptyString => None
  | _ => digits 0 s
  end.

Definition unsigned (s : string) : option Q :=
  match split_on "." s with
  | [a] => option_map inject_Z (natural a)
  | [a; b] =>
      match natural a, natural b with
      | Some x, Some y =>
          Some (inject_Z x + Qmake y (Pos.pow 10 (Pos.of_nat (String.length b))))%Q
      | _, _ => None
      end
  | _ => None
  end.

Definition number (s : string) : option Q :=
  match s with
  | String "-" t => option_map Qopp (unsigned t)
  | _ => unsigned s
  end.

Definition integer (s : string) : option Z :=
  match s with
  | String "-" t => option_map Z.opp (natural t)
  | _ => natural s
  end.

Fixpoint integers (l : list string) : option (list Z) :=
  match l with
  | [] => Some []
  | s :: t =>
      match integer s, integers t with
      | Some z, Some zs => Some (z :: zs)
      | _, _ => None
      end
  end.

Definition is_empty (s : string) : bool :=
  match s with EmptyString => true | _ => false end.

Definition float_field (s : string) : cell :=
  match number s with
  | Some x => Num (Float64.round x)
  | None => NA
  end.

Definition object_field (s : string) : cell :=
  if is_empty s then NA else Txt s.

(** The type is that of the column: [int64] or [uint64] when every field
    is an integer of that range, [float64] when every field is a number or
    empty, [object] otherwise, the fields kept as text. *)
Definition column_cells (fields : list string) : list cell :=
  match integers fields with
  | Some zs =>
      if forallb (fun z => (- 2 ^ 63 <=? z) && (z <? 2 ^ 63)) zs
         || forallb (fun z => (0 <=? z) && (z <? 2 ^ 64)) zs
      then map Int zs
      else map object_field fields
  | None =>
      if forallb (fun s => is_empty s ||
                           match number s with Some _ => true | None => false end)
                 fields
      then map float_field fields
      else map object_field fields
  end.

(** The records of a file, column by column and back; a short record is
    filled with empty fields. *)
Definition typed_records (width : nat) (records : list (list string))
  : list (list cell) :=
  let cols :=
    map (fun j => column_cells (map (fun rec => nth j rec "") records))
        (seq 0 width) in
  map (fun i => map (fun col => nth i col NA) cols)
      (seq 0 (List.length records)).

Definition lines (s : string) : list string :=
  List.filter (fun l => negb (String.eqb l "")) (split_on "010" s).

Definition reader (s : string) : list string * list (list cell) :=
  match lines s with
  | [] => ([], [])
  | h :: t =>
      let header := split_on "," h in
      (header, typed_records (List.length header) (map (split_on ",") t))
  end.

Definition decimal (z : Z) : string :=
  DecimalString.NilZero.string_of_int (Z.to_int z).

Definition show_num (x : Q) : string :=
  let y := Qred x in
  match Qden y with
  | xH => decimal (Qnum y)
  | d => decimal (Qnum y) ++ "/" ++ decimal (Zpos d)
  end.

Definition show (c : cell) : string :=
  match c with
  | NA => ""
  | Num x => show_num x
  | Int z => decimal z
  | Txt s => s
  | Date t => decimal t
  end.

Definition writer (header : list string) (records : list (list cell)) : string :=
  String.concat (String "010" "")
    (String.concat "," header :: map (fun r => String.concat "," (map show r)) records)
  ++ String "010" "".

Definition is_leap (y : Z) : bool :=
  (y mod 4 =? 0) && (negb (y mod 100 =? 0) || (y mod 400 =? 0)).

Definition days_in_month (y m : Z) : Z :=
  if (m =? 2) then (if is_leap y then 29 else 28)
  else if (m =? 4) || (m =? 6) || (m =? 9) || (m =? 11) then 30
  else 31.

Definition civil (y : Q) (m d : Z) : option Z :=
  let yr := Qred y in
  match Qden yr with
  | xH =>
      let yz := Qnum yr in
      if (1678 <=? yz) && (yz <=? 2261) && (1 <=? m) && (m <=? 12)
         && (1 <=? d) && (d <=? days_in_month yz m)
      then Some (yz * 10000 + m * 100 + d)
      else None
  | _ => None
  end.

Definition lib : Lib :=
  {| read_csv := reader;
     to_csv := writer;
     str_to_num := number;
     num_to_str := show_num;
     ymd_to_datetime := civil |}.

End PlainCsv.

(* ================================================================== *)
(** ** Inputs on which the model is run *)
(* ================================================================== *)
Module Samples.
Import Pandas.

Definition nl : string := String "010" "".

Definition header : string :=
  "Id,Year,Month,Date,Name,Latitude,Longitude,Focal Depth (km),Magnitude,Deaths,Injuries,Flag Tsunami".

(** Three records: a complete one, one whose latitude is text and whose
    month and day are empty, one with a negative death count. *)
Definition raw_events : string :=
  header ++ nl ++
  "1,1906,4,18,  SAN FRANCISCO ,37.75,-122.45,8,7.9,3000,,Y" ++ nl ++
  "2,1905,,,LAHORE,abc,74.3,25,7.8,19000,,N" ++ nl ++
  "3,1900,1,2,CARACAS,10.5,-66.9,2,6.5,-3,2.7,no" ++ nl.

(** One record whose two counts are 2^62 each. *)
Definition raw_huge : string :=
  header ++ nl ++
  "1,1906,4,18,X,1,1,8,7.9,4611686018427387904,4611686018427387904,Y" ++ nl.

(** Two records, the first with 2^63 - 1 deaths, the second with none
    given: the column is a [float64] one. *)
Definition raw_rounded : string :=
  header ++ nl ++
  "1,1906,4,18,X,1,1,8,7.9,9223372036854775807,1,Y" ++ nl ++
  "2,1907,4,18,Z,1,1,8,7.9,,1,N" ++ nl.

(** A feed without the column [Name]. *)
Definition raw_unnamed : string :=
  "Year,Month,Date,Latitude,Longitude,Focal Depth (km),Magnitude,Deaths,Injuries" ++ nl ++
  "1906,4,18,37.75,-122.45,8,7.9,3000,0" ++ nl.

Definition raw_path : string := "data/NOAA Earthquaqe since 1600.csv".
Definition clean_path : string := "data/earthquakes_clean.csv".

(** A directory that holds the raw file alone. *)
Definition disk (content : string) : Normalizer.files :=
  fun p => if String.eqb p raw_path then Some content else None.

(** The sample feed as read, and as cleaned. *)
Definition sample_frame : frame :=
  DataFrame (read_csv (Lib := PlainCsv.lib) raw_events).

Definition sample_out : frame :=
  match Normalizer.clean_frame (L := PlainCsv.lib) sample_frame with
  | inr out => out
  | inl _ => {| columns := []; rows := [] |}
  end.

(** A loaded event, and a dataset of two, of magnitude 6.7 and 7.0. *)
Definition event (year : Z) (mag : Q) (total : Z) : row :=
  [ ("date", Date (year * 10000 + 101)); ("year", Int year);
    ("location_name", Txt "X"); ("latitude", Num 0); ("longitude", Num 0);
    ("magnitude", Num mag); ("depth_km", Num 10);
    ("deaths", Int total); ("injuries", Int 0);
    ("total_casualties", Int total) ].

Definition event_67 : row := event 1950 6.7 5.
Definition event_70 : row := event 1950 7.0 5.

Definition dataset : frame :=
  Dashboard.with_severity
    {| columns := [ "date"; "year"; "location_name"; "latitude"; "longitude";
                    "magnitude"; "depth_km"; "deaths"; "injuries";
                    "total_casualties" ];
       rows := [ (0%nat, event_67); (1%nat, event_70) ] |}.

(** The example of the specification: target 6.5, years 1900 to 2020,
    every class, casualties required. *)
Definition panel : Dashboard.controls :=
  {| Dashboard.magnitude := 6.5;
     Dashboard.year_range := (1900, 2020);
     Dashboard.event_type := "All earthquakes";
     Dashboard.severity_sel := [ "Minor"; "Moderate"; "Severe" ];
     Dashboard.only_with_casualties := true;
     Dashboard.metric := "total_casualties" |}.

(** The slider at 3.9 and an event of magnitude 4.15, both as the doubles
    that the script holds. *)
Definition panel_39 : Dashboard.controls :=
  {| Dashboard.magnitude := Float64.round 3.9;
     Dashboard.year_range := (1900, 2020);
     Dashboard.event_type := "All earthquakes";
     Dashboard.severity_sel := [ "Minor"; "Moderate"; "Severe" ];
     Dashboard.only_with_casualties := true;
     Dashboard.metric := "total_casualties" |}.

Definition event_415 : row := event 1950 (Float64.round 4.15) 5.

Definition dataset_415 : frame :=
  Dashboard.with_severity
    {| columns := [ "date"; "year"; "location_name"; "latitude"; "longitude";
                    "magnitude"; "depth_km"; "deaths"; "injuries";
                    "total_casualties" ];
       rows := [ (0%nat, event_415) ] |}.

(** The same panel with target magnitude 3.0: nothing matches. *)
Definition panel_30 : Dashboard.controls :=
  {| Dashboard.magnitude := 3.0;
     Dashboard.year_range := (1900, 2020);
     Dashboard.event_type := "All earthquakes";
     Dashboard.severity_sel := [ "Minor"; "Moderate"; "Severe" ];
     Dashboard.only_with_casualties := true;
     Dashboard.metric := "total_casualties" |}.

End Samples.

(* ================================================================== *)
(** ** The cleaned file, read from the raw rows *)
(* ================================================================== *)
Module Schema.
Import Pandas Normalizer.

(** The test of line 168 on one label. *)
Definition tsunami_like (c : string) : bool :=
  Py.contains "tsunami" (Py.lower c).

(** The columns that every cleaned file has, in the order of [final_cols]. *)
Definition core_cols : list string :=
  [ "date"; "year"; "location_name"; "latitude"; "longitude"; "magnitude";
    "depth_km"; "deaths"; "injuries"; "total_casualties" ].



(** The instant in the [date] column of a row, if there is one. *)
Definition date_key (r : row) : option Z :=
  match get r "date" with
  | Date t => Some t
  | _ => None
  end.

(** Insertion in an ascending list, as [insert_by] does it on the keys. *)
Fixpoint insert_key (k : Z) (ks : list Z) : list Z :=
  match ks with
  | [] => [k]
  | k' :: t => if k <=? k' then k :: k' :: t else k' :: insert_key k t
  end.





Section WithLib.
Context {L : Lib}.

(** Month or day of a raw row: coerced, 1 when missing, cast to int. *)
Definition part_or_1 (c : string) (r0 : row) : cell :=
  astype_int (fillna (Int 1) (to_numeric (get r0 c))).

(** The date that line 197 assembles for a raw row. *)
Definition assembled_date (r0 : row) : cell :=
  to_datetime (to_numeric (get r0 "year"))
    (part_or_1 "month" r0) (part_or_1 "day" r0).

(** The raw rows that pass the gate of line 219. *)
Definition keeps (r0 : row) : bool :=
  forallb (fun c => notna (to_numeric (get r0 c))) gate_numeric
  && notna (assembled_date r0).


End WithLib.

End Schema.

(* ================================================================== *)
(** ** [load_data] (lines 231 to 247) *)
(* ================================================================== *)
Module Loader.
Import Pandas.

Inductive exn : Type :=
| FileNotFoundError (path : string)
| KeyError (keys : list string).

(** [pd.to_datetime] on one value is pandas' code: a text is parsed, a
    number is taken as an offset from the epoch. *)
Class DateLib : Type := {
  str_to_datetime : string -> option Z;
  num_to_datetime : Q -> option Z
}.

Definition numeric_cols : list string :=
  [ "year"; "latitude"; "longitude"; "magnitude"; "depth_km"; "deaths";
    "injuries"; "total_casualties" ].

Definition subset : list string :=
  [ "date"; "year"; "latitude"; "longitude"; "magnitude"; "depth_km" ].

Section WithLib.
Context {L : Lib} {D : DateLib}.

Definition instant (o : option Z) : cell :=
  match o with
  | Some t => Date t
  | None => NA
  end.

(** [pd.to_datetime(s, errors="coerce")], element-wise. *)
Definition parse_datetime (c : cell) : cell :=
  match c with
  | Txt s => instant (str_to_datetime s)
  | Num x => instant (num_to_datetime x)
  | Int z => instant (num_to_datetime (inject_Z z))
  | Date t => Date t
  | NA => NA
  end.

(** Lines 237 to 239. *)
Definition coerce_present (df : frame) : frame :=
  fold_left
    (fun df c =>
       if Py.mem c (columns df)
       then assign df c (fun r => to_numeric (get r c))
       else df)
    numeric_cols df.

(** Lines 244 and 245. *)
Definition retype_tsunami (df : frame) : frame :=
  if Py.mem "tsunami_flag" (columns df)
  then assign df "tsunami_flag" (fun r =>
         astype_int (fillna (Int 0) (to_numeric (get r "tsunami_flag"))))
  else df.

(** Lines 234 to 247, on the frame that [read_csv] returned: [df["date"]]
    and [dropna] raise [KeyError] on the labels they do not find.  The
    casts of lines 242 and 245 raise on an infinite value, which the model
    does not have: what is proved of a returned frame holds whenever the
    script returns one. *)
Definition load_frame (df : frame) : exn + frame :=
  if Py.mem "date" (columns df) then
    let df := assign df "date" (fun r => parse_datetime (get r "date")) in
    let df := coerce_present df in
    match List.filter (fun c => negb (Py.mem c (columns df))) subset with
    | (_ :: _) as absent => inl (KeyError absent)
    | [] =>
        let df := dropna df subset in
        let df := assign df "year" (fun r => astype_int (get r "year")) in
        inr (retype_tsunami df)
    end
  else inl (KeyError [ "date" ]).

Definition load_data (fs : Normalizer.files) (clean_path : string)
  : exn + frame :=
  match fs clean_path with
  | None => inl (FileNotFoundError clean_path)
  | Some content => load_frame (DataFrame (read_csv content))
  end.

End WithLib.

(** *** The same steps, read on one row; [cols] are the labels of the
    frame as read. *)

Section WithLib.
Context {L : Lib} {D : DateLib}.

Definition coerce_row (cols : list string) (r : row) : row :=
  fold_left
    (fun r c => if Py.mem c cols then set r c (to_numeric (get r c)) else r)
    numeric_cols r.

Definition typed_row (cols : list string) (r0 : row) : row :=
  coerce_row cols (set r0 "date" (parse_datetime (get r0 "date"))).

Definition passes (cols : list string) (r0 : row) : bool :=
  forallb (fun c => notna (get (typed_row cols r0) c)) subset.

Definition loaded_row (cols : list string) (r0 : row) : row :=
  let r := typed_row cols r0 in
  let r := set r "year" (astype_int (get r "year")) in
  if Py.mem "tsunami_flag" cols
  then set r "tsunami_flag"
         (astype_int (fillna (Int 0) (to_numeric (get r "tsunami_flag"))))
  else r.

End WithLib.

(** The dates of [PlainCsv]: written as [yyyymmdd], read back as that
    number. *)
Definition plain_dates : DateLib :=
  {| str_to_datetime := fun _ => None;
     num_to_datetime := fun x =>
       match Qden (Qred x) with
       | xH => Some (Qnum (Qred x))
       | _ => None
       end |}.

End Loader.

(* ================================================================== *)
(** ** Section 7 and 8 of the script: alert, trend, table *)
(* ================================================================== *)
Module Display.
Import Pandas Dashboard.

(** [set(l)], as the list of the distinct elements. *)
Fixpoint set_of (l : list string) : list string :=
  match l with
  | [] => []
  | x :: t => if Py.mem x t then set_of t else x :: set_of t
  end.

Record alert : Type := {
  alert_class : string;
  severity_color : string;
  sev_label : string
}.

(** Lines 368 to 385. *)
Definition dominant_threat (severity_filter : list string) : alert :=
  let selected_severities := set_of severity_filter in
  if (1 <? List.length selected_severities)%nat then
    {| alert_class := "alert"; severity_color := "#334155";
       sev_label := "MIXED" |}
  else if Py.mem "Severe" selected_severities then
    {| alert_class := "alert-severe"; severity_color := "#b91c1c";
       sev_label := "SEVERE" |}
  else if Py.mem "Moderate" selected_severities then
    {| alert_class := "alert-moderate"; severity_color := "#92400e";
       sev_label := "MODERATE" |}
  else
    {| alert_class := "alert-low"; severity_color := "#166534";
       sev_label := "LOW" |}.

(** The sum of a list of integers, before any wrap-around. *)
Definition Zsum (l : list Z) : Z := fold_right Z.add 0 l.

(** A row whose three counts are integers, the total being the [int64]
    sum of the other two, as the normalizer writes them. *)
Definition consistent (r : row) : Prop :=
  exists d i,
    get r "deaths" = Int d /\ get r "injuries" = Int i /\
    get r "total_casualties" = Int (Int64.add d i).

(** The value of a row in a column, when it is a number. *)
Definition value (m : string) (lr : nat * row) : option Q :=
  as_Q (get (snd lr) m).

(** Bounds on the values of a column of labelled cells. *)
Definition below (x : Q) (s : list (nat * cell)) : Prop :=
  forall k c y, In (k, c) s -> as_Q c = Some y -> (y <= x)%Q.

Definition strictly_below (x : Q) (s : list (nat * cell)) : Prop :=
  forall k c y, In (k, c) s -> as_Q c = Some y -> (y < x)%Q.

(** The order of the table: the later date first. *)
Definition later_first (a b : Z) : Prop := b <= a.

(** A click on a check box, on the three values of the session. *)
Definition flipped (c : checkbox) (s : bool * bool * bool) : bool * bool * bool :=
  match c, s with
  | MinorBox, (a, b, d) => (negb a, b, d)
  | ModerateBox, (a, b, d) => (a, negb b, d)
  | SevereBox, (a, b, d) => (a, b, negb d)
  end.

Definition some_selected (s : bool * bool * bool) : bool :=
  match s with (a, b, d) => a || b || d end.

Definition session_of (s : bool * bool * bool) : session_state :=
  match s with (a, b, d) => session a b d end.

(** The panel after another category is chosen. *)
Definition with_event_type (w : controls) (e : string) : controls :=
  {| magnitude := magnitude w;
     year_range := year_range w;
     event_type := e;
     severity_sel := severity_sel w;
     only_with_casualties := only_with_casualties w;
     metric := metric w |}.

(** *** Line 473: [f.groupby("year")[metric].sum()]

    The keys are the distinct years in ascending order.  The [year]
    column is [int64] in every frame that reaches this line ([load_data]
    casts it, the placeholder holds an integer); a row whose year is not an
    integer is left out, as pandas leaves out a missing key. *)

Definition year_of (r : row) : option Z :=
  match get r "year" with
  | Int y => Some y
  | _ => None
  end.

Fixpoint insert_year (y : Z) (ys : list Z) : list Z :=
  match ys with
  | [] => [y]
  | y' :: t =>
      if y <? y' then y :: y' :: t
      else if y =? y' then y' :: t
      else y' :: insert_year y t
  end.

Definition years (f : frame) : list Z :=
  fold_right
    (fun lr ys => match year_of (snd lr) with
                  | Some y => insert_year y ys
                  | None => ys
                  end)
    [] (rows f).

(** The rows of year [y], and those of a year among [ks]. *)
Definition in_year (y : Z) (lr : nat * row) : bool :=
  match year_of (snd lr) with
  | Some y' => y' =? y
  | None => false
  end.

Definition in_years (ks : list Z) (lr : nat * row) : bool :=
  match year_of (snd lr) with
  | Some y => existsb (Z.eqb y) ks
  | None => false
  end.

Definition group (f : frame) (y : Z) (m : string) : list cell :=
  map (fun lr => get (snd lr) m)
    (List.filter (fun lr => match year_of (snd lr) with
                            | Some y' => y' =? y
                            | None => false
                            end) (rows f)).

(** [s.sum()]: in [int64] on an [int64] column, else in floats, NaN
    skipped. *)
Definition series_sum (s : list cell) : cell :=
  if forallb is_int s then Int (Int64.sum (map int_value s)) else Num (Qsum s).

Definition trend (f : frame) (m : string) : list (Z * cell) :=
  map (fun y => (y, series_sum (group f y m))) (years f).

(** *** Section 8: the table and the export *)

Definition cols_to_show (f : frame) : list string :=
  ([ "date"; "location_name"; "magnitude"; "depth_km"; "deaths"; "injuries";
     "total_casualties"; "severity" ]
   ++ (if Py.mem "tsunami_flag" (columns f) then [ "tsunami_flag" ] else []))%list.

(** The order of [sort_values(c, ascending=False)]: descending, missing
    values still last. *)
Definition cell_geb (a b : cell) : bool :=
  match a, b with
  | _, NA => true
  | NA, _ => false
  | _, _ => cell_leb b a
  end.

Fixpoint insert_desc (c : string) (x : nat * row) (l : list (nat * row))
  : list (nat * row) :=
  match l with
  | [] => [x]
  | y :: t =>
      if cell_geb (get (snd x) c) (get (snd y) c) then x :: y :: t
      else y :: insert_desc c x t
  end.

Definition sort_values_desc (df : frame) (c : string) : frame :=
  {| columns := columns df;
     rows := fold_right (insert_desc c) [] (rows df) |}.

(** [df.head(n)]. *)
Definition head (df : frame) (n : nat) : frame :=
  {| columns := columns df; rows := firstn n (rows df) |}.

(** Lines 515 to 529: [None] when the page says that no record was found;
    else the table of 25 rows and the bytes behind the export button. *)
Definition table_and_export {L : Lib} (f : frame) : option (frame * string) :=
  if empty f || negb (Py.mem "date" (columns f)) then None
  else
    let safe_cols := List.filter (fun c => Py.mem c (columns f)) (cols_to_show f) in
    let table_df := head (sort_values_desc (select f safe_cols) "date") 25 in
    Some (table_df, frame_to_csv f).

(** Descending insertion on the keys. *)
Fixpoint insert_key_desc (k : Z) (ks : list Z) : list Z :=
  match ks with
  | [] => [k]
  | k' :: t => if k' <=? k then k :: k' :: t else k' :: insert_key_desc k t
  end.

End Display.

(* ================================================================== *)
(** ** Rows picked from the samples *)
(* ================================================================== *)
Module Examples.
Import Pandas.

(** The row of San Francisco in the cleaned sample, second by date. *)
Definition san_francisco : row :=
  snd (nth 1 (rows Samples.sample_out) (0%nat, [])).

(** The first event of the sample dataset, with its class. *)
Definition first_event : row :=
  snd (nth 0 (rows Samples.dataset) (0%nat, [])).

(** A cleaned file of three records, the second without a latitude. *)
Definition clean_events : string :=
  "event_id,date,year,location_name,latitude,longitude,magnitude,depth_km,deaths,injuries,total_casualties,tsunami_flag"
  ++ Samples.nl ++
  "3,19000102,1900,CARACAS,10.5,-66.9,6.5,2,-3,2,-1,0" ++ Samples.nl ++
  "2,19050101,1905,LAHORE,,74.3,7.8,25,19000,0,19000," ++ Samples.nl ++
  "1,19060418,1906,SAN FRANCISCO,37.75,-122.45,7.9,8,3000,0,3000,1" ++ Samples.nl.

(** The cleaned file as read, and as [load_data] returns it. *)
Definition clean_sample : frame :=
  DataFrame (read_csv (Lib := PlainCsv.lib) clean_events).

Definition loaded_sample : frame :=
  match Loader.load_frame (L := PlainCsv.lib) (D := Loader.plain_dates)
          clean_sample with
  | inr out => out
  | inl _ => {| columns := []; rows := [] |}
  end.

End Examples.

(* ================================================================== *)
(** * Facts *)
(* ================================================================== *)

(** ** Rows, frames and the sort *)
Module PandasFacts.
Import Pandas.

Lemma get_set (r : row) (c c' : string) (v : cell) :
  get (set r c v) c' = if String.eqb c c' then v else get r c'.
Proof.
  induction r as [| [k x] t IH]; simpl.
  - reflexivity.
  - destruct (String.eqb k c) eqn:Ekc; simpl.
    + apply String.eqb_eq in Ekc; subst k.
      destruct (String.eqb c c'); reflexivity.
    + destruct (String.eqb k c') eqn:Ekc'.
      * apply String.eqb_eq in Ekc'; subst k.
        rewrite String.eqb_sym, Ekc. reflexivity.
      * exact IH.
Qed.

Lemma mem_In (x : string) (l : list string) : Py.mem x l = true <-> In x l.
Proof.
  unfold Py.mem. rewrite existsb_exists. split.
  - intros [y [Hy E]]. apply String.eqb_eq in E. now subst.
  - intros H. exists x. split; [assumption | apply String.eqb_refl].
Qed.

Lemma mem_app (x : string) (l l' : list string) :
  Py.mem x (l ++ l') = Py.mem x l || Py.mem x l'.
Proof. unfold Py.mem. apply existsb_app. Qed.

Lemma columns_assign (df : frame) (c x : string) (e : row -> cell) :
  Py.mem x (columns (assign df c e)) = Py.mem x (columns df) || String.eqb x c.
Proof.
  simpl. destruct (Py.mem c (columns df)) eqn:E.
  - destruct (String.eqb x c) eqn:Exc.
    + apply String.eqb_eq in Exc; subst x. rewrite E. reflexivity.
    + now rewrite orb_false_r.
  - rewrite mem_app. simpl. now rewrite orb_false_r.
Qed.

Lemma get_project (cols : list string) (r : row) (c : string) :
  In c cols -> get (map (fun k => (k, get r k)) cols) c = get r c.
Proof.
  induction cols as [| k t IH]; simpl; [tauto |].
  intros [-> | H].
  - now rewrite String.eqb_refl.
  - destruct (String.eqb k c) eqn:E.
    + apply String.eqb_eq in E. now subst.
    + auto.
Qed.

Lemma insert_by_perm (c : string) (x : nat * row) (l : list (nat * row)) :
  Permutation (insert_by c x l) (x :: l).
Proof.
  induction l as [| y t IH]; simpl.
  - apply Permutation_refl.
  - destruct (cell_leb _ _).
    + apply Permutation_refl.
    + eapply perm_trans; [apply perm_skip, IH | apply perm_swap].
Qed.

Lemma sort_perm (c : string) (l : list (nat * row)) :
  Permutation (fold_right (insert_by c) [] l) l.
Proof.
  induction l as [| x t IH]; simpl.
  - constructor.
  - eapply perm_trans; [apply insert_by_perm | now apply perm_skip].
Qed.

Lemma In_sort_values (df : frame) (c : string) (lr : nat * row) :
  In lr (rows (sort_values df c)) <-> In lr (rows df).
Proof.
  simpl. split; apply Permutation_in;
    [apply sort_perm | apply Permutation_sym, sort_perm].
Qed.

Lemma labels_on_row (g : row -> row) (l : list (nat * row)) :
  map fst (map (on_row g) l) = map fst l.
Proof. rewrite map_map. apply map_ext. reflexivity. Qed.

Lemma labels_DataFrame (t : list string * list (list cell)) :
  NoDup (map fst (rows (DataFrame t))).
Proof.
  simpl. set (m := map (combine (fst t)) (snd t)).
  assert (Hsub : forall (a : list nat) (b : list row),
             NoDup a -> NoDup (map fst (combine a b))).
  { induction a as [| x a IH]; intros b Ha; simpl; [constructor |].
    destruct b as [| y b]; simpl; [constructor |].
    inversion Ha; subst. constructor; [| now apply IH].
    intros Hin. apply in_map_iff in Hin. destruct Hin as [[x' y'] [E Hin]].
    simpl in E; subst x'. apply in_combine_l in Hin. contradiction. }
  apply Hsub, seq_NoDup.
Qed.

Lemma label_unique (l : list (nat * row)) (i : nat) (r r' : row) :
  NoDup (map fst l) -> In (i, r) l -> In (i, r') l -> r = r'.
Proof.
  induction l as [| [j s] t IH]; simpl; [tauto |].
  intros Hnd H H'. inversion Hnd as [| ? ? Hnot Hnd']; subst.
  destruct H as [E | H], H' as [E' | H'].
  - congruence.
  - inversion E; subst. exfalso. apply Hnot.
    change i with (fst (i, r')). now apply in_map.
  - inversion E'; subst. exfalso. apply Hnot.
    change i with (fst (i, r)). now apply in_map.
  - now apply IH.
Qed.

End PandasFacts.

(** ** The normalizer, row by row *)
Module NormalizerFacts.
Import Pandas Normalizer PandasFacts.

Section WithLib.
Context {L : Lib}.

Lemma on_row_id (l : list (nat * row)) : map (on_row (fun r => r)) l = l.
Proof.
  induction l as [| [i r] t IH]; simpl; [reflexivity |].
  unfold on_row at 1; simpl. now rewrite IH.
Qed.

Lemma rows_fold_assign (e : string -> row -> cell) (cs : list string) :
  forall df,
    rows (fold_left (fun df c => assign df c (e c)) cs df)
    = map (on_row (fun r => fold_left (fun r c => upd c (e c) r) cs r))
        (rows df).
Proof.
  induction cs as [| c cs IH]; intros df; simpl.
  - symmetry. apply on_row_id.
  - rewrite IH. simpl. rewrite map_map. apply map_ext.
    intros [i r]. reflexivity.
Qed.

Lemma columns_fold_assign (e : string -> row -> cell) (cs : list string) (x : string) :
  forall df,
    Py.mem x (columns (fold_left (fun df c => assign df c (e c)) cs df))
    = Py.mem x (columns df) || Py.mem x cs.
Proof.
  induction cs as [| c cs IH]; intros df; simpl fold_left.
  - simpl. now rewrite orb_false_r.
  - rewrite IH, columns_assign. simpl.
    rewrite <- orb_assoc. reflexivity.
Qed.

Lemma rows_coerce_required (df : frame) :
  rows (coerce_required df) = map (on_row coerce_row) (rows df).
Proof.
  unfold coerce_required, coerce_row.
  apply (rows_fold_assign numeric_of).
Qed.

Lemma columns_coerce_required (df : frame) (x : string) :
  Py.mem x (columns (coerce_required df))
  = Py.mem x (columns df) || Py.mem x required.
Proof.
  unfold coerce_required.
  apply (columns_fold_assign numeric_of).
Qed.

Lemma derive_columns_inr (df df1 : frame) :
  derive_columns df = inr df1 ->
  Py.mem "location_name" (columns df) = true /\
  rows df1
  = map (on_row (derive_row (Py.mem "tsunami_flag" (columns df)))) (rows df) /\
  (forall x, Py.mem x (columns df1) = Py.mem x (columns df) || Py.mem x derived).
Proof.
  unfold derive_columns, df_get. cbv zeta.
  rewrite !columns_assign.
  change (String.eqb "location_name" "month") with false.
  change (String.eqb "location_name" "day") with false.
  change (String.eqb "location_name" "date") with false.
  rewrite !orb_false_r.
  destruct (Py.mem "location_name" (columns df)) eqn:Hname;
    [| discriminate].
  cbn [astype_str_strip bind]. intros H. injection H as <-.
  split; [reflexivity |]. unfold normalize_tsunami.
  rewrite !columns_assign.
  change (String.eqb "tsunami_flag" "month") with false.
  change (String.eqb "tsunami_flag" "day") with false.
  change (String.eqb "tsunami_flag" "date") with false.
  change (String.eqb "tsunami_flag" "location_name") with false.
  change (String.eqb "tsunami_flag" "deaths") with false.
  change (String.eqb "tsunami_flag" "injuries") with false.
  change (String.eqb "tsunami_flag" "total_casualties") with false.
  rewrite !orb_false_r.
  destruct (Py.mem "tsunami_flag" (columns df)) eqn:Htsu.
  - split.
    + cbn [rows assign]. rewrite !map_map. apply map_ext.
      intros [i r]. reflexivity.
    + intros x. rewrite !columns_assign. unfold derived, Py.mem at 3.
      cbn [existsb].
      destruct (Py.mem x (columns df)) eqn:Hx; cbn [orb]; [reflexivity |].
      destruct (String.eqb x "tsunami_flag") eqn:Ex.
      * apply String.eqb_eq in Ex. subst x. congruence.
      * rewrite !orb_false_r. now rewrite <- !orb_assoc.
  - split.
    + cbn [rows assign]. rewrite !map_map. apply map_ext.
      intros [i r]. reflexivity.
    + intros x. rewrite !columns_assign. unfold derived, Py.mem at 3.
      cbn [existsb]. now rewrite !orb_false_r, <- !orb_assoc.
Qed.

Lemma In_select_and_sort (df : frame) (l : nat) (r : row) :
  In (l, r) (rows (select_and_sort df)) <->
  exists r1, In (l, r1) (rows df) /\ valid r1 = true /\
             r = project (columns (select_and_sort df)) r1.
Proof.
  unfold select_and_sort. cbv zeta. rewrite In_sort_values.
  cbn [rows columns select dropna sort_values]. rewrite in_map_iff. split.
  - intros [[l1 r1] [E H]]. apply filter_In in H. destruct H as [H V].
    unfold on_row in E. simpl in E. injection E as <- <-.
    exists r1. auto.
  - intros [r1 [H [V ->]]]. exists (l, r1). split; [reflexivity |].
    apply filter_In. auto.
Qed.

Lemma labels_canonical_names (df : frame) :
  map fst (rows (canonical_names df)) = map fst (rows df).
Proof.
  unfold canonical_names. cbv zeta.
  destruct (List.filter _ (columns (rename df Py.strip)));
    cbn [rows rename]; now rewrite !labels_on_row.
Qed.

(** The frame that [clean_frame] returns, as the image of the rows of
    the renamed input. *)
Lemma clean_frame_inr (df out : frame) :
  clean_frame df = inr out ->
  let cn := canonical_names df in
  let tsu := Py.mem "tsunami_flag" (columns cn) in
  missing cn = [] /\
  Py.mem "location_name" (columns cn) = true /\
  columns out
  = List.filter (fun c => Py.mem c (columns cn) || Py.mem c required
                          || Py.mem c derived) final_cols /\
  forall l r,
    In (l, r) (rows out) <->
    exists r0, In (l, r0) (rows cn) /\ valid (clean_row tsu r0) = true /\
               r = project (columns out) (clean_row tsu r0).
Proof.
  intros H cn tsu. unfold clean_frame in H. cbv zeta in H. fold cn in H.
  destruct (missing cn) eqn:Hmiss; [| discriminate].
  destruct (derive_columns (coerce_required cn)) as [e | df1] eqn:Hd;
    [discriminate |].
  cbn [bind] in H. injection H as <-.
  apply derive_columns_inr in Hd. destruct Hd as [Hname [Hrows Hcols]].
  rewrite columns_coerce_required in Hname.
  change (Py.mem "location_name" required) with false in Hname.
  rewrite orb_false_r in Hname.
  rewrite columns_coerce_required in Hrows.
  change (Py.mem "tsunami_flag" required) with false in Hrows.
  rewrite orb_false_r in Hrows. fold tsu in Hrows.
  rewrite rows_coerce_required, map_map in Hrows.
  assert (Hc : columns (select_and_sort df1)
               = List.filter (fun c => Py.mem c (columns cn)
                   || Py.mem c required || Py.mem c derived) final_cols).
  { unfold select_and_sort. cbn [columns select dropna sort_values].
    apply filter_ext. intros c.
    now rewrite Hcols, columns_coerce_required. }
  repeat split; try assumption.
  - intros Hin. apply In_select_and_sort in Hin.
    destruct Hin as [r1 [Hin [V ->]]]. rewrite Hrows in Hin.
    apply in_map_iff in Hin. destruct Hin as [[l0 r0] [E Hin]].
    unfold on_row in E. simpl in E. injection E as <- <-.
    exists r0. auto.
  - intros [r0 [Hin [V ->]]]. apply In_select_and_sort.
    exists (clean_row tsu r0). repeat split; try assumption.
    rewrite Hrows. apply in_map_iff. exists (l, r0). auto.
Qed.

Lemma get_upd (c c' : string) (e : row -> cell) (r : row) :
  get (upd c e r) c' = if String.eqb c c' then e r else get r c'.
Proof. apply get_set. Qed.

End WithLib.

(** Reads a column of a row that a chain of [upd] has built: each
    comparison of two column names is decided by evaluation. *)
Ltac read_column :=
  repeat (rewrite get_upd;
          match goal with
          | |- context [String.eqb ?a ?b] =>
              let v := eval vm_compute in (String.eqb a b) in
              change (String.eqb a b) with v
          end; cbv iota).

Ltac open_clean_row :=
  unfold clean_row, derive_row, tsunami_row, coerce_row;
  cbn [fold_left required]; cbv zeta.

Section WithLib.
Context {L : Lib}.

Lemma clean_row_deaths (t : bool) (r : row) :
  get (clean_row t r) "deaths"
  = astype_int (fillna (Int 0) (to_numeric (get r "deaths"))).
Proof.
  open_clean_row.
  destruct t; read_column; unfold deaths_of; read_column;
    unfold numeric_of; read_column; reflexivity.
Qed.

Lemma clean_row_injuries (t : bool) (r : row) :
  get (clean_row t r) "injuries"
  = astype_int (fillna (Int 0) (to_numeric (get r "injuries"))).
Proof.
  open_clean_row.
  destruct t; read_column; unfold injuries_of; read_column;
    unfold numeric_of; read_column; reflexivity.
Qed.

Lemma clean_row_total (t : bool) (r : row) :
  get (clean_row t r) "total_casualties"
  = match get (clean_row t r) "deaths", get (clean_row t r) "injuries" with
    | Int d, Int i => Int (Int64.add d i)
    | _, _ => NA
    end.
Proof.
  open_clean_row.
  destruct t; read_column; unfold total_casualties_of; read_column;
    reflexivity.
Qed.

(** The columns of the validity gate other than [date] hold what
    [to_numeric] made of the raw value. *)
Lemma clean_row_gate (t : bool) (r : row) (c : string) :
  In c gate_numeric ->
  get (clean_row t r) c = to_numeric (get r c).
Proof.
  intros H. unfold gate_numeric in H. simpl in H.
  repeat (destruct H as [<- | H]); try contradiction;
    open_clean_row;
    destruct t; read_column; unfold numeric_of; read_column; reflexivity.
Qed.

Lemma to_numeric_cases (c : cell) :
  to_numeric c = NA \/ (exists x, to_numeric c = Num x)
  \/ (exists z, to_numeric c = Int z).
Proof.
  destruct c as [| x | z | s | t]; simpl; eauto.
  destruct (str_to_num s); eauto.
Qed.

(** A count column after [fillna(0).astype(int)] holds an integer. *)
Lemma count_is_int (c : cell) :
  exists d, astype_int (fillna (Int 0) (to_numeric c)) = Int d.
Proof.
  destruct (to_numeric_cases c) as [E | [[x E] | [z E]]]; rewrite E;
    simpl; eauto.
Qed.

Lemma In_columns_out (df out : frame) (c : string) :
  clean_frame df = inr out ->
  In c final_cols -> Py.mem c required || Py.mem c derived = true ->
  In c (columns out).
Proof.
  intros H Hf Hm. apply clean_frame_inr in H. cbv zeta in H.
  destruct H as [_ [_ [Hc _]]]. rewrite Hc. apply filter_In.
  split; [assumption |]. rewrite <- orb_assoc, Hm. apply orb_true_r.
Qed.

(** A row of the cleaned frame, read through its source row. *)
Lemma cleaned_row_source (df out : frame) (l : nat) (r : row) :
  clean_frame df = inr out -> In (l, r) (rows out) ->
  exists t r0,
    In (l, r0) (rows (canonical_names df)) /\
    valid (clean_row t r0) = true /\
    forall c, In c final_cols ->
              Py.mem c required || Py.mem c derived = true ->
              get r c = get (clean_row t r0) c.
Proof.
  intros H Hin. pose proof (clean_frame_inr _ _ H) as Hf. cbv zeta in Hf.
  destruct Hf as [_ [_ [_ Hrows]]]. apply Hrows in Hin.
  destruct Hin as [r0 [Hin [V ->]]].
  exists (Py.mem "tsunami_flag" (columns (canonical_names df))), r0.
  repeat split; try assumption.
  intros c Hc Hm. apply get_project. eapply In_columns_out; eassumption.
Qed.

Lemma auto_clean_writes (fs : files) (raw clean content : string) (out : frame) :
  fs raw = Some content ->
  clean_frame (DataFrame (read_csv content)) = inr out ->
  auto_clean_raw_to_csv fs raw clean
  = inr (write_file fs clean (frame_to_csv out)).
Proof.
  intros Hraw Hout. unfold auto_clean_raw_to_csv.
  rewrite Hraw, Hout. reflexivity.
Qed.

End WithLib.
End NormalizerFacts.

Module Int64Facts.

Lemma wrap_in_range (z : Z) : Int64.in_range z -> Int64.wrap z = z.
Proof.
  unfold Int64.in_range, Int64.min_int, Int64.max_int, Int64.wrap.
  assert (E63 : 2 ^ 63 = 9223372036854775808) by reflexivity.
  assert (E64 : 2 ^ 64 = 18446744073709551616) by reflexivity.
  rewrite E63, E64. intros H. rewrite Z.mod_small; lia.
Qed.

Lemma wrap_congruent (z : Z) : (Int64.wrap z - z) mod 2 ^ 64 = 0.
Proof.
  unfold Int64.wrap.
  rewrite (Z.mod_eq (z + 2 ^ 63) (2 ^ 64)) by (now compute).
  replace (z + 2 ^ 63 - 2 ^ 64 * ((z + 2 ^ 63) / 2 ^ 64) - 2 ^ 63 - z)
    with ((- ((z + 2 ^ 63) / 2 ^ 64)) * 2 ^ 64) by ring.
  apply Z.mod_mul. now compute.
Qed.





End Int64Facts.

(* ================================================================== *)
(** * The normalizer: what the canonical output satisfies *)
(* ================================================================== *)
Module NormalizerSpec.
Import Pandas Normalizer PandasFacts NormalizerFacts Int64Facts.

Section WithLib.
Context {L : Lib}.

(** C3, as amended. For every raw file that the normalizer accepts,
    every event of the canonical output holds integer [deaths] and
    [injuries], and its [total_casualties] is their sum in the [int64]
    arithmetic of the columns: congruent to [deaths + injuries] modulo
    2^64, and equal to it whenever that sum fits in [int64]. *)
Theorem total_casualties_int64_sum
    (fs : files) (raw clean content : string) (out : frame) :
  fs raw = Some content ->
  clean_frame (DataFrame (read_csv content)) = inr out ->
  auto_clean_raw_to_csv fs raw clean
  = inr (write_file fs clean (frame_to_csv out)) /\
  forall l r, In (l, r) (rows out) ->
    exists d i t,
      get r "deaths" = Int d /\ get r "injuries" = Int i /\
      get r "total_casualties" = Int t /\
      t = Int64.add d i /\
      (t - (d + i)) mod 2 ^ 64 = 0 /\
      (Int64.in_range (d + i) -> t = d + i).
Proof.
  intros Hraw Hout. split; [now apply (auto_clean_writes fs raw clean content) |].
  intros l r Hin.
  destruct (cleaned_row_source _ _ _ _ Hout Hin) as [t [r0 [_ [_ Hget]]]].
  destruct (count_is_int (get r0 "deaths")) as [d Hd].
  destruct (count_is_int (get r0 "injuries")) as [i Hi].
  exists d, i, (Int64.add d i).
  assert (Ed : get r "deaths" = Int d).
  { rewrite Hget, clean_row_deaths; [exact Hd | simpl; tauto | reflexivity]. }
  assert (Ei : get r "injuries" = Int i).
  { rewrite Hget, clean_row_injuries; [exact Hi | simpl; tauto | reflexivity]. }
  repeat split; try assumption.
  - rewrite Hget, clean_row_total; [| simpl; tauto | reflexivity].
    now rewrite clean_row_deaths, clean_row_injuries, Hd, Hi.
  - apply wrap_congruent.
  - apply wrap_in_range.
Qed.

(** C5. For every raw file that the normalizer accepts, a raw row whose
    magnitude, latitude, longitude, depth or year is not a number
    (missing, or text that [to_numeric] cannot convert) has no row in
    the canonical output: no output row carries its index label. *)
Theorem invalid_rows_absent
    (fs : files) (raw clean content : string) (out : frame) :
  fs raw = Some content ->
  clean_frame (DataFrame (read_csv content)) = inr out ->
  auto_clean_raw_to_csv fs raw clean
  = inr (write_file fs clean (frame_to_csv out)) /\
  forall l r0 c,
    In (l, r0) (rows (canonical_names (DataFrame (read_csv content)))) ->
    In c gate_numeric ->
    to_numeric (get r0 c) = NA ->
    ~ In l (map fst (rows out)).
Proof.
  intros Hraw Hout. split; [now apply (auto_clean_writes fs raw clean content) |].
  intros l r0 c Hin Hc Hna Habs.
  apply in_map_iff in Habs. destruct Habs as [[l' r] [E Hr]].
  simpl in E. subst l'.
  destruct (cleaned_row_source _ _ _ _ Hout Hr) as [t [r1 [Hin1 [V _]]]].
  assert (E : r1 = r0).
  { eapply label_unique; [| exact Hin1 | exact Hin].
    rewrite labels_canonical_names. apply labels_DataFrame. }
  subst r1. unfold valid in V. rewrite forallb_forall in V.
  assert (Hs : In c dropna_subset).
  { unfold gate_numeric in Hc. simpl in Hc. simpl.
    repeat (destruct Hc as [<- | Hc]); tauto. }
  specialize (V c Hs). rewrite (clean_row_gate t r0 c Hc), Hna in V.
  discriminate.
Qed.

(** C6. Two runs of the normalizer on the same raw file write the same
    bytes, whatever else the directory holds and wherever they write;
    in particular a second run after the first (the raw file is not the
    target) leaves every file as the first run left it. *)
Theorem auto_clean_twice_identical
    (fs fs1 : files) (raw clean : string) :
  auto_clean_raw_to_csv fs raw clean = inr fs1 ->
  (exists bytes,
      fs1 clean = Some bytes /\
      forall fs' clean', fs' raw = fs raw ->
        exists fs2, auto_clean_raw_to_csv fs' raw clean' = inr fs2 /\
                    fs2 clean' = Some bytes) /\
  (raw <> clean ->
   exists fs2, auto_clean_raw_to_csv fs1 raw clean = inr fs2 /\
               forall p, fs2 p = fs1 p).
Proof.
  unfold auto_clean_raw_to_csv. intros H.
  destruct (fs raw) as [content |] eqn:Hraw; [| discriminate].
  destruct (clean_frame (DataFrame (read_csv content))) as [e | out] eqn:Hout;
    [discriminate |].
  cbn [bind] in H. injection H as <-. split.
  - exists (frame_to_csv out). split.
    + unfold write_file. now rewrite String.eqb_refl.
    + intros fs' clean' E. rewrite E, Hout. cbn [bind].
      eexists. split; [reflexivity |].
      unfold write_file. now rewrite String.eqb_refl.
  - intros Hne. unfold write_file at 1.
    destruct (String.eqb raw clean) eqn:E.
    + apply String.eqb_eq in E. contradiction.
    + rewrite Hraw, Hout. cbn [bind]. eexists. split; [reflexivity |].
      intros p. unfold write_file. destruct (String.eqb p clean); reflexivity.
Qed.

(** What goes wrong for C9, in general: a feed that has every required
    column and no location name leaves the function with the
    [AttributeError] of line 199. *)
Lemma no_location_name_raises (df : frame) :
  missing (canonical_names df) = [] ->
  Py.mem "location_name" (columns (canonical_names df)) = false ->
  clean_frame df
  = inl (AttributeError "'str' object has no attribute 'astype'").
Proof.
  intros Hm Hn. unfold clean_frame. cbv zeta. rewrite Hm.
  unfold derive_columns, df_get. cbv zeta.
  rewrite !columns_assign, columns_coerce_required, Hn. reflexivity.
Qed.


End WithLib.

(** *** The theorems at the sample feed, and the inputs that refute the
    claims as first stated *)

Import Samples.

Lemma sample_accepted :
  clean_frame (L := PlainCsv.lib) sample_frame = inr sample_out.
Proof. vm_compute. reflexivity. Qed.

Lemma total_casualties_int64_sum_witness :
  disk raw_events raw_path = Some raw_events /\
  clean_frame (L := PlainCsv.lib) sample_frame = inr sample_out /\
  forall l r, In (l, r) (rows sample_out) ->
    exists d i t,
      get r "deaths" = Int d /\ get r "injuries" = Int i /\
      get r "total_casualties" = Int t /\
      t = Int64.add d i /\
      (t - (d + i)) mod 2 ^ 64 = 0 /\
      (Int64.in_range (d + i) -> t = d + i).
Proof.
  split; [reflexivity |]. split; [vm_compute; reflexivity |].
  apply (total_casualties_int64_sum (L := PlainCsv.lib)
           (disk raw_events) raw_path clean_path raw_events sample_out).
  - reflexivity.
  - vm_compute. reflexivity.
Defined.

(** C3 as first stated fails: with 2^62 deaths and 2^62 injuries in the
    raw file, the canonical event has [total_casualties] = -2^63. *)
Lemma total_casualties_wraps :
  exists out r,
    clean_frame (L := PlainCsv.lib)
      (DataFrame (read_csv (Lib := PlainCsv.lib) raw_huge)) = inr out /\
    auto_clean_raw_to_csv (L := PlainCsv.lib) (disk raw_huge) raw_path clean_path
    = inr (write_file (disk raw_huge) clean_path
             (frame_to_csv (L := PlainCsv.lib) out)) /\
    In r (map snd (rows out)) /\
    get r "deaths" = Int 4611686018427387904 /\
    get r "injuries" = Int 4611686018427387904 /\
    get r "total_casualties" = Int (-9223372036854775808) /\
    -9223372036854775808 <> 4611686018427387904 + 4611686018427387904.
Proof.
  eexists. eexists.
  split; [vm_compute; reflexivity |].
  split; [apply (auto_clean_writes (L := PlainCsv.lib) _ _ _ raw_huge);
          vm_compute; reflexivity |].
  split; [left; reflexivity |].
  repeat split; try (vm_compute; reflexivity). discriminate.
Qed.

Lemma invalid_rows_absent_witness :
  disk raw_events raw_path = Some raw_events /\
  clean_frame (L := PlainCsv.lib) sample_frame = inr sample_out /\
  In (1%nat, combine (columns (canonical_names sample_frame))
               [ Int 2; Int 1905; NA; NA; Txt "LAHORE"; Txt "abc";
                 Num (Float64.round 74.3); Int 25; Num (Float64.round 7.8);
                 Int 19000; NA; Txt "N" ])
     (rows (canonical_names sample_frame)) /\
  ~ In 1%nat (map fst (rows sample_out)).
Proof.
  split; [reflexivity |]. split; [vm_compute; reflexivity |].
  assert (Hin : In (1%nat,
                    combine (columns (canonical_names sample_frame))
                      [ Int 2; Int 1905; NA; NA; Txt "LAHORE"; Txt "abc";
                        Num (Float64.round 74.3); Int 25;
                        Num (Float64.round 7.8); Int 19000; NA; Txt "N" ])
                 (rows (canonical_names sample_frame))).
  { vm_compute. right. left. reflexivity. }
  split; [exact Hin |].
  apply (proj2 (invalid_rows_absent (L := PlainCsv.lib)
                  (disk raw_events) raw_path clean_path raw_events sample_out
                  eq_refl sample_accepted)
           1%nat _ "latitude" Hin).
  - vm_compute. tauto.
  - vm_compute. reflexivity.
Defined.

Lemma auto_clean_twice_identical_witness :
  exists fs1,
    auto_clean_raw_to_csv (L := PlainCsv.lib) (disk raw_events) raw_path clean_path
    = inr fs1 /\
    raw_path <> clean_path /\
    (exists bytes,
        fs1 clean_path = Some bytes /\
        forall fs' clean', fs' raw_path = disk raw_events raw_path ->
          exists fs2,
            auto_clean_raw_to_csv (L := PlainCsv.lib) fs' raw_path clean' = inr fs2 /\
            fs2 clean' = Some bytes) /\
    (exists fs2,
        auto_clean_raw_to_csv (L := PlainCsv.lib) fs1 raw_path clean_path = inr fs2 /\
        forall p, fs2 p = fs1 p).
Proof.
  exists (write_file (disk raw_events) clean_path
            (frame_to_csv (L := PlainCsv.lib) sample_out)).
  assert (H : auto_clean_raw_to_csv (L := PlainCsv.lib)
                (disk raw_events) raw_path clean_path
              = inr (write_file (disk raw_events) clean_path
                       (frame_to_csv (L := PlainCsv.lib) sample_out))).
  { apply (auto_clean_writes (L := PlainCsv.lib) _ _ _ raw_events).
    - reflexivity.
    - vm_compute. reflexivity. }
  split; [exact H |]. split; [discriminate |].
  destruct (auto_clean_twice_identical (L := PlainCsv.lib) _ _ _ _ H)
    as [H1 H2].
  split; [exact H1 | apply H2; discriminate].
Defined.

(** C9. A raw file with every required column and no column [Name]: the
    normalizer does not default the location name, it raises at line 199
    and writes nothing. *)
Theorem unnamed_feed_raises :
  auto_clean_raw_to_csv (L := PlainCsv.lib) (disk raw_unnamed) raw_path clean_path
  = inl (AttributeError "'str' object has no attribute 'astype'").
Proof. vm_compute. reflexivity. Qed.



(** In a [float64] column 2^63 - 1 is held as the double 2^63, and the
    cast writes -2^63. *)
Lemma float_count_rounds :
  exists out r,
    clean_frame (L := PlainCsv.lib)
      (DataFrame (read_csv (Lib := PlainCsv.lib) raw_rounded)) = inr out /\
    In r (map snd (rows out)) /\
    get r "location_name" = Txt "X" /\
    get r "deaths" = Int (-9223372036854775808).
Proof.
  eexists. eexists.
  split; [vm_compute; reflexivity |].
  split; [left; reflexivity |].
  split; vm_compute; reflexivity.
Qed.

End NormalizerSpec.

(* ================================================================== *)
(** * The dashboard: severity, check boxes, filter and aggregates *)
(* ================================================================== *)
(** The error of the rounding to a double. *)
Module Float64Facts.
Import Float64.
Local Open Scope Z_scope.

Lemma rne_near (y : Q) : (Qabs (inject_Z (rne y) - y) <= 1 # 2)%Q.
Proof.
  pose proof (Qfloor_le y) as Hl. pose proof (Qlt_floor y) as Hu.
  rewrite inject_Z_plus in Hu. change (inject_Z 1) with 1%Q in Hu.
  apply Qabs_Qle_condition. unfold rne.
  destruct (Qcompare_spec (y - inject_Z (Qfloor y)) (1 # 2)) as [E | E | E].
  - destruct (Z.even (Qfloor y)).
    + split; lra.
    + rewrite inject_Z_plus. change (inject_Z 1) with 1%Q. split; lra.
  - split; lra.
  - rewrite inject_Z_plus. change (inject_Z 1) with 1%Q. split; lra.
Qed.

Lemma pow2_pos (e : Z) : (0 < 2 ^ e)%Q.
Proof. apply Qpower_0_lt. reflexivity. Qed.

Lemma round_near (q : Q) :
  (Qabs (round q - q) <= (1 # 2) * 2 ^ ulp_exp q)%Q.
Proof.
  unfold round. destruct (Qeq_bool q 0) eqn:E.
  - apply Qeq_bool_eq in E.
    pose proof (pow2_pos (ulp_exp q)). apply Qabs_Qle_condition. split; lra.
  - cbv zeta. rewrite Qred_correct.
    set (p := (2 ^ ulp_exp q)%Q). assert (Hp : (0 < p)%Q) by apply pow2_pos.
    pose proof (rne_near (q / p)) as H.
    assert (Eq : (inject_Z (rne (q / p)) * p - q
                  == (inject_Z (rne (q / p)) - q / p) * p)%Q).
    { field. lra. }
    rewrite Eq, Qabs_Qmult, (Qabs_pos p) by lra.
    apply Qmult_le_compat_r; lra.
Qed.

Lemma ilog2_below_16 (q : Q) : (0 < q)%Q -> (q < 16)%Q -> ilog2 q <= 3.
Proof.
  intros H0 H1. unfold ilog2.
  destruct q as [n d]. cbn [Qnum Qden] in *.
  assert (Hn : 0 < n) by (unfold Qlt in H0; simpl in H0; lia).
  assert (Hd : n < 16 * Zpos d) by (unfold Qlt in H1; simpl in H1; lia).
  assert (Hk : Z.log2 n - Z.log2 (Zpos d) <= 4).
  { assert (Z.log2 n <= Z.log2 (Zpos d * 2 ^ 4)).
    { apply Z.log2_le_mono. change (2 ^ 4) with 16. lia. }
    rewrite Z.log2_mul_pow2 in H by lia. lia. }
  destruct (Qle_bool _ _) eqn:E; [| lia].
  destruct (Z.eq_dec (Z.log2 n - Z.log2 (Zpos d)) 4) as [E4 | N4]; [| lia].
  rewrite E4 in E. apply Qle_bool_iff in E.
  change (2 ^ 4)%Q with 16%Q in E. unfold Qle in E. simpl in E. lia.
Qed.

Lemma ulp_exp_below_16 (q : Q) : (0 < q)%Q -> (q < 16)%Q -> ulp_exp q <= -49.
Proof.
  intros H0 H1. unfold ulp_exp, emin, prec.
  assert (E : Qabs q = q).
  { destruct q as [n d]. unfold Qabs. f_equal. apply Z.abs_eq.
    unfold Qlt in H0. simpl in H0. lia. }
  rewrite E. pose proof (ilog2_below_16 q H0 H1). lia.
Qed.

(** Between 0 and 16 a value and its double differ by 2^-50 at most. *)
Lemma round_near_below_16 (q : Q) :
  (0 < q)%Q -> (q < 16)%Q -> (Qabs (round q - q) <= 2 ^ (-50))%Q.
Proof.
  intros H0 H1. eapply Qle_trans; [apply round_near |].
  pose proof (ulp_exp_below_16 q H0 H1) as He.
  assert (H : (2 ^ ulp_exp q <= 2 ^ (-49))%Q).
  { apply Qpower_le_compat_l; [exact He | lra]. }
  change (2 ^ (-50))%Q with ((1 # 2) * 2 ^ (-49))%Q at 1.
  lra.
Qed.

End Float64Facts.

Module DashboardFacts.
Import Pandas Dashboard PandasFacts.

Lemma filter_filter {A : Type} (f g : A -> bool) (l : list A) :
  List.filter g (List.filter f l) = List.filter (fun x => f x && g x) l.
Proof.
  induction l as [| x t IH]; simpl; [reflexivity |].
  destruct (f x) eqn:Ef; simpl.
  - destruct (g x); simpl; now rewrite IH.
  - exact IH.
Qed.

Lemma filter_length_le {A : Type} (f g : A -> bool) (l : list A) :
  (forall x, f x = true -> g x = true) ->
  (List.length (List.filter f l) <= List.length (List.filter g l))%nat.
Proof.
  intros H. induction l as [| x t IH]; simpl; [lia |].
  destruct (f x) eqn:Ef.
  - rewrite (H x Ef). simpl. lia.
  - destruct (g x); simpl; lia.
Qed.

(** The successive selections of [filter_logic] amount to one. *)
Lemma rows_filter_logic (df : frame) (w : controls) :
  rows (filter_logic df w)
  = List.filter (fun lr => admits df w (snd lr)) (rows df).
Proof.
  unfold filter_logic, admits. cbv zeta.
  destruct (only_with_casualties w), (has_tsunami df);
    [ destruct (Py.contains "only" _); [| destruct (Py.contains "tsunami" _)]
    | | destruct (Py.contains "only" _); [| destruct (Py.contains "tsunami" _)]
    | ];
    cbn [rows where_]; rewrite ?filter_filter; apply filter_ext;
    intros [l r]; cbn [snd]; now rewrite ?andb_true_r, ?andb_assoc.
Qed.

Lemma ge_int_mono (c : cell) (a a' : Z) :
  a <= a' -> ge_int c a' = true -> ge_int c a = true.
Proof.
  intros H. destruct c as [| x | y | s | t]; simpl; try discriminate.
  - rewrite !Qle_bool_iff. intros Hx.
    eapply Qle_trans; [| exact Hx]. now rewrite <- Zle_Qle.
  - rewrite !Z.geb_le. lia.
Qed.

Lemma le_int_mono (c : cell) (b b' : Z) :
  b' <= b -> le_int c b' = true -> le_int c b = true.
Proof.
  intros H. destruct c as [| x | y | s | t]; simpl; try discriminate.
  - rewrite !Qle_bool_iff. intros Hx.
    eapply Qle_trans; [exact Hx |]. now rewrite <- Zle_Qle.
  - rewrite !Z.leb_le. lia.
Qed.

Lemma admits_narrower (df : frame) (w : controls) (a b a' b' : Z) (r : row) :
  year_range w = (a, b) -> a <= a' -> b' <= b ->
  admits df (with_year_range w (a', b')) r = true -> admits df w r = true.
Proof.
  intros Hyr Ha Hb. unfold admits, year_mask, magnitude_mask, severity_mask.
  cbn [with_year_range year_range magnitude severity_sel only_with_casualties
       event_type fst snd]. rewrite Hyr. cbn [fst snd].
  rewrite !andb_true_iff. intros [[[[[Hge Hle] Hm] Hs] Hc] Ht].
  repeat split; try assumption.
  - eapply ge_int_mono; eassumption.
  - eapply le_int_mono; eassumption.
Qed.

Lemma placeholder_one_row (df : frame) (w : controls) :
  List.length (rows (placeholder df w)) = 1%nat.
Proof. unfold placeholder. destruct (has_tsunami df); reflexivity. Qed.

Lemma displayed_count (df : frame) (w : controls) :
  List.length (rows (displayed df w))
  = Nat.max 1 (List.length (rows (filter_logic df w))).
Proof.
  unfold displayed, empty. cbv zeta.
  destruct (rows (filter_logic df w)) as [| x t] eqn:E.
  - apply placeholder_one_row.
  - rewrite E. simpl. lia.
Qed.

Lemma interact_session (a b c : bool) (i : interaction) :
  a || b || c = true ->
  exists a' b' c',
    interact (session a b c) i = Some (session a' b' c') /\
    a' || b' || c' = true.
Proof.
  intros H. destruct i as [[| |] |], a, b, c; try discriminate H;
    do 3 eexists; (split; [vm_compute; reflexivity | reflexivity]).
Qed.

Lemma interact_all_session (l : list interaction) :
  forall a b c, a || b || c = true ->
  exists a' b' c',
    interact_all (session a b c) l = Some (session a' b' c') /\
    a' || b' || c' = true.
Proof.
  induction l as [| i t IH]; intros a b c H; simpl.
  - eauto.
  - destruct (interact_session a b c i H) as [a1 [b1 [c1 [E H1]]]].
    rewrite E. now apply IH.
Qed.

End DashboardFacts.

Module DashboardSpec.
Import Pandas Dashboard PandasFacts Float64Facts DashboardFacts Samples.

(** C2. The class depends on [total_casualties] alone: Severe from 1000
    up, Moderate from 100 to 999, Minor below 100; so 1000 is Severe, 999
    and 100 are Moderate, 99 and 0 are Minor; and the [severity] column
    of the dataset is that function of the [total_casualties] column. *)
Theorem classify_severity_thresholds :
  (forall total,
      (1000 <= total -> classify_severity total = "Severe") /\
      (100 <= total < 1000 -> classify_severity total = "Moderate") /\
      (total < 100 -> classify_severity total = "Minor")) /\
  classify_severity 1000 = "Severe" /\
  classify_severity 999 = "Moderate" /\
  classify_severity 100 = "Moderate" /\
  classify_severity 99 = "Minor" /\
  classify_severity 0 = "Minor" /\
  (forall df l r,
      In (l, r) (rows (with_severity df)) ->
      get r "severity" = apply_classify_severity (get r "total_casualties")).
Proof.
  split; [| repeat split].
  - intros total. unfold classify_severity. rewrite !Z.geb_leb.
    destruct (Z.leb_spec 1000 total), (Z.leb_spec 100 total);
      repeat split; intros Ht; try reflexivity; lia.
  - intros df l r Hin. unfold with_severity in Hin. cbn [rows assign] in Hin.
    apply in_map_iff in Hin. destruct Hin as [[l0 r0] [E _]].
    unfold on_row in E. cbn [fst snd] in E. injection E as <- <-.
    rewrite !get_set. reflexivity.
Qed.

Lemma classify_severity_thresholds_witness :
  classify_severity 250000 = "Severe" /\
  classify_severity 250 = "Moderate" /\
  classify_severity 25 = "Minor" /\
  get (set event_67 "severity" (Txt "Minor")) "severity"
  = apply_classify_severity
      (get (set event_67 "severity" (Txt "Minor")) "total_casualties").
Proof.
  destruct classify_severity_thresholds as [H [_ [_ [_ [_ [_ Hdf]]]]]].
  split; [apply (proj1 (H 250000)); lia |].
  split; [apply (proj1 (proj2 (H 250))); lia |].
  split; [apply (proj2 (proj2 (H 25))); lia |].
  apply (Hdf {| columns := columns dataset;
                rows := [ (0%nat, event_67); (1%nat, event_70) ] |} 0%nat).
  left. reflexivity.
Defined.

(** C4, as amended. The two bounds of the window are computed in
    [float64]: the magnitude mask of the filter is true exactly when the
    magnitude lies between the double nearest to target - 0.25 and the
    double nearest to target + 0.25, both ends included, and no event
    outside these bounds is in the filtered frame.  When the two bounds are
    doubles as they stand, as for the target 6.5, this is
    |x - target| <= 0.25; for every target of the slider, from 3 to 9, it
    is so up to 2^-50: an admitted event has |x - target| <= 0.25 + 2^-50,
    and an event with |x - target| <= 0.25 - 2^-50 is admitted.  With
    target 6.5, the event of magnitude 6.7 is kept and the event of
    magnitude 7.0 is not. *)
Theorem magnitude_window_inclusive (w : controls) (r : row) (x : Q) :
  as_Q (get r "magnitude") = Some x ->
  (magnitude_mask w r = true <->
   (Float64.sub (magnitude w) mag_window <= x)%Q /\
   (x <= Float64.add (magnitude w) mag_window)%Q) /\
  ((Float64.sub (magnitude w) mag_window == magnitude w - 0.25)%Q ->
   (Float64.add (magnitude w) mag_window == magnitude w + 0.25)%Q ->
   (magnitude_mask w r = true <-> (Qabs (x - magnitude w) <= 0.25)%Q)) /\
  ((3 <= magnitude w)%Q -> (magnitude w <= 9)%Q ->
   (magnitude_mask w r = true ->
    (Qabs (x - magnitude w) <= 0.25 + 2 ^ (-50))%Q) /\
   ((Qabs (x - magnitude w) <= 0.25 - 2 ^ (-50))%Q ->
    magnitude_mask w r = true)) /\
  (forall df l, In (l, r) (rows (filter_logic df w)) ->
     (Float64.sub (magnitude w) mag_window <= x)%Q /\
     (x <= Float64.add (magnitude w) mag_window)%Q) /\
  (magnitude_mask panel event_67 = true /\
   magnitude_mask panel event_70 = false /\
   magnitude_mask panel (event 1950 6.25 5) = true /\
   magnitude_mask panel (event 1950 6.75 5) = true /\
   map fst (rows (filter_logic dataset panel)) = [ 0%nat ]).
Proof.
  intros Hx.
  assert (Hiff : magnitude_mask w r = true <->
                 (Float64.sub (magnitude w) mag_window <= x)%Q /\
                 (x <= Float64.add (magnitude w) mag_window)%Q).
  { unfold magnitude_mask, between. rewrite Hx.
    now rewrite andb_true_iff, !Qle_bool_iff. }
  unfold mag_window in *.
  split; [exact Hiff |]. split; [| split; [| split]].
  - intros Elo Ehi. rewrite Hiff, Qabs_Qle_condition.
    split; intros [H1 H2]; split; lra.
  - intros H3 H9.
    pose proof (round_near_below_16 (magnitude w - 0.25)) as Hlo.
    pose proof (round_near_below_16 (magnitude w + 0.25)) as Hhi.
    apply Qabs_Qle_condition in Hlo; [| lra | lra].
    apply Qabs_Qle_condition in Hhi; [| lra | lra].
    unfold Float64.sub, Float64.add in Hiff.
    split.
    + intros Hm. apply Hiff in Hm. apply Qabs_Qle_condition.
      split; lra.
    + intros Hd. apply Hiff. apply Qabs_Qle_condition in Hd.
      split; lra.
  - intros df l Hin. apply Hiff. rewrite rows_filter_logic in Hin.
    apply filter_In in Hin. destruct Hin as [_ Ha]. cbn [snd] in Ha.
    unfold admits in Ha. rewrite !andb_true_iff in Ha. tauto.
  - repeat split; vm_compute; reflexivity.
Qed.

Lemma magnitude_window_inclusive_witness :
  as_Q (get event_67 "magnitude") = Some 6.7%Q /\
  (magnitude_mask panel event_67 = true <->
   (Float64.sub (magnitude panel) mag_window <= 6.7)%Q /\
   (6.7 <= Float64.add (magnitude panel) mag_window)%Q).
Proof.
  split; [reflexivity |].
  apply (magnitude_window_inclusive panel event_67 6.7%Q). reflexivity.
Defined.

(** C4 as first stated fails: with the slider at 3.9 the event of
    magnitude 4.15 is admitted, 3.9 + 0.25 being rounded up to the
    double 4.15, although the two magnitudes are 0.25 + 2^-51 apart. *)
Lemma magnitude_window_rounds :
  magnitude_mask panel_39 event_415 = true /\
  map fst (rows (filter_logic dataset_415 panel_39)) = [ 0%nat ] /\
  as_Q (get event_415 "magnitude") = Some (Float64.round 4.15) /\
  (Float64.round 4.15 - magnitude panel_39 == 0.25 + 2 ^ (-51))%Q /\
  ~ (Qabs (Float64.round 4.15 - magnitude panel_39) <= 0.25)%Q.
Proof.
  split; [vm_compute; reflexivity |]. split; [vm_compute; reflexivity |].
  split; [reflexivity |]. split; [vm_compute; reflexivity |].
  vm_compute. intros H. apply H. reflexivity.
Qed.

(** C7. Narrowing the year range, from (a, b) to (a', b') with a <= a'
    and b' <= b, never increases the number of rows that the filter
    returns, nor the event count shown for them. *)
Theorem filter_monotonic_in_year_range
    (df : frame) (w : controls) (a b a' b' : Z) :
  year_range w = (a, b) -> a <= a' -> b' <= b ->
  (List.length (rows (filter_logic df (with_year_range w (a', b'))))
   <= List.length (rows (filter_logic df w)))%nat /\
  (eventCount (aggregate (displayed df (with_year_range w (a', b'))) (metric w))
   <= eventCount (aggregate (displayed df w) (metric w)))%nat.
Proof.
  intros Hyr Ha Hb.
  assert (H : (List.length (rows (filter_logic df (with_year_range w (a', b'))))
               <= List.length (rows (filter_logic df w)))%nat).
  { rewrite !rows_filter_logic. apply filter_length_le.
    intros [l r]. cbn [snd]. now apply admits_narrower with (a := a) (b := b). }
  split; [exact H |].
  cbn [eventCount aggregate]. rewrite !displayed_count. lia.
Qed.

Lemma filter_monotonic_in_year_range_witness :
  year_range panel = (1900, 2020) /\ 1900 <= 1960 /\ 2000 <= 2020 /\
  (List.length (rows (filter_logic dataset (with_year_range panel (1960%Z, 2000%Z))))
   <= List.length (rows (filter_logic dataset panel)))%nat /\
  (eventCount (aggregate (displayed dataset (with_year_range panel (1960%Z, 2000%Z)))
                 (metric panel))
   <= eventCount (aggregate (displayed dataset panel) (metric panel)))%nat.
Proof.
  split; [reflexivity |]. split; [lia |]. split; [lia |].
  apply (filter_monotonic_in_year_range dataset panel 1900 2020 1960 2000);
    [reflexivity | lia | lia].
Defined.

(** C8. After the first run of the script and any sequence of
    interactions, the session holds the three keys and the list of
    selected classes that the filter receives is not empty; when a single
    class is selected, clicking its check box leaves the session as it
    was (the callback reverts the click). *)
Theorem severity_selection_never_empty (trace : list interaction) :
  exists st sel,
    session_after trace = Some st /\
    severity_filter st = Some sel /\
    sel <> [] /\
    (forall c, sel = [ key c ] -> interact st (Toggle c) = Some st).
Proof.
  unfold session_after.
  change (initialize []) with (session true true true).
  destruct (interact_all_session trace true true true eq_refl)
    as [a [b [c [E H]]]].
  rewrite E. exists (session a b c).
  destruct a, b, c; try discriminate H;
    (eexists; split; [reflexivity |]; split; [reflexivity |];
     split; [discriminate |]);
    intros [| |] Hc; try discriminate Hc; reflexivity.
Qed.

Lemma severity_selection_never_empty_witness :
  session_after [ Toggle MinorBox; Toggle SevereBox; Toggle ModerateBox ]
  = Some (session false true false) /\
  severity_filter (session false true false) = Some [ "Moderate" ] /\
  interact (session false true false) (Toggle ModerateBox)
  = Some (session false true false).
Proof.
  destruct (severity_selection_never_empty
              [ Toggle MinorBox; Toggle SevereBox; Toggle ModerateBox ])
    as [st [sel [H1 [H2 [_ H4]]]]].
  assert (Est : st = session false true false).
  { vm_compute in H1. injection H1 as <-. reflexivity. }
  subst st.
  assert (Esel : sel = [ "Moderate" ]).
  { vm_compute in H2. injection H2 as <-. reflexivity. }
  subst sel.
  split; [reflexivity |]. split; [reflexivity |].
  apply (H4 ModerateBox). reflexivity.
Defined.

(** What the aggregates are whenever the filter matches nothing. *)
Lemma empty_result_aggregate (df : frame) (w : controls) :
  rows (filter_logic df w) = [] ->
  In (metric w) metrics ->
  exists row,
    rows (placeholder df w) = [ (0%nat, row) ] /\
    aggregate (displayed df w) (metric w)
    = {| totalCasualties := 0; totalDeaths := 0; totalInjuries := 0;
         eventCount := 1; peakEvent := Some row |}.
Proof.
  intros He Hm. unfold displayed, empty. cbv zeta. rewrite He.
  unfold placeholder. cbv zeta. unfold metrics in Hm. simpl in Hm.
  destruct (has_tsunami df);
    (eexists; split; [reflexivity |]);
    repeat (destruct Hm as [<- | Hm]); try contradiction; reflexivity.
Qed.

(** C1. The filter is a total function, and on the sample dataset with
    target magnitude 3.0 it matches nothing; the aggregates of the
    placeholder that is substituted have all sums zero and the
    placeholder as peak event, and an event count of 1, not 0. *)
Theorem placeholder_counts_as_one_event :
  rows (filter_logic dataset panel_30) = [] /\
  exists row,
    rows (placeholder dataset panel_30) = [ (0%nat, row) ] /\
    aggregate (displayed dataset panel_30) (metric panel_30)
    = {| totalCasualties := 0; totalDeaths := 0; totalInjuries := 0;
         eventCount := 1; peakEvent := Some row |}.
Proof.
  split; [reflexivity |]. eexists. split; reflexivity.
Qed.

End DashboardSpec.

(* ================================================================== *)
(** * The normalizer, further: rows, order and labels of the output *)
(* ================================================================== *)
Module NormalizerOutputFacts.
Import Pandas Normalizer Schema PandasFacts NormalizerFacts Int64Facts.

Lemma filter_map_swap {A B : Type} (g : A -> B) (f : B -> bool) (l : list A) :
  List.filter f (map g l) = map g (List.filter (fun x => f (g x)) l).
Proof.
  induction l as [| x t IH]; simpl; [reflexivity |].
  destruct (f (g x)); simpl; now rewrite IH.
Qed.

Lemma labels_filter_NoDup (f : nat * row -> bool) (l : list (nat * row)) :
  NoDup (map fst l) -> NoDup (map fst (List.filter f l)).
Proof.
  induction l as [| x t IH]; simpl; [constructor |].
  intros H. inversion H as [| ? ? Hn Hd]; subst.
  destruct (f x); simpl; [| now apply IH].
  constructor; [| now apply IH].
  intros Hin. apply Hn. apply in_map_iff in Hin.
  destruct Hin as [y [E Hy]]. apply filter_In in Hy.
  apply in_map_iff. exists y. tauto.
Qed.


Section WithLib.
Context {L : Lib}.

Lemma clean_row_date (t : bool) (r : row) :
  get (clean_row t r) "date" = assembled_date r.
Proof.
  unfold assembled_date, part_or_1. open_clean_row.
  destruct t; read_column; unfold date_of; read_column;
    unfold month_of, day_of; read_column; unfold numeric_of; read_column;
    reflexivity.
Qed.


Lemma clean_row_event_id (t : bool) (r : row) :
  get (clean_row t r) "event_id" = get r "event_id".
Proof. open_clean_row. destruct t; read_column; reflexivity. Qed.


Lemma valid_keeps (t : bool) (r : row) : valid (clean_row t r) = keeps r.
Proof.
  unfold valid, keeps, dropna_subset, gate_numeric. cbn [forallb].
  rewrite clean_row_date.
  rewrite !(clean_row_gate t r) by (unfold gate_numeric; simpl; tauto).
  destruct (notna (assembled_date r)), (notna (to_numeric (get r "year"))),
    (notna (to_numeric (get r "latitude"))),
    (notna (to_numeric (get r "longitude"))),
    (notna (to_numeric (get r "magnitude"))),
    (notna (to_numeric (get r "depth_km"))); reflexivity.
Qed.

(** The rows of the cleaned frame, as a list. *)
Lemma clean_frame_rows (df out : frame) :
  clean_frame df = inr out ->
  let cn := canonical_names df in
  let tsu := Py.mem "tsunami_flag" (columns cn) in
  rows out
  = fold_right (insert_by "date") []
      (map (on_row (fun r0 => project (columns out) (clean_row tsu r0)))
         (List.filter (fun lr => keeps (snd lr)) (rows cn))).
Proof.
  intros H cn tsu. unfold clean_frame in H. cbv zeta in H. fold cn in H.
  destruct (missing cn) eqn:Hmiss; [| discriminate].
  destruct (derive_columns (coerce_required cn)) as [e | df1] eqn:Hd;
    [discriminate |].
  cbn [bind] in H. injection H as <-.
  apply derive_columns_inr in Hd. destruct Hd as [_ [Hrows _]].
  rewrite columns_coerce_required in Hrows.
  change (Py.mem "tsunami_flag" required) with false in Hrows.
  rewrite orb_false_r in Hrows. fold tsu in Hrows.
  rewrite rows_coerce_required, map_map in Hrows.
  unfold select_and_sort at 1. cbv zeta.
  cbn [rows select dropna sort_values]. f_equal.
  rewrite Hrows, filter_map_swap, map_map.
  rewrite (filter_ext _ (fun lr => keeps (snd lr))).
  - apply map_ext. intros [l r0]. reflexivity.
  - intros [l r0]. cbn [snd on_row]. apply (valid_keeps tsu r0).
Qed.


(** The three ways [clean_frame] ends. *)
Lemma missing_nil (df : frame) :
  missing df = [] -> forall c, In c required -> In c (columns df).
Proof.
  intros Hm c Hc. apply mem_In.
  destruct (Py.mem c (columns df)) eqn:E; [reflexivity |].
  assert (Hin : In c (missing df)).
  { apply filter_In. split; [exact Hc | now rewrite E]. }
  rewrite Hm in Hin. contradiction.
Qed.

Lemma missing_raises (df : frame) (c0 : string) (m0 : list string) :
  missing (canonical_names df) = c0 :: m0 ->
  clean_frame df
  = inl (ValueError (missing (canonical_names df))
           (columns (canonical_names df))).
Proof. intros H. unfold clean_frame. cbv zeta. now rewrite H. Qed.

Lemma location_name_missing_raises (df : frame) :
  missing (canonical_names df) = [] ->
  Py.mem "location_name" (columns (canonical_names df)) = false ->
  clean_frame df
  = inl (AttributeError "'str' object has no attribute 'astype'").
Proof.
  intros Hm Hn. unfold clean_frame. cbv zeta. rewrite Hm.
  unfold derive_columns, df_get. cbv zeta.
  rewrite !columns_assign, columns_coerce_required, Hn. reflexivity.
Qed.

Lemma clean_frame_accepts (df : frame) :
  missing (canonical_names df) = [] ->
  Py.mem "location_name" (columns (canonical_names df)) = true ->
  exists out, clean_frame df = inr out.
Proof.
  intros Hm Hn. unfold clean_frame. cbv zeta. rewrite Hm.
  unfold derive_columns, df_get. cbv zeta.
  rewrite !columns_assign, columns_coerce_required, Hn.
  eexists. reflexivity.
Qed.

(** A row of the cleaned frame and the raw row it comes from. *)
Lemma output_row_source (df out : frame) (l : nat) (r : row) :
  clean_frame df = inr out -> In (l, r) (rows out) ->
  exists r0,
    In (l, r0) (rows (canonical_names df)) /\ keeps r0 = true /\
    forall c, In c (columns out) ->
      get r c
      = get (clean_row (Py.mem "tsunami_flag" (columns (canonical_names df))) r0) c.
Proof.
  intros H Hin. rewrite (clean_frame_rows _ _ H) in Hin. cbv zeta in Hin.
  apply (Permutation_in _ (sort_perm "date" _)) in Hin.
  apply in_map_iff in Hin. destruct Hin as [[l0 r0] [E Hin]].
  unfold on_row in E. cbn [fst snd] in E. injection E as <- <-.
  apply filter_In in Hin. destruct Hin as [Hin K]. cbn [snd] in K.
  exists r0. repeat split; try assumption.
  intros c Hc. now apply get_project.
Qed.

Lemma In_columns_out_iff (df out : frame) (c : string) :
  clean_frame df = inr out ->
  (In c (columns out) <->
   In c final_cols /\
   Py.mem c (columns (canonical_names df)) || Py.mem c required
   || Py.mem c derived = true).
Proof.
  intros H. apply clean_frame_inr in H. cbv zeta in H.
  destruct H as [_ [_ [Hc _]]]. rewrite Hc. apply filter_In.
Qed.

Lemma In_core_columns_out (df out : frame) (c : string) :
  clean_frame df = inr out -> In c core_cols -> In c (columns out).
Proof.
  intros H Hc. apply (In_columns_out df out c H).
  - unfold core_cols in Hc. unfold final_cols. simpl in *. tauto.
  - unfold core_cols in Hc. simpl in Hc.
    repeat (destruct Hc as [<- | Hc]); try contradiction; reflexivity.
Qed.

Lemma to_datetime_cases (y m d : cell) :
  to_datetime y m d = NA \/ exists t, to_datetime y m d = Date t.
Proof.
  unfold to_datetime. destruct (as_Q y); [| now left].
  destruct m; try now left. destruct d; try now left.
  destruct (ymd_to_datetime _ _ _); eauto.
Qed.

Lemma keeps_date (r0 : row) :
  keeps r0 = true -> exists t, assembled_date r0 = Date t.
Proof.
  unfold keeps. rewrite andb_true_iff. intros [_ H].
  unfold assembled_date in *.
  destruct (to_datetime_cases (to_numeric (get r0 "year"))
              (part_or_1 "month" r0) (part_or_1 "day" r0)) as [E | [t E]].
  - rewrite E in H. discriminate.
  - eauto.
Qed.

End WithLib.

(** The keys of an insertion sort. *)
Lemma insert_key_perm (k : Z) (ks : list Z) :
  Permutation (insert_key k ks) (k :: ks).
Proof.
  induction ks as [| k' t IH]; simpl; [apply Permutation_refl |].
  destruct (k <=? k'); [apply Permutation_refl |].
  eapply perm_trans; [apply perm_skip, IH | apply perm_swap].
Qed.

Lemma insert_key_HdRel (a k : Z) (ks : list Z) :
  a <= k -> HdRel Z.le a ks -> HdRel Z.le a (insert_key k ks).
Proof.
  intros Hak H. destruct ks as [| k' t]; simpl.
  - now constructor.
  - destruct (k <=? k'); constructor; [assumption |].
    now inversion H.
Qed.

Lemma insert_key_sorted (k : Z) (ks : list Z) :
  Sorted Z.le ks -> Sorted Z.le (insert_key k ks).
Proof.
  induction 1 as [| k' t Hs IH Hhd]; simpl.
  - repeat constructor.
  - destruct (Z.leb_spec k k').
    + constructor; [now constructor | now constructor].
    + constructor; [exact IH |]. apply insert_key_HdRel; [lia | exact Hhd].
Qed.

Lemma date_key_Date (r : row) (k : Z) :
  date_key r = Some k -> get r "date" = Date k.
Proof.
  unfold date_key. destruct (get r "date"); try discriminate.
  now intros [= ->].
Qed.

Lemma dates_insert_by (x : nat * row) (k : Z) (l : list (nat * row)) :
  date_key (snd x) = Some k ->
  forall ks,
    map (fun lr => date_key (snd lr)) l = map Some ks ->
    map (fun lr => date_key (snd lr)) (insert_by "date" x l)
    = map Some (insert_key k ks).
Proof.
  intros Hx. induction l as [| y t IH]; intros ks Hks.
  - destruct ks; [| discriminate]. simpl. now rewrite Hx.
  - destruct ks as [| k' ks']; [discriminate |].
    cbn [map] in Hks. injection Hks as Hy Ht. cbn [insert_by].
    rewrite (date_key_Date _ _ Hx), (date_key_Date _ _ Hy).
    cbn [cell_leb insert_key]. destruct (k <=? k'); cbn [map].
    + now rewrite Hx, Hy, Ht.
    + rewrite Hy. f_equal. now apply IH.
Qed.

Lemma sort_dates (l : list (nat * row)) :
  (forall x, In x l -> exists k, date_key (snd x) = Some k) ->
  exists ks,
    map (fun lr => date_key (snd lr)) (fold_right (insert_by "date") [] l)
    = map Some ks /\ Sorted Z.le ks.
Proof.
  induction l as [| x t IH]; intros H.
  - exists []. split; [reflexivity | constructor].
  - destruct IH as [ks [E S]]; [intros y Hy; apply H; now right |].
    destruct (H x (or_introl eq_refl)) as [k Hk].
    exists (insert_key k ks). split.
    + cbn [fold_right]. now apply dates_insert_by.
    + now apply insert_key_sorted.
Qed.










(** The renaming never makes, and never unmakes, the label
    [tsunami_flag]. *)
Lemma lookup_In {V : Type} (k : string) (d : list (string * V)) (v : V) :
  lookup k d = Some v -> In (k, v) d.
Proof.
  induction d as [| [k' v'] t IH]; simpl; [discriminate |].
  destruct (String.eqb k' k) eqn:E.
  - apply String.eqb_eq in E. intros [= ->]. left. now subst.
  - intros H. right. now apply IH.
Qed.

Lemma rename_map_apart (k v : string) :
  In (k, v) rename_map -> k <> "tsunami_flag" /\ v <> "tsunami_flag".
Proof.
  unfold rename_map. simpl. intros H.
  repeat (destruct H as [[= <- <-] | H]; [split; discriminate |]).
  contradiction.
Qed.

Lemma renaming_tsunami (fm : list (string * string)) (c : string) :
  (forall kv, In kv fm -> In kv rename_map) ->
  (renaming fm c = "tsunami_flag" <-> c = "tsunami_flag").
Proof.
  intros Hsub. unfold renaming. destruct (lookup c fm) as [v |] eqn:E.
  - apply lookup_In, Hsub, rename_map_apart in E. destruct E as [Hk Hv].
    split; intros H; contradiction.
  - tauto.
Qed.

Lemma filter_nil_existsb {A : Type} (f : A -> bool) (l : list A) :
  List.filter f l = [] -> existsb f l = false.
Proof.
  induction l as [| x t IH]; simpl; [reflexivity |].
  destruct (f x); [discriminate | exact IH].
Qed.

End NormalizerOutputFacts.

(* ================================================================== *)
(** * The normalizer: outcomes, schema and contents of the cleaned file *)
(* ================================================================== *)
Module NormalizerOutput.
Import Pandas Normalizer Schema PandasFacts NormalizerFacts Int64Facts.
Import NormalizerOutputFacts Samples.

Section WithLib.
Context {L : Lib}.

(** X1. The checks of the normalizer.  It raises [FileNotFoundError]
    when the raw file is absent.  On the frame that [read_csv] returned
    it raises the [ValueError] of line 190 exactly when a required column
    is missing after the renaming, naming the missing columns in the order
    of [required] and listing the columns at hand.  Whenever it returns,
    every required column and [location_name] were there, the raw file was
    there, and no file but the target has changed. *)
Theorem normalizer_checks (df : frame) :
  (forall m a,
     clean_frame df = inl (ValueError m a) <->
     m <> [] /\
     m = List.filter
           (fun c => negb (Py.mem c (columns (canonical_names df)))) required /\
     a = columns (canonical_names df)) /\
  (forall c, In c (missing (canonical_names df)) <->
             In c required /\ ~ In c (columns (canonical_names df))) /\
  (forall out, clean_frame df = inr out ->
     (forall c, In c required -> In c (columns (canonical_names df))) /\
     In "location_name" (columns (canonical_names df))) /\
  (forall fs raw clean,
     fs raw = None ->
     auto_clean_raw_to_csv fs raw clean = inl (FileNotFoundError raw)) /\
  (forall fs raw clean fs',
     auto_clean_raw_to_csv fs raw clean = inr fs' ->
     (exists content, fs raw = Some content) /\
     forall p, p <> clean -> fs' p = fs p).
Proof.
  split; [| split; [| split; [| split]]].
  - intros m a. fold (missing (canonical_names df)). split.
    + intros H.
      destruct (missing (canonical_names df)) as [| c0 m0] eqn:Hm.
      * destruct (Py.mem "location_name" (columns (canonical_names df))) eqn:Hn.
        -- destruct (clean_frame_accepts df Hm Hn) as [out Hout]. congruence.
        -- rewrite (location_name_missing_raises df Hm Hn) in H. discriminate.
      * rewrite (missing_raises df c0 m0 Hm), Hm in H.
        injection H as <- <-. repeat split. discriminate.
    + intros [Hne [-> ->]].
      destruct (missing (canonical_names df)) as [| c0 m0] eqn:Hm;
        [contradiction |].
      now rewrite (missing_raises df c0 m0 Hm), Hm.
  - intros c. unfold missing. rewrite filter_In.
    rewrite negb_true_iff, <- not_true_iff_false, mem_In. tauto.
  - intros out H. pose proof (clean_frame_inr _ _ H) as Hf. cbv zeta in Hf.
    destruct Hf as [Hm [Hn _]]. split.
    + now apply missing_nil.
    + now apply mem_In.
  - intros fs raw clean H. unfold auto_clean_raw_to_csv. now rewrite H.
  - intros fs raw clean fs' H. unfold auto_clean_raw_to_csv in H.
    destruct (fs raw) as [content |]; [| discriminate].
    split; [now exists content |].
    destruct (clean_frame (DataFrame (read_csv content))) as [e | out];
      cbn [bind] in H; [discriminate |].
    injection H as <-. intros p Hp. unfold write_file.
    apply String.eqb_neq in Hp. now rewrite Hp.
Qed.

(** X2. The rows of the cleaned frame are in ascending order of date:
    every row has an instant in its [date] column, and these instants,
    read down the frame, never decrease. *)
Theorem output_sorted_by_date (df out : frame) :
  clean_frame df = inr out ->
  exists ks,
    map (fun lr => date_key (snd lr)) (rows out) = map Some ks /\
    Sorted Z.le ks.
Proof.
  intros H. rewrite (clean_frame_rows _ _ H). cbv zeta.
  apply sort_dates. intros x Hx. apply in_map_iff in Hx.
  destruct Hx as [[l r0] [<- Hin]]. apply filter_In in Hin.
  destruct Hin as [_ K]. cbn [snd] in K.
  destruct (keeps_date r0 K) as [t Ht]. exists t.
  unfold on_row, date_key. cbn [snd]. unfold project.
  rewrite get_project, clean_row_date, Ht; [reflexivity |].
  apply (In_core_columns_out df out "date" H). unfold core_cols. simpl. tauto.
Qed.

(** X3. The header of the cleaned file, for a feed whose labels are
    distinct after the renaming: the ten core columns in the order of
    [final_cols], preceded by [event_id] exactly when the renamed feed has
    it and followed by [tsunami_flag] exactly when the renamed feed has it;
    [month] and [day] are never written, and no label is written twice. *)
Theorem output_columns (df out : frame) :
  NoDup (columns (canonical_names df)) ->
  clean_frame df = inr out ->
  NoDup (columns out) /\
  columns out
  = ((if Py.mem "event_id" (columns (canonical_names df))
      then [ "event_id" ] else [])
     ++ core_cols
     ++ (if Py.mem "tsunami_flag" (columns (canonical_names df))
         then [ "tsunami_flag" ] else []))%list.
Proof.
  intros Hnd H. pose proof (clean_frame_inr _ _ H) as Hf. cbv zeta in Hf.
  destruct Hf as [Hm [Hn [Hc _]]]. split.
  { rewrite Hc. apply NoDup_filter. unfold final_cols.
    repeat constructor; simpl; intuition discriminate. }
  rewrite Hc. unfold final_cols, core_cols.
  cbn [List.filter].
  repeat match goal with
         | |- context [Py.mem ?c required] =>
             let v := eval vm_compute in (Py.mem c required) in
             change (Py.mem c required) with v
         | |- context [Py.mem ?c derived] =>
             let v := eval vm_compute in (Py.mem c derived) in
             change (Py.mem c derived) with v
         end.
  rewrite ?orb_true_r, ?orb_false_r.
  destruct (Py.mem "event_id" (columns (canonical_names df))),
    (Py.mem "tsunami_flag" (columns (canonical_names df))); reflexivity.
Qed.

(** X4. The renamed feed has a column [tsunami_flag] exactly when one of
    the raw labels, stripped, contains "tsunami" in any letter case. *)
Theorem tsunami_column_detected (df : frame) :
  Py.mem "tsunami_flag" (columns (canonical_names df))
  = existsb tsunami_like (map Py.strip (columns df)).
Proof.
  unfold canonical_names. cbv zeta. cbn [columns rename].
  set (cs := map Py.strip (columns df)).
  change (fun c : string => Py.contains "tsunami" (Py.lower c)) with tsunami_like.
  destruct (List.filter tsunami_like cs) as [| c0 rest] eqn:Ef.
  - rewrite (filter_nil_existsb _ _ Ef).
    destruct (Py.mem "tsunami_flag" _) eqn:E; [| reflexivity].
    exfalso. apply mem_In in E. cbn [columns rename] in E.
    apply in_map_iff in E. destruct E as [c [Ec Hc]].
    apply renaming_tsunami in Ec;
      [| intros kv Hkv; apply filter_In in Hkv; tauto].
    subst c. assert (Hin : In "tsunami_flag" (List.filter tsunami_like cs)).
    { apply filter_In. split; [exact Hc | reflexivity]. }
    rewrite Ef in Hin. contradiction.
  - assert (Hc0 : In c0 (List.filter tsunami_like cs)) by (rewrite Ef; now left).
    apply filter_In in Hc0. destruct Hc0 as [Hin Hlike].
    transitivity true.
    + apply mem_In. cbn [columns rename]. apply in_map_iff.
      exists "tsunami_flag". split.
      * apply renaming_tsunami; [| reflexivity].
        intros kv Hkv. apply filter_In in Hkv. tauto.
      * apply in_map_iff. exists c0. split; [| exact Hin].
        unfold renaming. cbn [lookup]. now rewrite String.eqb_refl.
    + symmetry. apply existsb_exists. eauto.
Qed.



(** X7. Where the values of a cleaned row come from: year, latitude,
    longitude, magnitude and depth are the raw values coerced to numbers,
    none missing; the date is assembled from the year and from month and
    day, each replaced by 1 when missing and cut to an integer; the event
    identifier, when the feed has one, is the raw value untouched. *)
Theorem output_fields (df out : frame) (l : nat) (r : row) :
  clean_frame df = inr out ->
  In (l, r) (rows out) ->
  exists r0,
    In (l, r0) (rows (canonical_names df)) /\
    (forall c, In c gate_numeric ->
       get r c = to_numeric (get r0 c) /\ get r c <> NA) /\
    (exists t, get r "date" = Date t /\ assembled_date r0 = Date t) /\
    (to_numeric (get r0 "month") = NA -> part_or_1 "month" r0 = Int 1) /\
    (to_numeric (get r0 "day") = NA -> part_or_1 "day" r0 = Int 1) /\
    (Py.mem "event_id" (columns (canonical_names df)) = true ->
     get r "event_id" = get r0 "event_id").
Proof.
  intros H Hin. destruct (output_row_source _ _ _ _ H Hin) as [r0 [Hin0 [K Hget]]].
  exists r0. split; [exact Hin0 |]. split; [| split; [| split; [| split]]].
  - intros c Hc.
    assert (E : get r c = to_numeric (get r0 c)).
    { rewrite Hget; [now apply clean_row_gate |].
      apply (In_core_columns_out df out _ H).
      unfold gate_numeric in Hc. unfold core_cols. simpl in *. tauto. }
    split; [exact E |]. rewrite E.
    unfold keeps in K. rewrite andb_true_iff, forallb_forall in K.
    destruct K as [K _]. specialize (K c Hc). intros Hna. rewrite Hna in K.
    discriminate.
  - destruct (keeps_date r0 K) as [t Ht]. exists t. split; [| exact Ht].
    rewrite Hget, clean_row_date; [exact Ht |].
    apply (In_core_columns_out df out _ H). unfold core_cols. simpl. tauto.
  - intros E. unfold part_or_1. now rewrite E.
  - intros E. unfold part_or_1. now rewrite E.
  - intros He. rewrite Hget; [apply clean_row_event_id |].
    apply (In_columns_out_iff df out "event_id" H).
    split; [unfold final_cols; simpl; tauto | now rewrite He].
Qed.

(** X8. The gate of line 219 keeps exactly the raw rows whose year,
    latitude, longitude, magnitude and depth are numbers and whose date
    assembles: each of them has one row in the cleaned frame, under its
    own label, and the frame has no other row. *)
Theorem valid_rows_kept (t : list string * list (list cell)) (out : frame) :
  clean_frame (DataFrame t) = inr out ->
  let cn := canonical_names (DataFrame t) in
  NoDup (map fst (rows out)) /\
  List.length (rows out)
  = List.length (List.filter (fun lr => keeps (snd lr)) (rows cn)) /\
  forall l r0, In (l, r0) (rows cn) ->
    (In l (map fst (rows out)) <-> keeps r0 = true).
Proof.
  intros H cn.
  assert (Hnd : NoDup (map fst (rows cn))).
  { unfold cn. rewrite labels_canonical_names. apply labels_DataFrame. }
  assert (Hp : Permutation (map fst (rows out))
                 (map fst (List.filter (fun lr => keeps (snd lr)) (rows cn)))).
  { rewrite (clean_frame_rows _ _ H). cbv zeta. fold cn.
    eapply perm_trans; [apply Permutation_map, sort_perm |].
    rewrite labels_on_row. apply Permutation_refl. }
  split; [| split].
  - eapply Permutation_NoDup; [apply Permutation_sym, Hp |].
    now apply labels_filter_NoDup.
  - rewrite <- (length_map fst (rows out)), (Permutation_length Hp).
    apply length_map.
  - intros l r0 Hin. split.
    + intros Hl. apply (Permutation_in _ Hp) in Hl.
      apply in_map_iff in Hl. destruct Hl as [[l' r1] [E Hf]].
      cbn [fst] in E. subst l'. apply filter_In in Hf.
      destruct Hf as [Hin1 K]. cbn [snd] in K.
      now rewrite (label_unique _ _ _ _ Hnd Hin Hin1).
    + intros K. apply (Permutation_in _ (Permutation_sym Hp)).
      apply in_map_iff. exists (l, r0). split; [reflexivity |].
      apply filter_In. auto.
Qed.

End WithLib.

(** *** The theorems at the sample feed *)

Import Examples.

Lemma sample_cleaned :
  clean_frame (L := PlainCsv.lib) sample_frame = inr sample_out.
Proof. vm_compute. reflexivity. Qed.

Lemma san_francisco_cleaned : In (0%nat, san_francisco) (rows sample_out).
Proof. vm_compute. right. left. reflexivity. Qed.

Lemma sample_has_tsunami :
  Py.mem "tsunami_flag" (columns (canonical_names sample_frame)) = true.
Proof. vm_compute. reflexivity. Qed.

Lemma sample_has_event_id :
  Py.mem "event_id" (columns (canonical_names sample_frame)) = true.
Proof. vm_compute. reflexivity. Qed.

Lemma output_sorted_by_date_witness :
  clean_frame (L := PlainCsv.lib) sample_frame = inr sample_out /\
  exists ks,
    map (fun lr => date_key (snd lr)) (rows sample_out) = map Some ks /\
    Sorted Z.le ks.
Proof.
  split; [exact sample_cleaned |].
  exact (output_sorted_by_date (L := PlainCsv.lib) sample_frame sample_out
           sample_cleaned).
Defined.

Lemma sample_labels_distinct : NoDup (columns (canonical_names sample_frame)).
Proof.
  vm_compute. repeat constructor; simpl; intuition discriminate.
Qed.

Lemma output_columns_witness :
  NoDup (columns (canonical_names sample_frame)) /\
  clean_frame (L := PlainCsv.lib) sample_frame = inr sample_out /\
  NoDup (columns sample_out) /\
  columns sample_out = ("event_id" :: core_cols ++ [ "tsunami_flag" ])%list.
Proof.
  split; [exact sample_labels_distinct |]. split; [exact sample_cleaned |].
  pose proof (output_columns (L := PlainCsv.lib) sample_frame sample_out
                sample_labels_distinct sample_cleaned) as H.
  rewrite sample_has_tsunami, sample_has_event_id in H. exact H.
Defined.



Lemma output_fields_witness :
  clean_frame (L := PlainCsv.lib) sample_frame = inr sample_out /\
  In (0%nat, san_francisco) (rows sample_out) /\
  exists r0,
    In (0%nat, r0) (rows (canonical_names sample_frame)) /\
    (forall c, In c gate_numeric ->
       get san_francisco c = to_numeric (L := PlainCsv.lib) (get r0 c) /\
       get san_francisco c <> NA) /\
    (exists t, get san_francisco "date" = Date t /\
               assembled_date (L := PlainCsv.lib) r0 = Date t) /\
    (to_numeric (L := PlainCsv.lib) (get r0 "month") = NA ->
     part_or_1 (L := PlainCsv.lib) "month" r0 = Int 1) /\
    (to_numeric (L := PlainCsv.lib) (get r0 "day") = NA ->
     part_or_1 (L := PlainCsv.lib) "day" r0 = Int 1) /\
    (Py.mem "event_id" (columns (canonical_names sample_frame)) = true ->
     get san_francisco "event_id" = get r0 "event_id").
Proof.
  split; [exact sample_cleaned |]. split; [exact san_francisco_cleaned |].
  exact (output_fields (L := PlainCsv.lib) sample_frame sample_out
           0%nat san_francisco sample_cleaned san_francisco_cleaned).
Defined.

Lemma valid_rows_kept_witness :
  clean_frame (L := PlainCsv.lib) sample_frame = inr sample_out /\
  NoDup (map fst (rows sample_out)) /\
  List.length (rows sample_out)
  = List.length (List.filter (fun lr => keeps (L := PlainCsv.lib) (snd lr))
                   (rows (canonical_names sample_frame))) /\
  forall l r0, In (l, r0) (rows (canonical_names sample_frame)) ->
    (In l (map fst (rows sample_out)) <-> keeps (L := PlainCsv.lib) r0 = true).
Proof.
  split; [exact sample_cleaned |].
  exact (valid_rows_kept (L := PlainCsv.lib) (PlainCsv.reader raw_events)
           sample_out sample_cleaned).
Defined.

End NormalizerOutput.

(* ================================================================== *)
(** * The header of the raw feed: which feeds pass the column check *)
(* ================================================================== *)
Module HeaderFacts.
Import Pandas Normalizer Schema PandasFacts NormalizerFacts NormalizerOutputFacts.
Local Open Scope list_scope.

Lemma rename_map_entry (k c : string) :
  In (k, c) rename_map ->
  tsunami_like k = false /\ tsunami_like c = false /\
  lookup k rename_map = Some c /\ lookup c rename_map = None.
Proof.
  unfold rename_map. simpl. intros H.
  repeat (destruct H as [[= <- <-] | H]; [repeat split |]).
  contradiction.
Qed.

Lemma lookup_filter_key {V : Type} (q : string -> bool) (k : string)
    (d : list (string * V)) :
  lookup k (List.filter (fun kv => q (fst kv)) d)
  = if q k then lookup k d else None.
Proof.
  induction d as [| [k' v] t IH]; cbn [List.filter lookup fst].
  - now destruct (q k).
  - destruct (q k') eqn:Eq; cbn [lookup].
    + destruct (String.eqb k' k) eqn:E.
      * apply String.eqb_eq in E. subst k'. now rewrite Eq.
      * exact IH.
    + rewrite IH. destruct (String.eqb k' k) eqn:E; [| reflexivity].
      apply String.eqb_eq in E. subst k'. now rewrite Eq.
Qed.

(** A label that is not tsunami-like survives the first renaming. *)
Lemma survives_tsunami_renaming (df : frame) (c : string) :
  tsunami_like c = false ->
  In c (map Py.strip (columns df)) ->
  let df1 := rename df Py.strip in
  In c (columns
          match List.filter tsunami_like (columns df1) with
          | c0 :: _ => rename df1 (renaming [(c0, "tsunami_flag")])
          | [] => df1
          end).
Proof.
  intros Hc Hin. cbv zeta.
  destruct (List.filter tsunami_like (columns (rename df Py.strip)))
    as [| c0 rest] eqn:Ef; [exact Hin |].
  cbn [columns rename]. apply in_map_iff. exists c. split; [| exact Hin].
  unfold renaming. cbn [lookup].
  destruct (String.eqb c0 c) eqn:E; [| reflexivity].
  apply String.eqb_eq in E. subst c0.
  assert (Hx : In c (List.filter tsunami_like (columns (rename df Py.strip)))).
  { rewrite Ef. now left. }
  apply filter_In in Hx. destruct Hx as [_ Hx]. congruence.
Qed.

Lemma canonical_column (df : frame) (k c : string) :
  In (k, c) rename_map ->
  In k (map Py.strip (columns df)) \/ In c (map Py.strip (columns df)) ->
  In c (columns (canonical_names df)).
Proof.
  intros He Hin. destruct (rename_map_entry k c He) as [Hk [Hc [Lk Lc]]].
  unfold canonical_names. cbv zeta.
  change (fun c : string => Py.contains "tsunami" (Py.lower c)) with tsunami_like.
  set (df2 := match List.filter tsunami_like (columns (rename df Py.strip)) with
              | c0 :: _ => rename (rename df Py.strip) (renaming [(c0, "tsunami_flag")])
              | [] => rename df Py.strip
              end).
  cbn [columns rename]. apply in_map_iff. destruct Hin as [Hin | Hin].
  - exists k. split.
    + unfold renaming.
      rewrite (lookup_filter_key (fun x => Py.mem x (columns df2)) k rename_map).
      assert (Hm : Py.mem k (columns df2) = true).
      { apply mem_In. now apply (survives_tsunami_renaming df k Hk). }
      now rewrite Hm, Lk.
    + now apply (survives_tsunami_renaming df k Hk).
  - exists c. split.
    + unfold renaming.
      rewrite (lookup_filter_key (fun x => Py.mem x (columns df2)) c rename_map).
      rewrite Lc. now destruct (Py.mem c (columns df2)).
    + now apply (survives_tsunami_renaming df c Hc).
Qed.

(** The premise on the header of a feed, as a test. *)
Lemma header_test (df : frame) :
  forallb (fun c =>
             existsb (fun kc =>
                        String.eqb (snd kc) c &&
                        (Py.mem (fst kc) (map Py.strip (columns df)) ||
                         Py.mem c (map Py.strip (columns df))))
                     rename_map)
          required = true ->
  forall c, In c required ->
    exists k, In (k, c) rename_map /\
              (In k (map Py.strip (columns df)) \/
               In c (map Py.strip (columns df))).
Proof.
  intros H c Hc. rewrite forallb_forall in H. specialize (H c Hc).
  apply existsb_exists in H. destruct H as [[k c'] [Hin H]].
  cbn [fst snd] in H. apply andb_true_iff in H. destruct H as [E H].
  apply String.eqb_eq in E. subst c'. exists k. split; [exact Hin |].
  apply orb_true_iff in H. now rewrite <- !mem_In.
Qed.

End HeaderFacts.

Module HeaderSpec.
Import Pandas Normalizer Schema PandasFacts NormalizerFacts NormalizerOutputFacts HeaderFacts.
Local Open Scope list_scope.

Section WithLib.
Context {L : Lib}.

(** X9. The required-column check passes on every feed whose header,
    white space around the labels aside, has each required column under
    its NOAA name or already under its canonical name: no required column
    is missing after the renaming and the [ValueError] of line 190 is not
    raised; a column that carries "tsunami" in its name does not get in
    the way. *)
Theorem noaa_header_accepted (df : frame) :
  (forall c, In c required ->
     exists k, In (k, c) rename_map /\
               (In k (map Py.strip (columns df)) \/
                In c (map Py.strip (columns df)))) ->
  missing (canonical_names df) = [] /\
  forall m a, clean_frame df <> inl (ValueError m a).
Proof.
  intros H.
  assert (Hm : missing (canonical_names df) = []).
  { unfold missing.
    destruct (List.filter _ required) as [| c0 m0] eqn:E; [reflexivity |].
    assert (Hin : In c0 (List.filter
                           (fun c => negb (Py.mem c (columns (canonical_names df))))
                           required)) by (rewrite E; now left).
    apply filter_In in Hin. destruct Hin as [Hr Hn].
    destruct (H c0 Hr) as [k [He Hk]].
    apply (canonical_column df k c0 He) in Hk. apply mem_In in Hk.
    rewrite Hk in Hn. discriminate. }
  split; [exact Hm |].
  intros m a He.
  destruct (Py.mem "location_name" (columns (canonical_names df))) eqn:Hn.
  - destruct (clean_frame_accepts df Hm Hn) as [out Hout]. congruence.
  - rewrite (location_name_missing_raises df Hm Hn) in He. discriminate.
Qed.

End WithLib.

(** *** The theorem at the sample feed *)

Import Samples Examples.

Lemma sample_header :
  forall c, In c required ->
    exists k, In (k, c) rename_map /\
              (In k (map Py.strip (columns sample_frame)) \/
               In c (map Py.strip (columns sample_frame))).
Proof. apply header_test. vm_compute. reflexivity. Qed.

Lemma noaa_header_accepted_witness :
  (forall c, In c required ->
     exists k, In (k, c) rename_map /\
               (In k (map Py.strip (columns sample_frame)) \/
                In c (map Py.strip (columns sample_frame)))) /\
  missing (canonical_names sample_frame) = [] /\
  forall m a, clean_frame (L := PlainCsv.lib) sample_frame <> inl (ValueError m a).
Proof.
  split; [exact sample_header |].
  exact (noaa_header_accepted (L := PlainCsv.lib) sample_frame sample_header).
Defined.

End HeaderSpec.

(* ================================================================== *)
(** * [load_data]: what it accepts and what it returns *)
(* ================================================================== *)
Module LoaderFacts.
Import Pandas Loader PandasFacts NormalizerFacts NormalizerOutputFacts.
Local Open Scope list_scope.

Section WithLib.
Context {L : Lib} {D : DateLib}.

Lemma columns_assign_present (df : frame) (c : string) (e : row -> cell) :
  Py.mem c (columns df) = true -> columns (assign df c e) = columns df.
Proof. intros H. cbn [columns assign]. now rewrite H. Qed.

Lemma coerce_present_spec (cs : list string) :
  forall df,
    let g := fold_left
               (fun df c =>
                  if Py.mem c (columns df)
                  then assign df c (fun r => to_numeric (get r c))
                  else df) cs df in
    columns g = columns df /\
    rows g
    = map (on_row (fun r =>
             fold_left
               (fun r c => if Py.mem c (columns df)
                           then set r c (to_numeric (get r c)) else r)
               cs r)) (rows df).
Proof.
  induction cs as [| c cs IH]; intros df; cbv zeta; cbn [fold_left].
  - split; [reflexivity |]. symmetry. apply on_row_id.
  - destruct (Py.mem c (columns df)) eqn:E.
    + destruct (IH (assign df c (fun r => to_numeric (get r c)))) as [Hc Hr].
      cbv zeta in Hc, Hr.
      rewrite (columns_assign_present df c _ E) in Hc, Hr.
      split; [exact Hc |]. rewrite Hr. cbn [rows assign]. rewrite map_map.
      apply map_ext. intros [l r]. reflexivity.
    + destruct (IH df) as [Hc Hr]. cbv zeta in Hc, Hr.
      split; [exact Hc |]. rewrite Hr. apply map_ext. intros [l r]. reflexivity.
Qed.

Lemma get_coerce (b : string -> bool) (cs : list string) :
  NoDup cs ->
  forall r k,
    get (fold_left
           (fun r c => if b c then set r c (to_numeric (get r c)) else r) cs r) k
    = if Py.mem k cs && b k then to_numeric (get r k) else get r k.
Proof.
  induction 1 as [| c cs Hn Hnd IH]; intros r k; cbn [fold_left].
  - reflexivity.
  - rewrite IH. unfold Py.mem at 2. cbn [existsb]. fold (Py.mem k cs).
    destruct (String.eqb k c) eqn:Ekc.
    + apply String.eqb_eq in Ekc. subst k.
      assert (Em : Py.mem c cs = false).
      { destruct (Py.mem c cs) eqn:Em; [| reflexivity].
        apply mem_In in Em. contradiction. }
      rewrite Em. cbn [andb orb].
      destruct (b c); [| reflexivity].
      now rewrite get_set, String.eqb_refl.
    + cbn [orb]. assert (Eg : get (if b c then set r c (to_numeric (get r c)) else r) k
                              = get r k).
      { destruct (b c); [| reflexivity]. rewrite get_set.
        rewrite String.eqb_sym, Ekc. reflexivity. }
      now rewrite Eg.
Qed.

Lemma numeric_cols_NoDup : NoDup numeric_cols.
Proof.
  unfold numeric_cols.
  repeat (constructor; [simpl; intuition discriminate |]). constructor.
Qed.

Lemma get_typed_row_date (cols : list string) (r0 : row) :
  get (typed_row cols r0) "date" = parse_datetime (get r0 "date").
Proof.
  unfold typed_row, coerce_row.
  rewrite (get_coerce (fun c => Py.mem c cols) _ numeric_cols_NoDup).
  change (Py.mem "date" numeric_cols) with false. cbn [andb].
  now rewrite get_set, String.eqb_refl.
Qed.

Lemma get_typed_row_numeric (cols : list string) (r0 : row) (c : string) :
  In c numeric_cols -> Py.mem c cols = true ->
  get (typed_row cols r0) c = to_numeric (get r0 c).
Proof.
  intros Hc Hm. unfold typed_row, coerce_row.
  rewrite (get_coerce (fun c => Py.mem c cols) _ numeric_cols_NoDup).
  rewrite (proj2 (mem_In c numeric_cols) Hc), Hm. cbn [andb].
  rewrite get_set.
  replace (String.eqb "date" c) with false; [reflexivity |].
  symmetry. apply String.eqb_neq. intros <-.
  unfold numeric_cols in Hc. simpl in Hc. intuition discriminate.
Qed.

Lemma parse_datetime_cases (c : cell) :
  parse_datetime c = NA \/ exists t, parse_datetime c = Date t.
Proof.
  destruct c as [| x | z | s | t]; cbn [parse_datetime]; eauto;
    unfold instant;
    match goal with |- context [match ?o with _ => _ end] => destruct o end;
    eauto.
Qed.

(** The frame that [load_frame] returns. *)
Lemma load_frame_inr (df out : frame) :
  load_frame df = inr out ->
  (forall c, In c subset -> Py.mem c (columns df) = true) /\
  columns out = columns df /\
  rows out
  = map (on_row (loaded_row (columns df)))
      (List.filter (fun lr => passes (columns df) (snd lr)) (rows df)).
Proof.
  unfold load_frame. cbv zeta.
  destruct (Py.mem "date" (columns df)) eqn:Hd; [| discriminate].
  unfold coerce_present.
  destruct (coerce_present_spec numeric_cols
              (assign df "date" (fun r => parse_datetime (get r "date"))))
    as [Hc Hr].
  cbv zeta in Hc, Hr. rewrite (columns_assign_present df "date" _ Hd) in Hc, Hr.
  set (df2 := fold_left _ numeric_cols _) in *.
  destruct (List.filter (fun c => negb (Py.mem c (columns df2))) subset)
    as [| c0 m0] eqn:Hm; [| discriminate].
  intros [= <-].
  assert (Hsub : forall c, In c subset -> Py.mem c (columns df) = true).
  { intros c Hin. destruct (Py.mem c (columns df)) eqn:E; [reflexivity |].
    assert (Hx : In c (List.filter (fun c => negb (Py.mem c (columns df2))) subset)).
    { apply filter_In. split; [exact Hin |]. now rewrite Hc, E. }
    rewrite Hm in Hx. contradiction. }
  split; [exact Hsub |].
  assert (Hy : Py.mem "year" (columns (dropna df2 subset)) = true).
  { cbn [columns dropna]. rewrite Hc. apply Hsub. unfold subset. simpl. tauto. }
  unfold retype_tsunami.
  rewrite (columns_assign_present _ "year" _ Hy). cbn [columns dropna].
  rewrite Hc. split.
  - destruct (Py.mem "tsunami_flag" (columns df)) eqn:Et.
    + rewrite columns_assign_present.
      * rewrite (columns_assign_present _ "year" _ Hy). cbn [columns dropna].
        exact Hc.
      * rewrite (columns_assign_present _ "year" _ Hy). cbn [columns dropna].
        now rewrite Hc.
    + rewrite (columns_assign_present _ "year" _ Hy). cbn [columns dropna].
      exact Hc.
  - destruct (Py.mem "tsunami_flag" (columns df)) eqn:Et;
      cbn [rows assign dropna]; rewrite Hr; cbn [rows assign];
      rewrite !map_map;
      rewrite filter_map_swap;
      rewrite !map_map; unfold loaded_row, passes; rewrite Et;
      (erewrite filter_ext; [apply map_ext; intros [l r]; reflexivity |]);
      intros [l r]; reflexivity.
Qed.

End WithLib.
End LoaderFacts.

Module LoaderSpec.
Import Pandas Loader PandasFacts NormalizerFacts LoaderFacts.
Local Open Scope list_scope.

Section WithLib.
Context {L : Lib} {D : DateLib}.

(** X10. The errors of [load_data].  It raises [FileNotFoundError]
    exactly when the cleaned file is absent.  On the frame that
    [read_csv] returned it raises [KeyError] on [date] when the file has
    no such column, and otherwise [KeyError] on the columns among year,
    latitude, longitude, magnitude and depth that the file lacks, in that
    order, exactly when it lacks one.  Whenever it returns, the file had
    the six columns, and the frame has the columns of the file, none added
    and none removed, and rows of the file under their labels. *)
Theorem load_data_errors (df : frame) :
  (forall fs path p,
     load_data fs path = inl (FileNotFoundError p) <->
     fs path = None /\ p = path) /\
  (forall ks,
     load_frame df = inl (KeyError ks) <->
     (~ In "date" (columns df) /\ ks = [ "date" ]) \/
     (In "date" (columns df) /\ ks <> [] /\
      ks = List.filter (fun c => negb (Py.mem c (columns df))) subset)) /\
  (forall out,
     load_frame df = inr out ->
     (forall c, In c subset -> In c (columns df)) /\
     columns out = columns df /\
     (forall l, In l (map fst (rows out)) -> In l (map fst (rows df)))).
Proof.
  assert (Hcases : forall d : frame,
    (Py.mem "date" (columns d) = false /\
     load_frame d = inl (KeyError [ "date" ])) \/
    (Py.mem "date" (columns d) = true /\
     match List.filter (fun c => negb (Py.mem c (columns d))) subset with
     | [] => exists out, load_frame d = inr out
     | c0 :: m0 => load_frame d = inl (KeyError (c0 :: m0))
     end)).
  { intros d. unfold load_frame. cbv zeta.
    destruct (Py.mem "date" (columns d)) eqn:Hd; [right | left; tauto].
    split; [reflexivity |].
    unfold coerce_present.
    destruct (coerce_present_spec numeric_cols
                (assign d "date" (fun r => parse_datetime (get r "date"))))
      as [Hc _].
    cbv zeta in Hc. rewrite (columns_assign_present d "date" _ Hd) in Hc.
    set (d2 := fold_left _ numeric_cols _) in *. rewrite Hc.
    destruct (List.filter (fun c => negb (Py.mem c (columns d))) subset);
      [eexists |]; reflexivity. }
  split; [| split].
  - intros fs path p. unfold load_data.
    destruct (fs path) as [content |].
    + split; [| intros [H _]; discriminate].
      intros H. exfalso.
      destruct (Hcases (DataFrame (read_csv content))) as [[_ E] | [_ E]].
      * congruence.
      * destruct (List.filter _ subset); [destruct E as [out E] |];
          congruence.
    + split; [intros [= <-]; tauto | intros [_ ->]; reflexivity].
  - intros ks. destruct (Hcases df) as [[Hd E] | [Hd E]]; rewrite <- mem_In, Hd.
    + rewrite E. split.
      * intros [= <-]. left. split; [discriminate | reflexivity].
      * intros [[_ ->] | [H _]]; [reflexivity | discriminate].
    + destruct (List.filter (fun c => negb (Py.mem c (columns df))) subset)
        as [| c0 m0].
      * destruct E as [out E]. rewrite E. split; [discriminate |].
        intros [[H _] | [_ [H ->]]]; [now elim H | contradiction].
      * rewrite E. split.
        -- intros [= <-]. right. repeat split. discriminate.
        -- intros [[H _] | [_ [_ ->]]]; [now elim H | reflexivity].
  - intros out E. destruct (load_frame_inr df out E) as [Hsub [Hc Hr]].
    split; [intros c Hin; apply mem_In; now apply Hsub |].
    split; [exact Hc |].
    intros l Hl. rewrite Hr, labels_on_row in Hl.
    apply in_map_iff in Hl. destruct Hl as [x [<- Hx]].
    apply filter_In in Hx. apply in_map. tauto.
Qed.

(** X11. Every row that [load_data] returns has a date, an integer year,
    and numbers for latitude, longitude, magnitude and depth; its tsunami
    flag, when the file has the column, is an integer, 0 where the file
    holds no number; and the rows of the file that fail one of the six
    tests are the only ones left out. *)
Theorem loaded_rows_typed (df out : frame) :
  load_frame df = inr out ->
  (forall l r, In (l, r) (rows out) ->
     exists r0,
       In (l, r0) (rows df) /\
       (exists t, get r "date" = Date t) /\
       (exists y, get r "year" = Int y) /\
       (forall c, In c [ "latitude"; "longitude"; "magnitude"; "depth_km" ] ->
          get r c = to_numeric (get r0 c) /\ as_Q (get r c) <> None) /\
       (Py.mem "tsunami_flag" (columns df) = true ->
        exists z, get r "tsunami_flag" = Int z /\
                  (to_numeric (get r0 "tsunami_flag") = NA -> z = 0))) /\
  (forall l r0, In (l, r0) (rows df) ->
     parse_datetime (get r0 "date") <> NA ->
     (forall c, In c [ "year"; "latitude"; "longitude"; "magnitude"; "depth_km" ] ->
        to_numeric (get r0 c) <> NA) ->
     In l (map fst (rows out))).
Proof.
  intros H. destruct (load_frame_inr df out H) as [Hsub [Hc Hr]].
  assert (Hnum : forall c, In c [ "year"; "latitude"; "longitude"; "magnitude";
                                  "depth_km" ] ->
                 In c numeric_cols /\ In c subset /\ Py.mem c (columns df) = true).
  { intros c Hin.
    assert (Hs : In c subset) by (unfold subset; simpl in *; tauto).
    split; [unfold numeric_cols; simpl in *; tauto |].
    split; [exact Hs | now apply Hsub]. }
  split.
  - intros l r Hin. rewrite Hr in Hin. apply in_map_iff in Hin.
    destruct Hin as [[l0 r0] [E Hf]]. unfold on_row in E. cbn [fst snd] in E.
    injection E as <- <-. apply filter_In in Hf. destruct Hf as [Hin P].
    cbn [snd] in P. unfold passes in P. rewrite forallb_forall in P.
    exists r0. split; [exact Hin |].
    assert (Hother : forall c, c <> "year" -> c <> "tsunami_flag" ->
              get (loaded_row (columns df) r0) c = get (typed_row (columns df) r0) c).
    { intros c H1 H2. unfold loaded_row. cbv zeta.
      destruct (Py.mem "tsunami_flag" (columns df)); rewrite !get_set.
      - apply String.eqb_neq in H1, H2. rewrite String.eqb_sym in H1, H2.
        now rewrite H1, H2.
      - apply String.eqb_neq in H1. rewrite String.eqb_sym in H1.
        now rewrite H1. }
    split; [| split; [| split]].
    + rewrite Hother by discriminate. rewrite get_typed_row_date.
      destruct (parse_datetime_cases (get r0 "date")) as [E | [t E]]; [| eauto].
      exfalso. specialize (P "date"). rewrite get_typed_row_date, E in P.
      cbn in P. assert (false = true) by (apply P; unfold subset; simpl; tauto).
      discriminate.
    + assert (Ey : get (loaded_row (columns df) r0) "year"
                   = astype_int (to_numeric (get r0 "year"))).
      { unfold loaded_row. cbv zeta.
        destruct (Py.mem "tsunami_flag" (columns df)); rewrite !get_set;
          cbn [String.eqb Ascii.eqb Bool.eqb andb];
          rewrite ?String.eqb_refl;
          rewrite get_typed_row_numeric; try reflexivity;
          try (apply Hnum; simpl; tauto). }
      rewrite Ey. destruct (Hnum "year") as [Hn [Hs Hm]]; [simpl; tauto |].
      specialize (P "year" Hs). rewrite (get_typed_row_numeric _ _ _ Hn Hm) in P.
      destruct (to_numeric_cases (get r0 "year")) as [E | [[x E] | [z E]]];
        rewrite E in *; cbn in *; [discriminate | eauto | eauto].
    + intros c Hcin.
      assert (Hin' : In c [ "year"; "latitude"; "longitude"; "magnitude";
                            "depth_km" ]) by (simpl in *; tauto).
      destruct (Hnum c Hin') as [Hn [Hs Hm]].
      assert (E : get (loaded_row (columns df) r0) c = to_numeric (get r0 c)).
      { rewrite Hother.
        - now apply get_typed_row_numeric.
        - intros ->. simpl in Hcin. intuition discriminate.
        - intros ->. simpl in Hcin. intuition discriminate. }
      split; [exact E |]. rewrite E.
      specialize (P c Hs). rewrite (get_typed_row_numeric _ _ _ Hn Hm) in P.
      destruct (to_numeric_cases (get r0 c)) as [E' | [[x E'] | [z E']]];
        rewrite E' in *; cbn in *; [discriminate | discriminate | discriminate].
    + intros Ht. unfold loaded_row. cbv zeta. rewrite Ht.
      rewrite get_set, String.eqb_refl, get_set.
      change (String.eqb "year" "tsunami_flag") with false. cbv iota.
      assert (Eg : get (typed_row (columns df) r0) "tsunami_flag"
                   = get r0 "tsunami_flag").
      { unfold typed_row, coerce_row.
        rewrite (get_coerce (fun c => Py.mem c (columns df)) _ numeric_cols_NoDup).
        change (Py.mem "tsunami_flag" numeric_cols) with false. cbn [andb].
        rewrite get_set. reflexivity. }
      rewrite Eg.
      destruct (to_numeric_cases (get r0 "tsunami_flag")) as [E | [[x E] | [z E]]];
        rewrite E; cbn; eexists; (split; [reflexivity |]); intros Hx;
        try discriminate Hx; reflexivity.
  - intros l r0 Hin Hdate Hn. rewrite Hr, labels_on_row.
    apply in_map_iff. exists (l, r0). split; [reflexivity |].
    apply filter_In. split; [exact Hin |]. cbn [snd]. unfold passes.
    apply forallb_forall. intros c Hcs. unfold subset in Hcs. simpl in Hcs.
    destruct Hcs as [<- | Hcs].
    + rewrite get_typed_row_date.
      destruct (parse_datetime (get r0 "date")); try reflexivity. congruence.
    + assert (Hin' : In c [ "year"; "latitude"; "longitude"; "magnitude";
                            "depth_km" ]) by (simpl; tauto).
      destruct (Hnum c Hin') as [Hnc [Hs Hm]].
      rewrite (get_typed_row_numeric _ _ _ Hnc Hm).
      specialize (Hn c Hin').
      destruct (to_numeric (get r0 c)); try reflexivity. congruence.
Qed.

End WithLib.

(** *** The theorem at the cleaned sample *)

Import Samples Examples.

Lemma sample_loads :
  load_frame (L := PlainCsv.lib) (D := plain_dates) clean_sample
  = inr loaded_sample.
Proof. vm_compute. reflexivity. Qed.

Lemma loaded_rows_typed_witness :
  load_frame (L := PlainCsv.lib) (D := plain_dates) clean_sample
  = inr loaded_sample /\
  (forall l r, In (l, r) (rows loaded_sample) ->
     exists r0,
       In (l, r0) (rows clean_sample) /\
       (exists t, get r "date" = Date t) /\
       (exists y, get r "year" = Int y) /\
       (forall c, In c [ "latitude"; "longitude"; "magnitude"; "depth_km" ] ->
          get r c = to_numeric (L := PlainCsv.lib) (get r0 c) /\
          as_Q (get r c) <> None) /\
       (Py.mem "tsunami_flag" (columns clean_sample) = true ->
        exists z, get r "tsunami_flag" = Int z /\
                  (to_numeric (L := PlainCsv.lib) (get r0 "tsunami_flag") = NA ->
                   z = 0))) /\
  (forall l r0, In (l, r0) (rows clean_sample) ->
     parse_datetime (D := plain_dates) (get r0 "date") <> NA ->
     (forall c, In c [ "year"; "latitude"; "longitude"; "magnitude"; "depth_km" ] ->
        to_numeric (L := PlainCsv.lib) (get r0 c) <> NA) ->
     In l (map fst (rows loaded_sample))).
Proof.
  split; [exact sample_loads |].
  exact (loaded_rows_typed (L := PlainCsv.lib) (D := plain_dates)
           clean_sample loaded_sample sample_loads).
Defined.

End LoaderSpec.

(* ================================================================== *)
(** * The dashboard, further: labels, sums, peak, years and table *)
(* ================================================================== *)
Module AggregateFacts.
Import Pandas Dashboard Display PandasFacts DashboardFacts NormalizerOutputFacts.
Local Open Scope list_scope.

Lemma two64 : 2 ^ 64 <> 0.
Proof. discriminate. Qed.

Lemma wrap_add_l (a b : Z) : Int64.wrap (Int64.wrap a + b) = Int64.wrap (a + b).
Proof.
  unfold Int64.wrap. f_equal.
  replace ((a + 2 ^ 63) mod 2 ^ 64 - 2 ^ 63 + b + 2 ^ 63)
    with ((a + 2 ^ 63) mod 2 ^ 64 + b) by ring.
  replace (a + b + 2 ^ 63) with (a + 2 ^ 63 + b) by ring.
  apply Zplus_mod_idemp_l.
Qed.

Lemma wrap_add_r (a b : Z) : Int64.wrap (a + Int64.wrap b) = Int64.wrap (a + b).
Proof. rewrite Z.add_comm, wrap_add_l. now rewrite Z.add_comm. Qed.

Lemma fold_add_wrap (l : list Z) :
  forall a, fold_left Int64.add l (Int64.wrap a) = Int64.wrap (a + Zsum l).
Proof.
  induction l as [| x t IH]; intros a; simpl.
  - now rewrite Z.add_0_r.
  - unfold Int64.add at 2. rewrite wrap_add_l, IH. f_equal. ring.
Qed.

Lemma sum_wrap (l : list Z) : Int64.sum l = Int64.wrap (Zsum l).
Proof.
  unfold Int64.sum. change 0 with (Int64.wrap 0) at 1.
  now rewrite fold_add_wrap.
Qed.

(** The three count columns of consistent rows. *)
Lemma consistent_columns (l : list (nat * row)) :
  (forall lr, In lr l -> consistent (snd lr)) ->
  forallb is_int (map (fun lr => get (snd lr) "total_casualties") l) = true /\
  forallb is_int (map (fun lr => get (snd lr) "deaths") l) = true /\
  forallb is_int (map (fun lr => get (snd lr) "injuries") l) = true /\
  Int64.wrap (Zsum (map int_value
                      (map (fun lr => get (snd lr) "total_casualties") l)))
  = Int64.wrap
      (Zsum (map int_value (map (fun lr => get (snd lr) "deaths") l))
       + Zsum (map int_value (map (fun lr => get (snd lr) "injuries") l))).
Proof.
  induction l as [| x t IH]; intros H.
  - repeat split.
  - destruct IH as [Ht [Hd [Hi Hs]]]; [intros lr Hlr; apply H; now right |].
    destruct (H x (or_introl eq_refl)) as [d [i [Ed [Ei Et]]]].
    cbn [map forallb]. rewrite Ed, Ei, Et. cbn [is_int int_value andb Zsum fold_right].
    repeat split; try assumption.
    fold (Zsum (map int_value (map (fun lr => get (snd lr) "total_casualties") t))).
    fold (Zsum (map int_value (map (fun lr => get (snd lr) "deaths") t))).
    fold (Zsum (map int_value (map (fun lr => get (snd lr) "injuries") t))).
    unfold Int64.add. rewrite wrap_add_l, <- wrap_add_r, Hs, wrap_add_r.
    f_equal. ring.
Qed.

Lemma placeholder_consistent (df : frame) (w : controls) (lr : nat * row) :
  In lr (rows (placeholder df w)) -> consistent (snd lr).
Proof.
  unfold placeholder. cbv zeta. intros H.
  destruct (has_tsunami df); cbn in H; destruct H as [<- | []];
    exists 0, 0; repeat split.
Qed.

Lemma displayed_rows (df : frame) (w : controls) (lr : nat * row) :
  In lr (rows (displayed df w)) ->
  In lr (rows df) \/ In lr (rows (placeholder df w)).
Proof.
  unfold displayed, empty. cbv zeta.
  destruct (rows (filter_logic df w)) eqn:E.
  - now right.
  - intros H. left. rewrite rows_filter_logic in H.
    apply filter_In in H. tauto.
Qed.

(** *** [idxmax] and [loc] *)

Lemma idxmax_from_spec (s : list (nat * cell)) :
  forall i x,
    (idxmax_from (i, x) s = i /\ below x s) \/
    (exists s1 c s2 y,
        s = s1 ++ (idxmax_from (i, x) s, c) :: s2 /\ as_Q c = Some y /\
        (x < y)%Q /\ strictly_below y s1 /\ below y s2).
Proof.
  induction s as [| [k c] t IH]; intros i x.
  - left. split; [reflexivity |]. intros k c y [].
  - cbn [idxmax_from fst snd]. destruct (as_Q c) as [y |] eqn:Ec.
    + destruct (Qle_bool y x) eqn:Ele.
      * apply Qle_bool_iff in Ele.
        destruct (IH i x) as [[Ej Hb] | [s1 [c0 [s2 [y0 [Es [Ec0 [Hlt [H1 H2]]]]]]]]].
        -- left. split; [exact Ej |].
           intros k' c' y' [E | Hin] Hy.
           ++ injection E as <- <-. rewrite Ec in Hy. now injection Hy as <-.
           ++ now apply (Hb k' c' y').
        -- right. exists ((k, c) :: s1), c0, s2, y0.
           repeat split; try assumption.
           ++ cbn [app]. now f_equal.
           ++ intros k' c' y' [E | Hin] Hy.
              ** injection E as <- <-. rewrite Ec in Hy. injection Hy as <-.
                 eapply Qle_lt_trans; eassumption.
              ** now apply (H1 k' c' y').
      * assert (Hxy : (x < y)%Q).
        { apply Qnot_le_lt. intros Hle. apply Qle_bool_iff in Hle. congruence. }
        destruct (IH k y) as [[Ej Hb] | [s1 [c0 [s2 [y0 [Es [Ec0 [Hlt [H1 H2]]]]]]]]].
        -- right. exists [], c, t, y. rewrite Ej.
           repeat split; try assumption. intros k' c' y' [].
        -- right. exists ((k, c) :: s1), c0, s2, y0.
           repeat split; try assumption.
           ++ cbn [app]. now f_equal.
           ++ eapply Qlt_trans; eassumption.
           ++ intros k' c' y' [E | Hin] Hy.
              ** injection E as <- <-. rewrite Ec in Hy. now injection Hy as <-.
              ** now apply (H1 k' c' y').
    + destruct (IH i x) as [[Ej Hb] | [s1 [c0 [s2 [y0 [Es [Ec0 [Hlt [H1 H2]]]]]]]]].
      * left. split; [exact Ej |].
        intros k' c' y' [E | Hin] Hy.
        -- injection E as <- <-. congruence.
        -- now apply (Hb k' c' y').
      * right. exists ((k, c) :: s1), c0, s2, y0.
        repeat split; try assumption.
        -- cbn [app]. now f_equal.
        -- intros k' c' y' [E | Hin] Hy.
           ++ injection E as <- <-. congruence.
           ++ now apply (H1 k' c' y').
Qed.

Lemma idxmax_spec (s : list (nat * cell)) :
  match idxmax s with
  | None => forall k c, In (k, c) s -> as_Q c = None
  | Some j =>
      exists s1 c s2 y,
        s = s1 ++ (j, c) :: s2 /\ as_Q c = Some y /\
        strictly_below y s1 /\ below y s2
  end.
Proof.
  induction s as [| [k c] t IH]; cbn [idxmax].
  - intros k c [].
  - destruct (as_Q c) as [x |] eqn:Ec.
    + destruct (idxmax_from_spec t k x)
        as [[Ej Hb] | [s1 [c0 [s2 [y0 [Es [Ec0 [Hlt [H1 H2]]]]]]]]].
      * exists [], c, t, x. rewrite Ej. repeat split; try assumption.
        intros k' c' y' [].
      * exists ((k, c) :: s1), c0, s2, y0. repeat split; try assumption.
        -- cbn [app]. now f_equal.
        -- intros k' c' y' [E | Hin] Hy.
           ++ injection E as <- <-. rewrite Ec in Hy. now injection Hy as <-.
           ++ now apply (H1 k' c' y').
    + destruct (idxmax t) as [j |].
      * destruct IH as [s1 [c0 [s2 [y0 [Es [Ec0 [H1 H2]]]]]]].
        exists ((k, c) :: s1), c0, s2, y0. repeat split; try assumption.
        -- cbn [app]. now f_equal.
        -- intros k' c' y' [E | Hin] Hy.
           ++ injection E as <- <-. congruence.
           ++ now apply (H1 k' c' y').
      * intros k' c' [E | Hin].
        -- now injection E as <- <-.
        -- now apply (IH k' c').
Qed.

Lemma loc_unique (f : frame) (bef aft : list (nat * row)) (l : nat) (r : row) :
  NoDup (map fst (rows f)) ->
  rows f = bef ++ (l, r) :: aft ->
  loc f l = Some r.
Proof.
  unfold loc. intros Hnd E. rewrite E in *. clear E.
  induction bef as [| [l0 r0] t IH]; cbn [app find fst].
  - now rewrite Nat.eqb_refl.
  - cbn [app map fst] in Hnd. inversion Hnd as [| ? ? Hn Hd]; subst.
    destruct (Nat.eqb l0 l) eqn:El.
    + apply Nat.eqb_eq in El. subst l0. exfalso. apply Hn.
      rewrite map_app. apply in_or_app. right. now left.
    + now apply IH.
Qed.

Lemma peak_spec (f : frame) (m : string) :
  NoDup (map fst (rows f)) ->
  ((exists lr, In lr (rows f) /\ value m lr <> None) ->
   exists r, peak f m = Some r) /\
  (forall r, peak f m = Some r ->
     exists l x earlier later,
       rows f = earlier ++ (l, r) :: later /\
       value m (l, r) = Some x /\
       (forall lr y, In lr earlier -> value m lr = Some y -> (y < x)%Q) /\
       (forall lr y, In lr later -> value m lr = Some y -> (y <= x)%Q)).
Proof.
  intros Hnd. unfold peak, value.
  pose proof (idxmax_spec (map (fun lr => (fst lr, get (snd lr) m)) (rows f)))
    as Hs.
  destruct (idxmax _) as [j |].
  - destruct Hs as [s1 [c [s2 [y [Es [Ec [H1 H2]]]]]]].
    apply map_eq_app in Es. destruct Es as [bef [rest [Er [Eb Erest]]]].
    apply map_eq_cons in Erest. destruct Erest as [[l r] [aft [Erest [Ex Ea]]]].
    cbn [fst snd] in Ex. injection Ex as -> <-. subst rest.
    rewrite (loc_unique f bef aft j r Hnd Er).
    split; [intros _; now exists r |].
    intros r' [= <-]. exists j, y, bef, aft.
    split; [exact Er |]. split; [exact Ec |]. split.
    + intros [l0 r0] y0 Hin Hy. apply (H1 l0 (get r0 m) y0); [| exact Hy].
      rewrite <- Eb. apply in_map_iff. exists (l0, r0). auto.
    + intros [l0 r0] y0 Hin Hy. apply (H2 l0 (get r0 m) y0); [| exact Hy].
      rewrite <- Ea. apply in_map_iff. exists (l0, r0). auto.
  - split; [| discriminate].
    intros [[l r] [Hin Hv]]. exfalso. apply Hv. cbn [snd].
    apply (Hs l (get r m)). apply in_map_iff. exists (l, r). auto.
Qed.


Lemma displayed_labels (df : frame) (w : controls) :
  NoDup (map fst (rows df)) -> NoDup (map fst (rows (displayed df w))).
Proof.
  intros H. unfold displayed, empty. cbv zeta.
  destruct (rows (filter_logic df w)) eqn:E.
  - unfold placeholder. cbv zeta.
    destruct (has_tsunami df); cbn; repeat constructor; intros [].
  - rewrite rows_filter_logic. now apply labels_filter_NoDup.
Qed.

Lemma displayed_not_empty (df : frame) (w : controls) :
  exists lr, In lr (rows (displayed df w)).
Proof.
  unfold displayed, empty. cbv zeta.
  destruct (rows (filter_logic df w)) as [| x t] eqn:E.
  - unfold placeholder. cbv zeta.
    destruct (has_tsunami df); cbn; eexists; left; reflexivity.
  - exists x. rewrite E. now left.
Qed.

(** *** The yearly totals *)

Lemma insert_year_In (y z : Z) (ys : list Z) :
  In z (insert_year y ys) <-> z = y \/ In z ys.
Proof.
  induction ys as [| y' t IH]; cbn [insert_year].
  - simpl. intuition.
  - destruct (Z.ltb_spec y y'); [simpl; intuition |].
    destruct (Z.eqb_spec y y').
    + subst. simpl. intuition.
    + cbn [In]. rewrite IH. intuition.
Qed.

Lemma insert_year_HdRel (a y : Z) (ys : list Z) :
  a < y -> HdRel Z.lt a ys -> HdRel Z.lt a (insert_year y ys).
Proof.
  intros Hay H. destruct ys as [| y' t]; cbn [insert_year].
  - now constructor.
  - destruct (y <? y'); [now constructor |].
    destruct (y =? y'); constructor; now inversion H.
Qed.

Lemma insert_year_sorted (y : Z) (ys : list Z) :
  Sorted Z.lt ys -> Sorted Z.lt (insert_year y ys).
Proof.
  induction 1 as [| y' t Hs IH Hhd]; cbn [insert_year].
  - repeat constructor.
  - destruct (Z.ltb_spec y y').
    + constructor; [now constructor | now constructor].
    + destruct (Z.eqb_spec y y'); [now constructor |].
      constructor; [exact IH |]. apply insert_year_HdRel; [lia | exact Hhd].
Qed.

Lemma years_sorted (f : frame) : Sorted Z.lt (years f).
Proof.
  unfold years. induction (rows f) as [| x t IH]; cbn [fold_right].
  - constructor.
  - destruct (year_of (snd x)); [now apply insert_year_sorted | exact IH].
Qed.

Lemma years_In (f : frame) (y : Z) :
  In y (years f) <-> exists lr, In lr (rows f) /\ year_of (snd lr) = Some y.
Proof.
  unfold years. induction (rows f) as [| x t IH]; cbn [fold_right].
  - split; [intros [] | intros [lr [[] _]]].
  - destruct (year_of (snd x)) as [y0 |] eqn:E.
    + rewrite insert_year_In, IH. split.
      * intros [-> | [lr [Hin Hy]]].
        -- exists x. split; [now left | exact E].
        -- exists lr. split; [now right | exact Hy].
      * intros [lr [[<- | Hin] Hy]].
        -- left. congruence.
        -- right. eauto.
    + rewrite IH. split.
      * intros [lr [Hin Hy]]. exists lr. split; [now right | exact Hy].
      * intros [lr [[<- | Hin] Hy]]; [congruence | eauto].
Qed.

Lemma sorted_lt_NoDup (ys : list Z) : Sorted Z.lt ys -> NoDup ys.
Proof.
  intros H. apply Sorted_StronglySorted in H; [| exact Z.lt_trans].
  induction H as [| a l Hs IH Hall]; constructor; [| exact IH].
  intros Hin. rewrite Forall_forall in Hall. specialize (Hall a Hin). lia.
Qed.

Lemma year_of_Int (r : row) (y : Z) :
  year_of r = Some y <-> get r "year" = Int y.
Proof.
  unfold year_of. destruct (get r "year"); split; intros H;
    try discriminate; congruence.
Qed.

Lemma Zsum_filter_split (v : nat * row -> Z) (p q : nat * row -> bool)
    (l : list (nat * row)) :
  (forall x, p x = true -> q x = false) ->
  Zsum (map v (List.filter (fun x => p x || q x) l))
  = Zsum (map v (List.filter p l)) + Zsum (map v (List.filter q l)).
Proof.
  intros H. induction l as [| x t IH]; cbn [List.filter]; [reflexivity |].
  destruct (p x) eqn:Ep.
  - rewrite (H x Ep). cbn [orb map Zsum fold_right].
    fold (Zsum (map v (List.filter (fun x => p x || q x) t))).
    fold (Zsum (map v (List.filter p t))). rewrite IH. ring.
  - destruct (q x); cbn [orb map Zsum fold_right]; [| exact IH].
    fold (Zsum (map v (List.filter (fun x => p x || q x) t))).
    fold (Zsum (map v (List.filter q t))). rewrite IH. ring.
Qed.

Lemma Zsum_by_year (v : nat * row -> Z) (l : list (nat * row)) (ks : list Z) :
  NoDup ks ->
  Zsum (map (fun y => Zsum (map v (List.filter (in_year y) l))) ks)
  = Zsum (map v (List.filter (in_years ks) l)).
Proof.
  induction 1 as [| k ks Hn Hnd IH]; cbn [map Zsum fold_right].
  - rewrite (filter_ext (in_years []) (fun _ => false)).
    + now induction l.
    + intros lr. unfold in_years. now destruct (year_of (snd lr)).
  - fold (Zsum (map (fun y => Zsum (map v (List.filter (in_year y) l))) ks)).
    rewrite IH.
    rewrite (filter_ext (in_years (k :: ks))
               (fun lr => in_year k lr || in_years ks lr)).
    + symmetry. apply Zsum_filter_split. intros lr. unfold in_year, in_years.
      destruct (year_of (snd lr)) as [y |]; [| discriminate].
      intros E. apply Z.eqb_eq in E. subst y.
      destruct (existsb (Z.eqb k) ks) eqn:Ex; [| reflexivity].
      apply existsb_exists in Ex. destruct Ex as [z [Hz Ez]].
      apply Z.eqb_eq in Ez. subst z. contradiction.
    + intros lr. unfold in_year, in_years.
      destruct (year_of (snd lr)); reflexivity.
Qed.

Lemma wrap_Zsum_wrap {A : Type} (g : A -> Z) (ks : list A) :
  Int64.wrap (Zsum (map (fun y => Int64.wrap (g y)) ks))
  = Int64.wrap (Zsum (map g ks)).
Proof.
  induction ks as [| k t IH]; cbn [map Zsum fold_right]; [reflexivity |].
  fold (Zsum (map (fun y => Int64.wrap (g y)) t)). fold (Zsum (map g t)).
  now rewrite wrap_add_l, <- wrap_add_r, IH, wrap_add_r.
Qed.

(** *** The table *)

Lemma insert_desc_perm (c : string) (x : nat * row) (l : list (nat * row)) :
  Permutation (insert_desc c x l) (x :: l).
Proof.
  induction l as [| y t IH]; cbn [insert_desc]; [apply Permutation_refl |].
  destruct (cell_geb _ _); [apply Permutation_refl |].
  eapply perm_trans; [apply perm_skip, IH | apply perm_swap].
Qed.

Lemma sort_desc_perm (c : string) (l : list (nat * row)) :
  Permutation (fold_right (insert_desc c) [] l) l.
Proof.
  induction l as [| x t IH]; cbn [fold_right]; [constructor |].
  eapply perm_trans; [apply insert_desc_perm | now apply perm_skip].
Qed.

Lemma insert_key_desc_HdRel (a k : Z) (ks : list Z) :
  k <= a -> HdRel later_first a ks -> HdRel later_first a (insert_key_desc k ks).
Proof.
  intros Hak H. destruct ks as [| k' t]; cbn [insert_key_desc].
  - now constructor.
  - destruct (k' <=? k); constructor; [exact Hak |]. now inversion H.
Qed.

Lemma insert_key_desc_sorted (k : Z) (ks : list Z) :
  Sorted later_first ks -> Sorted later_first (insert_key_desc k ks).
Proof.
  induction 1 as [| k' t Hs IH Hhd]; cbn [insert_key_desc].
  - repeat constructor.
  - destruct (Z.leb_spec k' k).
    + constructor; [now constructor | now constructor].
    + constructor; [exact IH |].
      apply insert_key_desc_HdRel; [lia | exact Hhd].
Qed.

Lemma dates_insert_desc (x : nat * row) (k : Z) (l : list (nat * row)) :
  Schema.date_key (snd x) = Some k ->
  forall ks,
    map (fun lr => Schema.date_key (snd lr)) l = map Some ks ->
    map (fun lr => Schema.date_key (snd lr)) (insert_desc "date" x l)
    = map Some (insert_key_desc k ks).
Proof.
  intros Hx. induction l as [| y t IH]; intros ks Hks.
  - destruct ks; [| discriminate]. simpl. now rewrite Hx.
  - destruct ks as [| k' ks']; [discriminate |].
    cbn [map] in Hks. injection Hks as Hy Ht. cbn [insert_desc].
    rewrite (date_key_Date _ _ Hx), (date_key_Date _ _ Hy).
    cbn [cell_geb cell_leb insert_key_desc]. destruct (k' <=? k); cbn [map].
    + now rewrite Hx, Hy, Ht.
    + rewrite Hy. f_equal. now apply IH.
Qed.

Lemma sort_desc_dates (l : list (nat * row)) :
  (forall x, In x l -> exists k, Schema.date_key (snd x) = Some k) ->
  exists ks,
    map (fun lr => Schema.date_key (snd lr)) (fold_right (insert_desc "date") [] l)
    = map Some ks /\ Sorted later_first ks.
Proof.
  induction l as [| x t IH]; intros H.
  - exists []. split; [reflexivity | constructor].
  - destruct IH as [ks [E S]]; [intros y Hy; apply H; now right |].
    destruct (H x (or_introl eq_refl)) as [k Hk].
    exists (insert_key_desc k ks). split.
    + cbn [fold_right]. now apply dates_insert_desc.
    + now apply insert_key_desc_sorted.
Qed.

Lemma head_before_tail (ks : list Z) :
  Sorted later_first ks ->
  forall n a b, In a (firstn n ks) -> In b (skipn n ks) -> b <= a.
Proof.
  intros H. apply Sorted_StronglySorted in H;
    [| intros x y z Hxy Hyz; unfold later_first in *; lia].
  induction H as [| k t Hs IH Hall]; intros n a b Ha Hb.
  - destruct n; destruct Ha.
  - destruct n as [| n]; [destruct Ha |].
    cbn [firstn skipn] in Ha, Hb. destruct Ha as [<- | Ha].
    + rewrite Forall_forall in Hall. apply (Hall b).
      rewrite <- (firstn_skipn n t). apply in_or_app. now right.
    + now apply (IH n).
Qed.

(** [between] holds of the numbers within the bounds, and of nothing
    else. *)
Lemma between_spec (c : cell) (lo hi : Q) :
  between c lo hi = true <->
  exists x, as_Q c = Some x /\ (lo <= x)%Q /\ (x <= hi)%Q.
Proof.
  unfold between. destruct (as_Q c) as [x |].
  - rewrite andb_true_iff, !Qle_bool_iff. split.
    + intros H. exists x. tauto.
    + intros [y [[= <-] H]]. exact H.
  - split; [discriminate | intros [y [E _]]; discriminate].
Qed.

Lemma columns_filter_logic (df : frame) (w : controls) :
  columns (filter_logic df w) = columns df.
Proof.
  unfold filter_logic. cbv zeta.
  destruct (only_with_casualties w), (has_tsunami df);
    try destruct (Py.contains "only" _);
    try destruct (Py.contains "tsunami" _); reflexivity.
Qed.

End AggregateFacts.

(* ================================================================== *)
(** * The dashboard, further: filter, check boxes, alert, aggregates *)
(* ================================================================== *)
Module DisplaySpec.
Import Pandas Dashboard Display PandasFacts DashboardFacts AggregateFacts Samples.
Local Open Scope list_scope.

(** X12. What the filter returns: the rows of the dataset, under their
    labels and with the columns of the dataset, whose year lies in the
    range (ends included), whose magnitude is a number between the doubles
    nearest to target - 0.25 and target + 0.25 (ends included), whose
    severity is selected, whose casualties are positive when the toggle is
    on, and whose tsunami flag fits the category when the dataset has the
    column; no other row, and no row twice over. *)
Theorem filter_contract (df : frame) (w : controls) :
  columns (filter_logic df w) = columns df /\
  (forall l r,
     In (l, r) (rows (filter_logic df w)) <->
     In (l, r) (rows df) /\
     ge_int (get r "year") (fst (year_range w)) = true /\
     le_int (get r "year") (snd (year_range w)) = true /\
     (exists x, as_Q (get r "magnitude") = Some x /\
                (Float64.sub (magnitude w) mag_window <= x)%Q /\
                (x <= Float64.add (magnitude w) mag_window)%Q) /\
     isin (get r "severity") (severity_sel w) = true /\
     (only_with_casualties w = true -> gt_int (get r "total_casualties") 0 = true) /\
     (has_tsunami df = true ->
      (Py.contains "only" (Py.lower (event_type w)) = true ->
       eq_int (get r "tsunami_flag") 0 = true) /\
      (Py.contains "only" (Py.lower (event_type w)) = false ->
       Py.contains "tsunami" (Py.lower (event_type w)) = true ->
       eq_int (get r "tsunami_flag") 1 = true))) /\
  (NoDup (map fst (rows df)) -> NoDup (map fst (rows (filter_logic df w)))).
Proof.
  split; [| split].
  - unfold filter_logic. cbv zeta.
    destruct (only_with_casualties w), (has_tsunami df);
      try destruct (Py.contains "only" _);
      try destruct (Py.contains "tsunami" _); reflexivity.
  - intros l r. rewrite rows_filter_logic, filter_In. cbn [snd].
    rewrite <- (between_spec (get r "magnitude")).
    unfold admits, year_mask, magnitude_mask, severity_mask.
    rewrite !andb_true_iff.
    destruct (only_with_casualties w), (has_tsunami df);
      try destruct (Py.contains "only" _);
      try destruct (Py.contains "tsunami" _);
      intuition (try discriminate; auto).
  - rewrite rows_filter_logic. intros H.
    induction (rows df) as [| x t IH]; simpl; [constructor |].
    inversion H as [| ? ? Hn Hd]; subst.
    destruct (admits df w (snd x)); simpl; [| now apply IH].
    constructor; [| now apply IH].
    intros Hin. apply Hn. apply in_map_iff in Hin.
    destruct Hin as [y [E Hy]]. apply filter_In in Hy.
    apply in_map_iff. exists y. tauto.
Qed.

(** X13. The event category: on a dataset without a tsunami column the
    choice is ignored, whatever it is; on a dataset with one, "Earthquake
    only" keeps the rows of flag 0 among those that pass the other tests,
    "Earthquake + Tsunami" those of flag 1, and "All earthquakes" all of
    them. *)
Theorem event_category (df : frame) (w : controls) :
  (has_tsunami df = false ->
   forall e, filter_logic df (with_event_type w e) = filter_logic df w) /\
  (has_tsunami df = true ->
   let base := rows (filter_logic df (with_event_type w "All earthquakes")) in
   rows (filter_logic df (with_event_type w "Earthquake only"))
   = List.filter (fun lr => eq_int (get (snd lr) "tsunami_flag") 0) base /\
   rows (filter_logic df (with_event_type w "Earthquake + Tsunami"))
   = List.filter (fun lr => eq_int (get (snd lr) "tsunami_flag") 1) base).
Proof.
  split.
  - intros H e. unfold filter_logic. cbv zeta. rewrite H. reflexivity.
  - intros H. cbv zeta. unfold filter_logic. cbv zeta. rewrite H.
    cbn [event_type with_event_type].
    change (Py.contains "only" (Py.lower "All earthquakes")) with false.
    change (Py.contains "tsunami" (Py.lower "All earthquakes")) with false.
    change (Py.contains "only" (Py.lower "Earthquake only")) with true.
    change (Py.contains "only" (Py.lower "Earthquake + Tsunami")) with false.
    change (Py.contains "tsunami" (Py.lower "Earthquake + Tsunami")) with true.
    cbv iota. split; reflexivity.
Qed.

(** X14. Every event of the dataset gets one of the three classes, so
    with the three boxes ticked (the state in which the page opens) the
    severity test excludes no event. *)
Theorem severity_default_excludes_nothing (df : frame) (w : controls) (l : nat) (r : row) :
  In (l, r) (rows (with_severity df)) ->
  (exists s, get r "severity" = Txt s /\ In s options) /\
  (severity_sel w = options -> severity_mask w r = true).
Proof.
  intros Hin. unfold with_severity in Hin. cbn [rows assign] in Hin.
  apply in_map_iff in Hin. destruct Hin as [[l0 r0] [E _]].
  unfold on_row in E. cbn [fst snd] in E. injection E as <- <-.
  assert (Hs : exists s, get (set r0 "severity"
                            (apply_classify_severity (get r0 "total_casualties")))
                           "severity" = Txt s /\ In s options).
  { rewrite get_set, String.eqb_refl.
    assert (Hc : forall t, In (classify_severity t) options).
    { intros t. unfold classify_severity, options.
      destruct (t >=? 1000); [simpl; tauto |].
      destruct (t >=? 100); simpl; tauto. }
    unfold apply_classify_severity.
    destruct (get r0 "total_casualties"); eexists; (split; [reflexivity |]);
      try apply Hc; unfold options; simpl; tauto. }
  split; [exact Hs |].
  intros Hsel. destruct Hs as [s [Es Hin]].
  unfold severity_mask, isin. rewrite Es, Hsel. now apply mem_In.
Qed.

(** X15. A click on a check box takes effect unless it would leave no
    box ticked: from a session with at least one box ticked, the click
    flips that box and no other when some box stays ticked, and leaves the
    session as it was otherwise. *)
Theorem click_takes_effect (c : checkbox) (s : bool * bool * bool) :
  some_selected s = true ->
  interact (session_of s) (Toggle c)
  = Some (session_of (if some_selected (flipped c s) then flipped c s else s)).
Proof.
  destruct s as [[a b] d], c, a, b, d; intros H; try discriminate H;
    reflexivity.
Qed.

(** X16. The threat label follows the ticked boxes alone: after any
    sequence of interactions it is MIXED exactly when two or three boxes
    are ticked, SEVERE, MODERATE or LOW exactly when Severe, Moderate or
    Minor is the only one; the branch LOW is never reached with no box
    ticked. *)
Theorem threat_label_of_session (trace : list interaction) :
  exists st sel,
    session_after trace = Some st /\
    severity_filter st = Some sel /\
    let label := sev_label (dominant_threat sel) in
    (label = "MIXED" <-> (2 <= List.length sel)%nat) /\
    (label = "SEVERE" <-> sel = [ "Severe" ]) /\
    (label = "MODERATE" <-> sel = [ "Moderate" ]) /\
    (label = "LOW" <-> sel = [ "Minor" ]).
Proof.
  unfold session_after.
  change (initialize []) with (session true true true).
  destruct (interact_all_session trace true true true eq_refl)
    as [a [b [c [E H]]]].
  rewrite E. exists (session a b c).
  destruct a, b, c; try discriminate H;
    (eexists; split; [reflexivity |]; split; [reflexivity |]);
    cbv zeta; cbn; repeat split; intros Hx; try discriminate Hx;
    try reflexivity; try lia.
Qed.

(** X17. On a dataset whose rows hold integer counts with the total
    equal to the [int64] sum of deaths and injuries, the three KPI cards
    agree whatever the filter: Total Casualties is the [int64] sum of
    Fatalities and Injuries, also when the placeholder is shown. *)
Theorem kpi_cards_agree (df : frame) (w : controls) :
  (forall lr, In lr (rows df) -> consistent (snd lr)) ->
  let a := aggregate (displayed df w) (metric w) in
  totalCasualties a = Int64.add (totalDeaths a) (totalInjuries a).
Proof.
  intros H. cbv zeta. cbn [totalCasualties totalDeaths totalInjuries aggregate].
  unfold int_sum, column.
  destruct (consistent_columns (rows (displayed df w))) as [Ht [Hd [Hi Hs]]].
  { intros lr Hlr. destruct (displayed_rows df w lr Hlr) as [Hin | Hin].
    - now apply H.
    - now apply (placeholder_consistent df w). }
  rewrite Ht, Hd, Hi, !sum_wrap, Hs. unfold Int64.add.
  now rewrite wrap_add_l, wrap_add_r.
Qed.

(** X18. The peak event of a frame with distinct labels is the first row
    that holds the greatest value of the metric: every earlier row holds a
    smaller value, no row holds a greater one, rows without a value are
    passed over; and a peak exists as soon as one row holds a value, as in
    every displayed frame of integer counts. *)
Theorem peak_is_first_maximum (f : frame) (m : string) :
  NoDup (map fst (rows f)) ->
  ((exists lr, In lr (rows f) /\ value m lr <> None) ->
   exists r, peak f m = Some r) /\
  (forall r, peak f m = Some r ->
     exists l x earlier later,
       rows f = earlier ++ (l, r) :: later /\
       value m (l, r) = Some x /\
       (forall lr y, In lr earlier -> value m lr = Some y -> (y < x)%Q) /\
       (forall lr y, In lr later -> value m lr = Some y -> (y <= x)%Q)).
Proof. exact (peak_spec f m). Qed.

(** X19. The alert line never fails on an empty result: on a dataset with
    distinct labels whose metric column holds integers, the displayed frame
    always has a peak event, the placeholder standing in when the filter
    matches nothing. *)
Theorem alert_has_a_peak (df : frame) (w : controls) :
  NoDup (map fst (rows df)) ->
  In (metric w) metrics ->
  (forall lr, In lr (rows df) -> exists z, get (snd lr) (metric w) = Int z) ->
  exists r, peak (displayed df w) (metric w) = Some r.
Proof.
  intros Hnd Hm Hint.
  apply (peak_spec (displayed df w) (metric w) (displayed_labels df w Hnd)).
  destruct (displayed_not_empty df w) as [lr Hlr]. exists lr.
  split; [exact Hlr |]. unfold value.
  destruct (displayed_rows df w lr Hlr) as [Hin | Hin].
  - destruct (Hint lr Hin) as [z Ez]. rewrite Ez. discriminate.
  - unfold placeholder in Hin. cbv zeta in Hin. unfold metrics in Hm.
    simpl in Hm.
    destruct (has_tsunami df); cbn in Hin; destruct Hin as [<- | []];
      repeat (destruct Hm as [<- | Hm]; [discriminate |]); contradiction.
Qed.

(** X20. The yearly totals behind the trend chart: one entry for each
    distinct year of the frame and no other, in strictly ascending order
    of year; and when years and metric are integers, the entries are
    integers whose [int64] sum is the total of the metric over the frame. *)
Theorem yearly_totals (f : frame) (m : string) :
  Sorted Z.lt (map fst (trend f m)) /\
  (forall y, In y (map fst (trend f m)) <->
             exists lr, In lr (rows f) /\ get (snd lr) "year" = Int y) /\
  ((forall lr, In lr (rows f) ->
      (exists y, get (snd lr) "year" = Int y) /\
      (exists z, get (snd lr) m = Int z)) ->
   exists totals,
     map snd (trend f m) = map Int totals /\
     Int64.sum totals = int_sum (column f m)).
Proof.
  assert (Ek : map fst (trend f m) = years f).
  { unfold trend. rewrite map_map. cbn [fst]. apply map_id. }
  rewrite Ek. split; [apply years_sorted |]. split.
  - intros y. rewrite years_In. split; intros [lr [Hin Hy]]; exists lr;
      (split; [exact Hin | now apply year_of_Int]).
  - intros H.
    set (v := fun lr : nat * row => int_value (get (snd lr) m)).
    assert (Hint : forall l, (forall lr, In lr l -> In lr (rows f)) ->
                     forallb is_int (map (fun lr => get (snd lr) m) l) = true).
    { intros l Hl. apply forallb_forall. intros c Hc.
      apply in_map_iff in Hc. destruct Hc as [lr [<- Hin]].
      destruct (H lr (Hl lr Hin)) as [_ [z Ez]]. now rewrite Ez. }
    exists (map (fun y => Int64.sum (map v (List.filter (in_year y) (rows f))))
              (years f)).
    split.
    + unfold trend. rewrite !map_map. cbn [snd]. apply map_ext. intros y.
      unfold series_sum, group.
      change (fun lr : nat * row =>
                match year_of (snd lr) with
                | Some y' => y' =? y
                | None => false
                end) with (in_year y).
      rewrite Hint; [| intros lr Hlr; apply filter_In in Hlr; tauto].
      now rewrite map_map.
    + rewrite sum_wrap.
      rewrite (map_ext _ (fun y => Int64.wrap
                            (Zsum (map v (List.filter (in_year y) (rows f))))))
        by (intros y; apply sum_wrap).
      rewrite wrap_Zsum_wrap, Zsum_by_year
        by (apply sorted_lt_NoDup, years_sorted).
      unfold int_sum, column. rewrite (Hint (rows f)) by auto.
      rewrite sum_wrap, map_map. fold v. f_equal. f_equal. f_equal.
      clear Hint. assert (Hall : forall lr, In lr (rows f) ->
                                   in_years (years f) lr = true).
      { intros lr Hlr. destruct (H lr Hlr) as [[y Ey] _].
        apply year_of_Int in Ey. unfold in_years. rewrite Ey.
        apply existsb_exists. exists y. split; [| apply Z.eqb_refl].
        apply years_In. eauto. }
      induction (rows f) as [| x t IH]; cbn [List.filter]; [reflexivity |].
      rewrite Hall by now left. f_equal. apply IH.
      * intros lr Hlr. apply H. now right.
      * intros lr Hlr. apply Hall. now right.
Qed.

Section WithLib.
Context {L : Lib}.

(** X21. The table and the export button are left out exactly when the
    filter matches nothing or the dataset has no [date] column: the
    placeholder row is never listed and never exported. *)
Theorem table_left_out (df : frame) (w : controls) :
  table_and_export (displayed df w) = None <->
  rows (filter_logic df w) = [] \/ Py.mem "date" (columns df) = false.
Proof.
  unfold displayed, empty. cbv zeta.
  destruct (rows (filter_logic df w)) as [| x t] eqn:E.
  - split; [now left |]. intros _. unfold placeholder. cbv zeta.
    destruct (has_tsunami df); reflexivity.
  - unfold table_and_export, empty. rewrite E, columns_filter_logic.
    cbn [orb]. destruct (Py.mem "date" (columns df)); cbn [negb]; split.
    + discriminate.
    + intros [H | H]; discriminate.
    + now right.
    + reflexivity.
Qed.

(** X22. On a frame that has rows, each with a date, the table lists the
    rows of the 25 latest dates, latest first, under the shown columns that
    the frame has; every date left out is no later than any date listed;
    the export holds the whole frame, not the 25 rows. *)
Theorem table_lists_latest (f : frame) :
  rows f <> [] ->
  Py.mem "date" (columns f) = true ->
  (forall lr, In lr (rows f) -> exists t, get (snd lr) "date" = Date t) ->
  exists tbl ks,
    table_and_export f = Some (tbl, frame_to_csv f) /\
    columns tbl = List.filter (fun c => Py.mem c (columns f)) (cols_to_show f) /\
    List.length (rows tbl) = Nat.min 25 (List.length (rows f)) /\
    (forall l, In l (map fst (rows tbl)) -> In l (map fst (rows f))) /\
    Permutation (map Some ks) (map (fun lr => Schema.date_key (snd lr)) (rows f)) /\
    Sorted later_first ks /\
    map (fun lr => Schema.date_key (snd lr)) (rows tbl) = map Some (firstn 25 ks) /\
    (forall a b, In a (firstn 25 ks) -> In b (skipn 25 ks) -> b <= a).
Proof.
  intros Hne Hd Hdates.
  set (cols := List.filter (fun c => Py.mem c (columns f)) (cols_to_show f)).
  set (P := map (on_row (fun r => map (fun c => (c, get r c)) cols)) (rows f)).
  set (S := fold_right (insert_desc "date") [] P).
  assert (Hcol : In "date" cols).
  { apply filter_In. split; [| exact Hd]. unfold cols_to_show.
    apply in_or_app. left. simpl. tauto. }
  assert (HP : map (fun lr => Schema.date_key (snd lr)) P
               = map (fun lr => Schema.date_key (snd lr)) (rows f)).
  { unfold P. rewrite map_map. apply map_ext. intros [l r].
    unfold on_row, Schema.date_key. cbn [snd]. now rewrite get_project. }
  destruct (sort_desc_dates P) as [ks [Eks Hs]].
  { intros x Hx. unfold P in Hx. apply in_map_iff in Hx.
    destruct Hx as [[l r] [<- Hin]]. destruct (Hdates _ Hin) as [t Ht].
    exists t. unfold on_row, Schema.date_key. cbn [snd] in *.
    now rewrite get_project, Ht. }
  fold S in Eks.
  exists {| columns := cols; rows := firstn 25 S |}, ks.
  split; [| split; [| split; [| split; [| split; [| split; [| split]]]]]].
  - assert (He : empty f = false).
    { unfold empty. destruct (rows f) eqn:E; [congruence | reflexivity]. }
    unfold table_and_export. rewrite He, Hd. reflexivity.
  - reflexivity.
  - cbn [rows]. rewrite length_firstn. f_equal.
    unfold S. rewrite (Permutation_length (sort_desc_perm "date" P)).
    unfold P. apply length_map.
  - cbn [rows]. intros l Hl. apply in_map_iff in Hl.
    destruct Hl as [x [<- Hx]].
    assert (Hx' : In x S).
    { rewrite <- (firstn_skipn 25 S). apply in_or_app. now left. }
    clear Hx. rename Hx' into Hx.
    apply (Permutation_in _ (sort_desc_perm "date" P)) in Hx.
    unfold P in Hx. apply in_map_iff in Hx. destruct Hx as [y [<- Hy]].
    unfold on_row. cbn [fst]. now apply in_map.
  - rewrite <- Eks, <- HP. apply Permutation_map, sort_desc_perm.
  - exact Hs.
  - cbn [rows]. now rewrite <- firstn_map, Eks, firstn_map.
  - now apply head_before_tail.
Qed.

End WithLib.

(** *** The theorems at the sample dataset *)

Import Examples.

Lemma first_event_classified :
  In (0%nat, first_event) (rows (with_severity dataset)).
Proof. vm_compute. left. reflexivity. Qed.

Lemma dataset_labels : NoDup (map fst (rows dataset)).
Proof.
  vm_compute. constructor; [| constructor; [| constructor]]; simpl;
    intuition discriminate.
Qed.

Lemma dataset_consistent :
  forall lr, In lr (rows dataset) -> consistent (snd lr).
Proof.
  intros lr H. vm_compute in H.
  destruct H as [<- | [<- | []]]; exists 5, 0; vm_compute; repeat split.
Qed.

Lemma dataset_metric :
  forall lr, In lr (rows dataset) ->
    exists z, get (snd lr) (metric panel) = Int z.
Proof.
  intros lr H. vm_compute in H.
  destruct H as [<- | [<- | []]]; exists 5; vm_compute; reflexivity.
Qed.

Lemma panel_metric : In (metric panel) metrics.
Proof. vm_compute. left. reflexivity. Qed.

Lemma dataset_not_empty : rows dataset <> [].
Proof. vm_compute. discriminate. Qed.

Lemma dataset_has_date : Py.mem "date" (columns dataset) = true.
Proof. vm_compute. reflexivity. Qed.

Lemma dataset_dates :
  forall lr, In lr (rows dataset) -> exists t, get (snd lr) "date" = Date t.
Proof.
  intros lr H. vm_compute in H.
  destruct H as [<- | [<- | []]]; eexists; vm_compute; reflexivity.
Qed.

Lemma severity_default_excludes_nothing_witness :
  In (0%nat, first_event) (rows (with_severity dataset)) /\
  (exists s, get first_event "severity" = Txt s /\ In s options) /\
  (severity_sel panel = options -> severity_mask panel first_event = true).
Proof.
  split; [exact first_event_classified |].
  exact (severity_default_excludes_nothing dataset panel 0%nat first_event
           first_event_classified).
Defined.

Lemma click_takes_effect_witness :
  some_selected (true, false, false) = true /\
  interact (session_of (true, false, false)) (Toggle MinorBox)
  = Some (session_of
            (if some_selected (flipped MinorBox (true, false, false))
             then flipped MinorBox (true, false, false)
             else (true, false, false))).
Proof.
  split; [reflexivity |].
  exact (click_takes_effect MinorBox (true, false, false) eq_refl).
Defined.

Lemma kpi_cards_agree_witness :
  (forall lr, In lr (rows dataset) -> consistent (snd lr)) /\
  let a := aggregate (displayed dataset panel) (metric panel) in
  totalCasualties a = Int64.add (totalDeaths a) (totalInjuries a).
Proof.
  split; [exact dataset_consistent |].
  exact (kpi_cards_agree dataset panel dataset_consistent).
Defined.

Lemma peak_is_first_maximum_witness :
  NoDup (map fst (rows dataset)) /\
  ((exists lr, In lr (rows dataset) /\ value "total_casualties" lr <> None) ->
   exists r, peak dataset "total_casualties" = Some r) /\
  (forall r, peak dataset "total_casualties" = Some r ->
     exists l x earlier later,
       rows dataset = earlier ++ (l, r) :: later /\
       value "total_casualties" (l, r) = Some x /\
       (forall lr y, In lr earlier -> value "total_casualties" lr = Some y ->
                     (y < x)%Q) /\
       (forall lr y, In lr later -> value "total_casualties" lr = Some y ->
                     (y <= x)%Q)).
Proof.
  split; [exact dataset_labels |].
  exact (peak_is_first_maximum dataset "total_casualties" dataset_labels).
Defined.

Lemma alert_has_a_peak_witness :
  NoDup (map fst (rows dataset)) /\
  In (metric panel) metrics /\
  (forall lr, In lr (rows dataset) ->
     exists z, get (snd lr) (metric panel) = Int z) /\
  exists r, peak (displayed dataset panel_30) (metric panel_30) = Some r.
Proof.
  split; [exact dataset_labels |]. split; [exact panel_metric |].
  split; [exact dataset_metric |].
  exact (alert_has_a_peak dataset panel_30 dataset_labels panel_metric
           dataset_metric).
Defined.

Lemma table_lists_latest_witness :
  rows dataset <> [] /\
  Py.mem "date" (columns dataset) = true /\
  (forall lr, In lr (rows dataset) ->
     exists t, get (snd lr) "date" = Date t) /\
  exists tbl ks,
    table_and_export (L := PlainCsv.lib) dataset
    = Some (tbl, frame_to_csv (L := PlainCsv.lib) dataset) /\
    columns tbl
    = List.filter (fun c => Py.mem c (columns dataset)) (cols_to_show dataset) /\
    List.length (rows tbl) = Nat.min 25 (List.length (rows dataset)) /\
    (forall l, In l (map fst (rows tbl)) -> In l (map fst (rows dataset))) /\
    Permutation (map Some ks)
      (map (fun lr => Schema.date_key (snd lr)) (rows dataset)) /\
    Sorted later_first ks /\
    map (fun lr => Schema.date_key (snd lr)) (rows tbl)
    = map Some (firstn 25 ks) /\
    (forall a b, In a (firstn 25 ks) -> In b (skipn 25 ks) -> b <= a).
Proof.
  split; [exact dataset_not_empty |]. split; [exact dataset_has_date |].
  split; [exact dataset_dates |].
  exact (table_lists_latest (L := PlainCsv.lib) dataset dataset_not_empty
           dataset_has_date dataset_dates).
Defined.

End DisplaySpec.
